(** * LINE LIVE extractor ([youtube_dl/extractor/linelive.py])

    A shallow embedding of [LineLiveIE]: the URL pattern [_VALID_URL], the
    values the extractor handles (parsed JSON), and [_real_extract] written in
    a state-and-exception monad over the helpers of the host framework.

    The first half holds the definitions: the matcher for the pattern, the
    values, the framework as a record of helpers, the extractor, the
    properties stated about it, and a canned site to run it on. The second
    half holds the facts, and at its end the properties C1 to C10 of the
    specification.

    Conventions.
    - Text is [string]; a character is an [ascii], and [\d] is [0]..[9].
    - A parsed JSON document is a [py_value]; JSON numbers with a fraction
      (Python [float]) are outside the model.
    - A Python exception is a [failure]; the [raise] statements of
      [linelive.py] are kept apart from what an operation on a value or a
      framework helper raises. *)

From Stdlib Require Import String Ascii List ZArith Bool Lia PeanoNat DecimalString.
Import ListNotations.
Local Open Scope string_scope.

Set Implicit Arguments.
Set Warnings "-register-all".

(* ------------------------------------------------------------------ *)
(** ** Regular expressions: the fragment of Python's [re] that [_VALID_URL] uses *)

Module Re.

Inductive regex : Type :=
| Eps                                  (* the empty pattern *)
| Lit (c : ascii)                      (* an ordinary character *)
| AnyChar                              (* [.] : any character but a newline *)
| Digit                                (* [\d] *)
| Cat (r1 r2 : regex)                  (* [r1r2] *)
| Or (r1 r2 : regex)                   (* [r1|r2], left alternative first *)
| Opt (r : regex)                      (* [r?], greedy *)
| Plus (r : regex)                     (* [r+], greedy *)
| Named (name : string) (r : regex).   (* [(?P<name>r)] *)

(** The groups of a match, by name. *)
Definition groups := list (string * string).

Fixpoint group (g : groups) (name : string) : option string :=
  match g with
  | [] => None
  | (n, w) :: g' => if String.eqb n name then Some w else group g' name
  end.

Definition is_digit (c : ascii) : bool :=
  let n := nat_of_ascii c in ((48 <=? n) && (n <=? 57))%nat.

Definition is_newline (c : ascii) : bool := Ascii.eqb c "010"%char.

(** A literal run of characters, as it stands in a pattern. *)
Fixpoint lits (s : string) : regex :=
  match s with
  | EmptyString => Eps
  | String c s' => Cat (Lit c) (lits s')
  end.

(** One way to match a prefix: the text consumed, its groups, the rest. *)
Definition hit := (string * groups * string)%type.

Definition extend (w : string) (g : groups) (h : hit) : hit :=
  let '(w2, g2, s2) := h in (w ++ w2, (g ++ g2)%list, s2).

(** [r+], given the matches of [r]: after one match of [r], more of them are
    tried first (greedy), then the match as it stands. A further round is
    tried only when the last one consumed a character, so the length of the
    text is fuel enough (see [plus_hits_fuel]). *)
Fixpoint plus_hits (step : string -> list hit) (fuel : nat) (s : string) : list hit :=
  flat_map (fun h1 : hit =>
              let '(w1, g1, s1) := h1 in
              (match fuel with
               | O => []
               | S fuel' =>
                   if (String.length s1 <? String.length s)%nat
                   then map (extend w1 g1) (plus_hits step fuel' s1)
                   else []
               end ++ [h1])%list)
           (step s).

(** All the ways [r] matches a prefix of [s], in the order a backtracking
    matcher tries them: the head of the list is the match Python reports. *)
Fixpoint hits (r : regex) (s : string) : list hit :=
  match r with
  | Eps => [(EmptyString, [], s)]
  | Lit c =>
      match s with
      | String c' s' => if Ascii.eqb c c' then [(String c' EmptyString, [], s')] else []
      | EmptyString => []
      end
  | AnyChar =>
      match s with
      | String c' s' => if is_newline c' then [] else [(String c' EmptyString, [], s')]
      | EmptyString => []
      end
  | Digit =>
      match s with
      | String c' s' => if is_digit c' then [(String c' EmptyString, [], s')] else []
      | EmptyString => []
      end
  | Cat r1 r2 =>
      flat_map (fun h1 : hit =>
                  let '(w1, g1, s1) := h1 in map (extend w1 g1) (hits r2 s1))
               (hits r1 s)
  | Or r1 r2 => (hits r1 s ++ hits r2 s)%list
  | Opt r1 => (hits r1 s ++ [(EmptyString, [], s)])%list
  | Plus r1 => plus_hits (hits r1) (String.length s) s
  | Named name r1 =>
      map (fun h1 : hit => let '(w1, g1, s1) := h1 in (w1, (name, w1) :: g1, s1))
          (hits r1 s)
  end.

(** [re.match]: the pattern at the start of the string. *)
Definition re_match (r : regex) (s : string) : option groups :=
  match hits r s with
  | (_, g, _) :: _ => Some g
  | [] => None
  end.

(** [re.search]: the first position of the string where the pattern matches. *)
Fixpoint re_search (r : regex) (s : string) : option groups :=
  match re_match r s with
  | Some g => Some g
  | None =>
      match s with
      | String _ s' => re_search r s'
      | EmptyString => None
      end
  end.

(** Concatenation of the pieces of a pattern, left to right. *)
Fixpoint cats (rs : list regex) : regex :=
  match rs with
  | [] => Eps
  | [r] => r
  | r :: rs' => Cat r (cats rs')
  end.

(** What it means for a pattern to match a text exactly, with its groups. *)
Inductive matches : regex -> string -> groups -> Prop :=
| M_Eps : matches Eps EmptyString []
| M_Lit c : matches (Lit c) (String c EmptyString) []
| M_Any c : is_newline c = false -> matches AnyChar (String c EmptyString) []
| M_Digit c : is_digit c = true -> matches Digit (String c EmptyString) []
| M_Cat r1 r2 w1 w2 g1 g2 :
    matches r1 w1 g1 -> matches r2 w2 g2 ->
    matches (Cat r1 r2) (w1 ++ w2) (g1 ++ g2)%list
| M_OrL r1 r2 w g : matches r1 w g -> matches (Or r1 r2) w g
| M_OrR r1 r2 w g : matches r2 w g -> matches (Or r1 r2) w g
| M_OptSome r w g : matches r w g -> matches (Opt r) w g
| M_OptNone r : matches (Opt r) EmptyString []
| M_PlusOne r w g : matches r w g -> matches (Plus r) w g
| M_PlusMore r w1 w2 g1 g2 :
    matches r w1 g1 -> matches (Plus r) w2 g2 ->
    matches (Plus r) (w1 ++ w2) (g1 ++ g2)%list
| M_Named name r w g : matches r w g -> matches (Named name r) w ((name, w) :: g).

(** Every character of the text is a decimal digit. *)
Fixpoint all_digits (w : string) : bool :=
  match w with
  | EmptyString => true
  | String c w' => is_digit c && all_digits w'
  end.

End Re.

(* ------------------------------------------------------------------ *)
(** ** The class attributes of [LineLiveIE] *)

Import Re.

(** [_VALID_URL], lines 15-16:
    [https?://live.line.me/channels/(?P<channel_id>\d+)/(?P<link_type>broadcast|upcoming)/(?P<id>\d+)].
    The dots of [live.line.me] are not escaped in the source. *)
Definition _VALID_URL : regex :=
  cats [ lits "http"; Opt (Lit "s"); lits "://live"; AnyChar; lits "line"; AnyChar;
         lits "me/channels/";
         Named "channel_id" (Plus Digit); Lit "/";
         Named "link_type" (Or (lits "broadcast") (lits "upcoming")); Lit "/";
         Named "id" (Plus Digit) ].

(* ------------------------------------------------------------------ *)
(** ** Python values and the operations [_real_extract] applies to them *)

(** What [json.loads] returns, and what the extractor returns. A [dict] is the
    list of its items; a key occurs once. *)
Inductive py_value : Type :=
| PNone
| PBool (b : bool)
| PInt (z : Z)
| PStr (s : string)
| PList (l : list py_value)
| PDict (d : list (string * py_value)).

(** Exceptions of the interpreter, raised by an operation on a value. *)
Inductive py_exn : Type := TypeError | AttributeError | KeyError | IndexError.

(** [ExtractorError(msg, expected=...)]. *)
Record ExtractorError : Type := { msg : string; expected : bool }.

Inductive failure : Type :=
| Raised (e : ExtractorError)          (* a [raise] statement of [linelive.py] *)
| RegexNotFoundError (name : string)   (* [_search_regex] found nothing, no default *)
| AssertionError                       (* [assert m] of [_match_id] *)
| PyError (e : py_exn)                 (* an operation on a value *)
| HelperError (what : string).         (* propagated from a framework helper *)

Inductive outcome (A : Type) : Type :=
| Ok (a : A)
| Fail (f : failure).
Arguments Fail {A} f.

(** Truth value of an object ([not x], [x or y], [if x]). *)
Definition py_truthy (v : py_value) : bool :=
  match v with
  | PNone => false
  | PBool b => b
  | PInt z => negb (Z.eqb z 0)
  | PStr s => negb (String.eqb s "")
  | PList l => match l with [] => false | _ => true end
  | PDict d => match d with [] => false | _ => true end
  end.

Definition is_none (v : py_value) : bool :=
  match v with PNone => true | _ => false end.

(** [x == 'text']. *)
Definition py_eq_str (v : py_value) (t : string) : bool :=
  match v with PStr s => String.eqb s t | _ => false end.

Fixpoint lookup (d : list (string * py_value)) (k : string) : option py_value :=
  match d with
  | [] => None
  | (k', v) :: d' => if String.eqb k' k then Some v else lookup d' k
  end.

(** [sub in s] for two strings. *)
Fixpoint substring_of (sub s : string) : bool :=
  String.prefix sub s ||
  match s with
  | String _ s' => substring_of sub s'
  | EmptyString => false
  end.

(** ['key' in x]. *)
Definition py_contains (k : string) (v : py_value) : outcome bool :=
  match v with
  | PDict d => Ok (match lookup d k with Some _ => true | None => false end)
  | PList l => Ok (existsb (fun x => py_eq_str x k) l)
  | PStr s => Ok (substring_of k s)
  | PNone | PBool _ | PInt _ => Fail (PyError TypeError)
  end.

(** [x.get('key')]: only a [dict] has the method. *)
Definition py_get (v : py_value) (k : string) : outcome py_value :=
  match v with
  | PDict d => Ok (match lookup d k with Some x => x | None => PNone end)
  | _ => Fail (PyError AttributeError)
  end.

(** [x['key']]. *)
Definition py_getitem (v : py_value) (k : string) : outcome py_value :=
  match v with
  | PDict d => match lookup d k with Some x => Ok x | None => Fail (PyError KeyError) end
  | _ => Fail (PyError TypeError)
  end.

Definition is_str (v : py_value) : bool :=
  match v with PStr _ => true | _ => false end.

(** The text [%s] puts for a value: [str(x)]. The text of a [list] or a
    [dict] is left to [repr_]. *)
Definition py_str (repr_ : py_value -> string) (v : py_value) : string :=
  match v with
  | PNone => "None"
  | PBool true => "True"
  | PBool false => "False"
  | PInt z => NilZero.string_of_int (Z.to_int z)
  | PStr s => s
  | PList _ | PDict _ => repr_ v
  end.

(** Modelled from the spec: [try_get] of [youtube_dl/utils.py], which is not
    among the sources. It applies the getter, turns a lookup error into
    [None], and keeps the value only when it has the expected type. *)
Definition try_get (src : py_value) (getter : py_value -> outcome py_value)
           (expected_type : py_value -> bool) : outcome py_value :=
  match getter src with
  | Ok v => Ok (if expected_type v then v else PNone)
  | Fail (PyError _) => Ok PNone
  | Fail f => Fail f
  end.

Definition digit_value (c : ascii) : Z := Z.of_nat (nat_of_ascii c) - 48.

Fixpoint decimal (acc : Z) (s : string) : Z :=
  match s with
  | EmptyString => acc
  | String c s' => decimal (10 * acc + digit_value c) s'
  end.

(** [int('text')] for an optional sign and decimal digits. *)
Definition int_of_text (s : string) : option Z :=
  match s with
  | String "-"%char s' =>
      if all_digits s' && negb (String.eqb s' "") then Some (- decimal 0 s') else None
  | String "+"%char s' =>
      if all_digits s' && negb (String.eqb s' "") then Some (decimal 0 s') else None
  | _ => if all_digits s && negb (String.eqb s "") then Some (decimal 0 s) else None
  end%Z.

(** Modelled from the spec: [int_or_none] of [youtube_dl/utils.py], which is
    not among the sources. An integer is kept, a numeric string is read as an
    integer, and any other value gives [None]. *)
Definition int_or_none (v : py_value) : py_value :=
  match v with
  | PInt z => PInt z
  | PBool b => PInt (if b then 1 else 0)
  | PStr s => match int_of_text s with Some z => PInt z | None => PNone end
  | PNone | PList _ | PDict _ => PNone
  end.

(** Modelled from the spec: [_search_regex] of
    [youtube_dl/extractor/common.py], which is not among the sources, as the
    extractor calls it: [re.search], then the named group; with no default
    given, a string without the pattern raises. *)
Definition _search_regex (pattern : regex) (s name group_ : string) : outcome string :=
  match re_search pattern s with
  | Some g =>
      match group g group_ with
      | Some w => Ok w
      | None => Fail (PyError IndexError)
      end
  | None => Fail (RegexNotFoundError name)
  end.

(** Modelled from the spec: [_match_id] of [youtube_dl/extractor/common.py],
    which is not among the sources: [re.match] of [_VALID_URL], asserted to
    succeed, then the group [id]. *)
Definition _match_id (url : string) : outcome string :=
  match re_match _VALID_URL url with
  | Some g =>
      match group g "id" with
      | Some w => Ok w
      | None => Fail (PyError IndexError)
      end
  | None => Fail AssertionError
  end.

(** Modelled from the spec: [suitable] of [youtube_dl/extractor/common.py],
    which is not among the sources: the URLs the extractor accepts are those
    [_VALID_URL] matches from their start. *)
Definition suitable (url : string) : bool :=
  match re_match _VALID_URL url with Some _ => true | None => false end.

(* ------------------------------------------------------------------ *)
(** ** The extractor object, the world, and the helpers of the framework *)

(** What [_request_webpage] returns: the response, with the URL it was
    finally served from. *)
Record response : Type := { resp_url : string; resp_body : string }.

(** One entry of the call log: a helper of the framework called by
    [_real_extract], with the arguments that matter here. *)
Inductive call : Type :=
| Call_request_webpage (url video_id : string)
| Call_webpage_read_content (url video_id : string)
| Call_download_json (url video_id : string)
| Call_html_search_regex (pattern name : string)
| Call_parse_json (text video_id : string)
| Call_extract_m3u8_formats (manifest_url : py_value) (video_id : string) (live : bool)
| Call_sort_formats (formats : py_value)
| Call_og_search_title
| Call_og_search_description
| Call_og_search_thumbnail
| Call_live_title (title : py_value).

Section Extractor.

(** [E]: the attributes of the extractor object. [W]: everything outside it
    that a helper reads or changes (the network, the clock, the screen). *)
Variables E W : Type.

Record state : Type := { self : E; world : W; calls : list call }.

(** A helper that may raise, and one that may not. *)
Definition helper (A : Type) : Type := E * W -> (A + string) * (E * W).
Definition total_helper (A : Type) : Type := E * W -> A * (E * W).

(** The methods and functions [_real_extract] takes from the framework. *)
Record Framework : Type := {
  request_webpage : string -> string -> helper response;
  webpage_read_content : response -> string -> string -> helper string;
  (* [_download_json(url, video_id, fatal=False)]: a failed download is
     the value [False], not an exception *)
  download_json : string -> string -> total_helper py_value;
  (* [_html_search_regex] with a default: [None] stands for no match *)
  html_search_regex : string -> string -> string -> total_helper (option string);
  parse_json : string -> string -> helper py_value;
  extract_m3u8_formats : py_value -> string -> bool -> helper py_value;
  sort_formats : py_value -> helper py_value;
  og_search_title : string -> helper py_value;
  og_search_description : string -> helper py_value;
  og_search_thumbnail : string -> helper py_value;
  live_title : py_value -> helper py_value;
  update_url_query : string -> list (string * py_value) -> string;
  repr_ : py_value -> string
}.

(** Computations of [_real_extract]: they read and change the state and
    end with a value or an exception. *)
Definition M (A : Type) : Type := state -> outcome A * state.

Definition ret {A} (a : A) : M A := fun s => (Ok a, s).

Definition bind {A B} (m : M A) (f : A -> M B) : M B :=
  fun s =>
    match m s with
    | (Ok a, s1) => f a s1
    | (Fail e, s1) => (Fail e, s1)
    end.

Definition lift {A} (o : outcome A) : M A := fun s => (o, s).

Definition raise {A} (e : ExtractorError) : M A := fun s => (Fail (Raised e), s).

(** A call of a helper: it is logged, then run on the object and the world. *)
Definition invoke {A} (c : call) (h : helper A) : M A :=
  fun s =>
    let '(r, (e, w)) := h (self s, world s) in
    (match r with inl a => Ok a | inr what => Fail (HelperError what) end,
     {| self := e; world := w; calls := calls s ++ [c] |}).

Definition invoke_total {A} (c : call) (h : total_helper A) : M A :=
  fun s =>
    let '(a, (e, w)) := h (self s, world s) in
    (Ok a, {| self := e; world := w; calls := calls s ++ [c] |}).

(** An assignment to an attribute of the object, [self.name = value]: what a
    method can do to its object without a helper. [_real_extract] has no such
    statement. *)
Definition set_attribute (update : E -> E) : M unit :=
  fun s => (Ok tt, {| self := update (self s); world := world s; calls := calls s |}).

End Extractor.

Arguments set_attribute {E W} update.
Arguments ret {E W A} a.
Arguments bind {E W A B} m f.
Arguments lift {E W A} o.
Arguments raise {E W A} e.
Arguments invoke {E W A} c h.
Arguments invoke_total {E W A} c h.

Notation "x <- m ;; k" := (bind m (fun x => k))
  (at level 61, m at next level, right associativity).
Notation "' pat <- m ;; k" := (bind m (fun x => match x with pat => k end))
  (at level 61, pat pattern, m at next level, right associativity).

(* ------------------------------------------------------------------ *)
(** ** [LineLiveIE._real_extract] *)

Definition obind {A B} (o : outcome A) (f : A -> outcome B) : outcome B :=
  match o with
  | Ok a => f a
  | Fail e => Fail e
  end.

(** [a or b] on truth values, [b] evaluated only when [a] is false. *)
Definition or_else (a : bool) (b : outcome bool) : outcome bool :=
  if a then Ok true else b.

(** ['key' not in x]. *)
Definition py_not_in (k : string) (v : py_value) : outcome bool :=
  obind (py_contains k v) (fun b => Ok (negb b)).

(** [hls_urls is None or hls_urls.get('abr') is None], lines 108, 113, 122. *)
Definition no_abr (hls_urls : py_value) : outcome bool :=
  or_else (is_none hls_urls)
          (obind (py_get hls_urls "abr") (fun abr => Ok (is_none abr))).

Definition dquote : string := String (ascii_of_nat 34) EmptyString.

(** The pattern of line 94: [data-broadcast=], a quote, [([^] quote [\]+)], a quote. *)
Definition data_broadcast_re : string :=
  "data-broadcast=" ++ dquote ++ "([^" ++ dquote ++ "]+)" ++ dquote.

Section LineLiveIE.

Variables E W : Type.
Variable fw : Framework E W.

Local Abbreviation M := (M E W).

(** The methods of the base class, each a logged call of the helper. *)
Definition _request_webpage (url video_id : string) : M response :=
  invoke (Call_request_webpage url video_id) (request_webpage fw url video_id).

Definition _webpage_read_content (req : response) (url video_id : string) : M string :=
  invoke (Call_webpage_read_content url video_id) (webpage_read_content fw req url video_id).

Definition _download_json (url video_id : string) : M py_value :=
  invoke_total (Call_download_json url video_id) (download_json fw url video_id).

Definition _html_search_regex (pattern webpage name default : string) : M string :=
  found <- invoke_total (Call_html_search_regex pattern name)
                        (html_search_regex fw pattern webpage name) ;;
  ret (match found with Some text => text | None => default end).

Definition _parse_json (text video_id : string) : M py_value :=
  invoke (Call_parse_json text video_id) (parse_json fw text video_id).

Definition _extract_m3u8_formats (manifest_url : py_value) (video_id : string)
           (live : bool) : M py_value :=
  invoke (Call_extract_m3u8_formats manifest_url video_id live)
         (extract_m3u8_formats fw manifest_url video_id live).

Definition _sort_formats (formats : py_value) : M py_value :=
  invoke (Call_sort_formats formats) (sort_formats fw formats).

Definition _og_search_title (webpage : string) : M py_value :=
  invoke Call_og_search_title (og_search_title fw webpage).

Definition _og_search_description (webpage : string) : M py_value :=
  invoke Call_og_search_description (og_search_description fw webpage).

Definition _og_search_thumbnail (webpage : string) : M py_value :=
  invoke Call_og_search_thumbnail (og_search_thumbnail fw webpage).

Definition _live_title (title : py_value) : M py_value :=
  invoke (Call_live_title title) (live_title fw title).

(** [x or y], with [y] a computation run only when [x] is false. *)
Definition py_or (x : py_value) (y : M py_value) : M py_value :=
  if py_truthy x then ret x else y.

(** Lines 61-68: the ids of the URL and the page. *)
Definition open_page (url : string)
  : M (string * string * string * response * string) :=
  channel_id <- lift (_search_regex _VALID_URL url "channel_id" "channel_id") ;;
  broadcast_id <- lift (_match_id url) ;;
  let video_id := channel_id ++ "_" ++ broadcast_id in
  req <- _request_webpage url video_id ;;
  webpage <- _webpage_read_content req url video_id ;;
  ret (channel_id, broadcast_id, video_id, req, webpage).

(** Lines 75-83: an upcoming link takes its broadcast id from the URL the
    page was served from. *)
Definition resolve_upcoming (url channel_id broadcast_id video_id : string)
           (req : response) : M (string * string) :=
  link_type <- lift (_search_regex _VALID_URL url "link_type" "link_type") ;;
  if String.eqb link_type "upcoming" then
    let url := resp_url req in
    link_type' <- lift (_search_regex _VALID_URL url "link_type" "link_type") ;;
    if negb (String.eqb link_type' "broadcast") then
      raise {| msg := "Broadcast not found"; expected := true |}
    else
      broadcast_id <- lift (_match_id url) ;;
      let video_id := channel_id ++ "_" ++ broadcast_id in
      ret (broadcast_id, video_id)
  else ret (broadcast_id, video_id).

Definition broadcast_api_url (channel_id broadcast_id : string) : string :=
  "https://live-api.line-apps.com/app/v2/channel/" ++ channel_id
    ++ "/broadcast/" ++ broadcast_id.

(** Lines 86-98: the broadcast info, from the API or from the page. *)
Definition broadcast_info_lookup (channel_id broadcast_id video_id webpage : string)
  : M py_value :=
  broadcast_info <- _download_json (broadcast_api_url channel_id broadcast_id) video_id ;;
  absent <- lift (or_else (negb (py_truthy broadcast_info))
                          (py_not_in "item" broadcast_info)) ;;
  broadcast_info <-
    (if absent : bool then
       broadcast_info_str <- _html_search_regex data_broadcast_re webpage
                                                "data-broadcast" "null" ;;
       _parse_json broadcast_info_str video_id
     else ret broadcast_info) ;;
  absent <- lift (or_else (is_none broadcast_info)
                          (py_not_in "item" broadcast_info)) ;;
  if absent : bool then raise {| msg := "Broadcast not found"; expected := true |}
  else ret broadcast_info.

Definition lss_api_url (is_live : bool) (lsa_path : py_value) : string :=
  let stream_type := if is_live then "live" else "vod" in
  let lss_api_url := "https://lssapi.line-apps.com/v1/" ++ stream_type ++ "/playInfo" in
  update_url_query fw lss_api_url [("contentId", lsa_path)].

(** Lines 106-125: the HLS URLs, from the three places that may hold them. *)
Definition hls_urls_lookup (broadcast_info item : py_value) (is_live : bool)
           (video_id : string) : M py_value :=
  hls_urls <- lift (py_get broadcast_info "liveHLSURLs") ;;
  missing <- lift (no_abr hls_urls) ;;
  hls_urls <-
    (if missing : bool then lift (py_get broadcast_info "archivedHLSURLs")
     else ret hls_urls) ;;
  missing <- lift (no_abr hls_urls) ;;
  hls_urls <-
    (if missing : bool then
       lsa_path <- lift (py_get broadcast_info "lsaPath") ;;
       lss_info <- _download_json (lss_api_url is_live lsa_path) video_id ;;
       if py_truthy lss_info then lift (py_get lss_info "playUrls") else ret PNone
     else ret hls_urls) ;;
  missing <- lift (no_abr hls_urls) ;;
  if missing : bool then
    archive_status <- lift (py_get item "archiveStatus") ;;
    raise {| msg := "Broadcast has an archive status of "
                      ++ py_str (repr_ fw) archive_status;
             expected := true |}
  else ret hls_urls.

(** Lines 135-165: the metadata and the record returned. *)
Definition video_info (channel_id video_id webpage : string)
           (broadcast_info item : py_value) (is_live : bool) (formats : py_value)
  : M py_value :=
  title <- lift (py_get item "title") ;;
  title <- py_or title (_og_search_title webpage) ;;
  timestamp <- lift (py_get item "createdAt") ;;
  view_count <- lift (py_get item "viewerCount") ;;
  comment_count <- lift (py_get item "chatCount") ;;
  duration <- lift (py_get item "archiveDuration") ;;
  uploader <- lift (try_get item
                      (fun x => obind (py_getitem x "channel")
                                      (fun c => py_getitem c "name"))
                      is_str) ;;
  let uploader_url := "https://live.line.me/channels/" ++ channel_id in
  description <- lift (py_get broadcast_info "description") ;;
  description <- py_or description (_og_search_description webpage) ;;
  thumbnail <- lift (try_get item
                       (fun x => obind (py_getitem x "thumbnailURLs")
                                       (fun t => py_getitem t "large1x1"))
                       is_str) ;;
  thumbnail <- py_or thumbnail (_og_search_thumbnail webpage) ;;
  title <- (if is_live then _live_title title else ret title) ;;
  ret (PDict [ ("id", PStr video_id);
               ("title", title);
               ("description", description);
               ("thumbnail", thumbnail);
               ("timestamp", int_or_none timestamp);
               ("duration", duration);
               ("uploader", uploader);
               ("uploader_id", PStr channel_id);
               ("uploader_url", PStr uploader_url);
               ("view_count", int_or_none view_count);
               ("comment_count", int_or_none comment_count);
               ("formats", formats);
               ("is_live", PBool is_live) ]).

(** Lines 58-165. *)
Definition _real_extract (url : string) : M py_value :=
  '(channel_id, broadcast_id, video_id, req, webpage) <- open_page url ;;
  '(broadcast_id, video_id) <-
     resolve_upcoming url channel_id broadcast_id video_id req ;;
  broadcast_info <- broadcast_info_lookup channel_id broadcast_id video_id webpage ;;
  item <- lift (py_get broadcast_info "item") ;;
  live_status <- lift (py_get item "liveStatus") ;;
  let is_live := py_eq_str live_status "LIVE" in
  hls_urls <- hls_urls_lookup broadcast_info item is_live video_id ;;
  manifest_url <- lift (py_get hls_urls "abr") ;;
  formats <- _extract_m3u8_formats manifest_url video_id is_live ;;
  formats <- _sort_formats formats ;;
  video_info channel_id video_id webpage broadcast_info item is_live formats.

End LineLiveIE.

(* ------------------------------------------------------------------ *)
(** ** What the statements below are about *)

(** The URLs of the pattern, spelled out: a scheme, the host with any
    character at its two dots, the channel id, the link type, the broadcast
    id, and whatever follows. *)
Definition url_shape (url channel_id link_type broadcast_id : string) : Prop :=
  exists scheme a b rest,
    url = scheme ++ "://live" ++ String a ("line" ++ String b
            ("me/channels/" ++ channel_id ++ "/" ++ link_type ++ "/"
               ++ broadcast_id ++ rest))
    /\ (scheme = "http" \/ scheme = "https")
    /\ is_newline a = false /\ is_newline b = false
    /\ all_digits channel_id = true /\ channel_id <> ""
    /\ (link_type = "broadcast" \/ link_type = "upcoming")
    /\ all_digits broadcast_id = true /\ broadcast_id <> "".

(** The calls that go to the network. *)
Definition network (c : call) : bool :=
  match c with
  | Call_request_webpage _ _ | Call_download_json _ _
  | Call_extract_m3u8_formats _ _ _ => true
  | _ => false
  end.

Definition requests (l : list call) : list call := filter network l.

Inductive subseq {A : Type} : list A -> list A -> Prop :=
| subseq_nil l : subseq [] l
| subseq_take a l1 l2 : subseq l1 l2 -> subseq (a :: l1) (a :: l2)
| subseq_skip a l1 l2 : subseq l1 l2 -> subseq l1 (a :: l2).

(** An integer or [None]. *)
Definition is_int_or_none (v : py_value) : bool :=
  match v with
  | PInt _ | PNone => true
  | _ => false
  end.

(** An outcome that is not a [raise] of the extractor. *)
Definition not_raised {A} (o : outcome A) : Prop :=
  forall e, o <> Fail (Raised e).

Definition broadcast_not_found : ExtractorError :=
  {| msg := "Broadcast not found"; expected := true |}.

Section Properties.

Variables E W : Type.
Variable fw : Framework E W.

(** A helper leaves the attributes of the extractor object as they were. *)
Definition helper_keeps_self {A} (h : helper E W A) : Prop :=
  forall e w, fst (snd (h (e, w))) = e.

Definition total_helper_keeps_self {A} (h : total_helper E W A) : Prop :=
  forall e w, fst (snd (h (e, w))) = e.

Record keeps_self : Prop := {
  ks_request_webpage : forall u v, helper_keeps_self (request_webpage fw u v);
  ks_webpage_read_content :
    forall r u v, helper_keeps_self (webpage_read_content fw r u v);
  ks_download_json : forall u v, total_helper_keeps_self (download_json fw u v);
  ks_html_search_regex :
    forall p t n, total_helper_keeps_self (html_search_regex fw p t n);
  ks_parse_json : forall t v, helper_keeps_self (parse_json fw t v);
  ks_extract_m3u8_formats :
    forall m v l, helper_keeps_self (extract_m3u8_formats fw m v l);
  ks_sort_formats : forall f, helper_keeps_self (sort_formats fw f);
  ks_og_search_title : forall t, helper_keeps_self (og_search_title fw t);
  ks_og_search_description : forall t, helper_keeps_self (og_search_description fw t);
  ks_og_search_thumbnail : forall t, helper_keeps_self (og_search_thumbnail fw t);
  ks_live_title : forall t, helper_keeps_self (live_title fw t)
}.

Definition object_kept {A} (m : M E W A) : Prop :=
  forall s, self (snd (m s)) = self s.

(** Two states with the same object and the same world: only the call logs
    may differ. *)
Definition same_but_log (s t : state E W) : Prop :=
  self s = self t /\ world s = world t.

(** A computation that does not read the call log. *)
Definition log_blind {A} (m : M E W A) : Prop :=
  forall s t, same_but_log s t ->
              fst (m s) = fst (m t) /\ same_but_log (snd (m s)) (snd (m t)).

(** A helper that answers the same whatever the world has become: the site
    serves a second request as it served the first. *)
Definition helper_same_answer {A} (h : helper E W A) : Prop :=
  forall e w w', fst (h (e, w)) = fst (h (e, w')).

Definition total_helper_same_answer {A} (h : total_helper E W A) : Prop :=
  forall e w w', fst (h (e, w)) = fst (h (e, w')).

Record same_answers : Prop := {
  sa_request_webpage : forall u v, helper_same_answer (request_webpage fw u v);
  sa_webpage_read_content :
    forall r u v, helper_same_answer (webpage_read_content fw r u v);
  sa_download_json : forall u v, total_helper_same_answer (download_json fw u v);
  sa_html_search_regex :
    forall p t n, total_helper_same_answer (html_search_regex fw p t n);
  sa_parse_json : forall t v, helper_same_answer (parse_json fw t v);
  sa_extract_m3u8_formats :
    forall m v l, helper_same_answer (extract_m3u8_formats fw m v l);
  sa_sort_formats : forall f, helper_same_answer (sort_formats fw f);
  sa_og_search_title : forall t, helper_same_answer (og_search_title fw t);
  sa_og_search_description : forall t, helper_same_answer (og_search_description fw t);
  sa_og_search_thumbnail : forall t, helper_same_answer (og_search_thumbnail fw t);
  sa_live_title : forall t, helper_same_answer (live_title fw t)
}.

(** A computation whose result, and whose effect on the object, depend on the
    object it is run on and on nothing else of the state. *)
Definition object_only {A} (m : M E W A) : Prop :=
  forall s t, self s = self t ->
              fst (m s) = fst (m t) /\ self (snd (m s)) = self (snd (m t)).

(** The two messages of the extractor, both expected. *)
Definition user_facing (e : ExtractorError) : Prop :=
  expected e = true /\
  (msg e = "Broadcast not found" \/
   exists status : py_value,
     msg e = "Broadcast has an archive status of " ++ py_str (repr_ fw) status).

Definition raises_only {A} (m : M E W A) : Prop :=
  forall s e s', m s = (Fail (Raised e), s') -> user_facing e.

(** What a computation adds to the call log. *)
Definition emits {A} (P : list call -> Prop) (m : M E W A) : Prop :=
  forall s, exists l, calls (snd (m s)) = (calls s ++ l)%list /\ P l.

Definition quiet (l : list call) : Prop := requests l = [].

(** The requests of a run: the page, the broadcast API, the LSS API and the
    manifest, each at most once and in this order. *)
Definition no_retry (url : string) (l : list call) : Prop :=
  exists v0 c b v live lsa m,
    subseq (requests l)
           [ Call_request_webpage url v0;
             Call_download_json (broadcast_api_url c b) v;
             Call_download_json (lss_api_url fw live lsa) v;
             Call_extract_m3u8_formats m v live ].

(** The stages a successful extraction went through. *)
Inductive extracted (url : string) (s : state E W) (r : py_value) (s' : state E W)
  : Prop :=
| Extracted channel_id broadcast_id0 video_id0 req webpage s1
            broadcast_id video_id s2 broadcast_info s3 item live_status
            hls_urls s4 manifest_url formats0 s5 formats s6 :
    open_page fw url s = (Ok (channel_id, broadcast_id0, video_id0, req, webpage), s1) ->
    resolve_upcoming url channel_id broadcast_id0 video_id0 req s1
      = (Ok (broadcast_id, video_id), s2) ->
    broadcast_info_lookup fw channel_id broadcast_id video_id webpage s2
      = (Ok broadcast_info, s3) ->
    py_get broadcast_info "item" = Ok item ->
    py_get item "liveStatus" = Ok live_status ->
    hls_urls_lookup fw broadcast_info item (py_eq_str live_status "LIVE") video_id s3
      = (Ok hls_urls, s4) ->
    py_get hls_urls "abr" = Ok manifest_url ->
    _extract_m3u8_formats fw manifest_url video_id (py_eq_str live_status "LIVE") s4
      = (Ok formats0, s5) ->
    _sort_formats fw formats0 s5 = (Ok formats, s6) ->
    video_info fw channel_id video_id webpage broadcast_info item
               (py_eq_str live_status "LIVE") formats s6 = (Ok r, s') ->
    extracted url s r s'.

(** The run has the ids and the page and is about to look the broadcast up. *)
Definition reaches_lookup (url : string) (s0 : state E W)
           (channel_id broadcast_id video_id webpage : string) (s : state E W) : Prop :=
  exists broadcast_id0 video_id0 req s1,
    open_page fw url s0
      = (Ok (channel_id, broadcast_id0, video_id0, req, webpage), s1) /\
    resolve_upcoming url channel_id broadcast_id0 video_id0 req s1
      = (Ok (broadcast_id, video_id), s).

(** The run has the broadcast info and is about to look for the manifest. *)
Definition reaches_streams (url : string) (s0 : state E W)
           (video_id : string) (broadcast_info item : py_value) (is_live : bool)
           (s : state E W) : Prop :=
  exists channel_id broadcast_id webpage s2 live_status,
    reaches_lookup url s0 channel_id broadcast_id video_id webpage s2 /\
    broadcast_info_lookup fw channel_id broadcast_id video_id webpage s2
      = (Ok broadcast_info, s) /\
    py_get broadcast_info "item" = Ok item /\
    py_get item "liveStatus" = Ok live_status /\
    is_live = py_eq_str live_status "LIVE".

End Properties.

(* ------------------------------------------------------------------ *)
(** ** A canned site, for the examples *)

Module Demo.

(** What the site answers. The object has one attribute, a number; the world
    is the number of requests served so far. *)
Record site : Type := {
  served_from : string -> string;         (* the URL a page is served from *)
  json_at : string -> py_value;           (* a JSON download; [False] when it fails *)
  data_broadcast : option string;         (* the attribute of the page, if any *)
  json_of : string -> py_value + string;  (* the JSON a text parses to *)
  og_title : py_value + string            (* the title in the page *)
}.

Definition framework (x : site) : Framework nat nat := {|
  request_webpage := fun url _ '(e, w) =>
    (inl {| resp_url := served_from x url; resp_body := "page" |}, (e, S w));
  webpage_read_content := fun req _ _ '(e, w) => (inl (resp_body req), (e, w));
  download_json := fun url _ '(e, w) => (json_at x url, (e, S w));
  html_search_regex := fun _ _ _ '(e, w) => (data_broadcast x, (e, w));
  parse_json := fun text _ '(e, w) => (json_of x text, (e, w));
  extract_m3u8_formats := fun manifest_url _ _ '(e, w) =>
    (match manifest_url with
     | PStr u => inl (PList [PDict [("format_id", PStr "hls-1"); ("url", PStr u)]])
     | _ => inr "manifest"
     end, (e, S w));
  sort_formats := fun formats '(e, w) =>
    (match formats with
     | PList [] => inr "No video formats found"
     | _ => inl formats
     end, (e, w));
  og_search_title := fun _ '(e, w) => (og_title x, (e, w));
  og_search_description := fun _ '(e, w) => (inl PNone, (e, w));
  og_search_thumbnail := fun _ '(e, w) => (inl PNone, (e, w));
  live_title := fun title '(e, w) =>
    (match title with
     | PStr t => inl (PStr (t ++ " 2018-06-20 14:01"))
     | _ => inr "title"
     end, (e, w));
  update_url_query := fun url query =>
    match query with
    | [(k, PStr v)] => url ++ "?" ++ k ++ "=" ++ v
    | _ => url
    end;
  repr_ := fun _ => "?"
|}.

Definition start : state nat nat := {| self := 7; world := 0; calls := [] |}.

Definition item (live_status : string) : py_value :=
  PDict [ ("title", PStr "2shot");
          ("liveStatus", PStr live_status);
          ("archiveStatus", PStr "ARCHIVED");
          ("createdAt", PInt 1522506855);
          ("viewerCount", PStr "3020");
          ("chatCount", PStr "many");
          ("archiveDuration", PInt 1713);
          ("channel", PDict [("name", PStr "LIVE channel")]);
          ("thumbnailURLs", PDict [("large1x1", PStr "https://img.example/1.jpg")]) ].

Definition archived_info : py_value :=
  PDict [ ("item", item "FINISHED");
          ("description", PStr "talk");
          ("liveHLSURLs", PNone);
          ("archivedHLSURLs", PDict [("abr", PStr "https://cdn.example/abr.m3u8")]);
          ("lsaPath", PStr "v1/21/7862238") ].

(** The info of a hidden broadcast, as the page carries it: no HLS URLs. *)
Definition hidden_info (live_status : string) : py_value :=
  PDict [ ("item", item live_status);
          ("description", PNone);
          ("lsaPath", PStr "v1/21/7862238") ].

Definition play_info : py_value :=
  PDict [("playUrls", PDict [("abr", PStr "https://lss.example/abr.m3u8")])].

Definition same (url : string) : string := url.

Definition no_json (text : string) : py_value + string :=
  if String.eqb text "null" then inl PNone else inr "Failed to parse JSON".

(** Test 0: an archived broadcast behind a broadcast link. *)
Definition archive : site := {|
  served_from := same;
  json_at := fun url =>
    if String.eqb url "https://live-api.line-apps.com/app/v2/channel/21/broadcast/7862238"
    then archived_info else PBool false;
  data_broadcast := None;
  json_of := no_json;
  og_title := inl (PStr "2shot | LINE LIVE")
|}.

(** Test 1: an upcoming link served from the broadcast it became. *)
Definition upcoming : site := {|
  served_from := fun _ => "https://live.line.me/channels/21/broadcast/8656158";
  json_at := fun url =>
    if String.eqb url "https://live-api.line-apps.com/app/v2/channel/21/broadcast/8656158"
    then archived_info else PBool false;
  data_broadcast := None;
  json_of := no_json;
  og_title := inl (PStr "goods | LINE LIVE")
|}.

(** An upcoming link served from a broadcast of another channel. *)
Definition moved : site := {|
  served_from := fun _ => "https://live.line.me/channels/99/broadcast/8656158";
  json_at := fun url =>
    if String.eqb url "https://live-api.line-apps.com/app/v2/channel/21/broadcast/8656158"
    then archived_info else PBool false;
  data_broadcast := None;
  json_of := no_json;
  og_title := inl (PStr "goods | LINE LIVE")
|}.

(** An upcoming link still served from itself: the broadcast has not begun. *)
Definition not_yet : site := {|
  served_from := same;
  json_at := fun _ => PBool false;
  data_broadcast := None;
  json_of := no_json;
  og_title := inr "og:title"
|}.

(** An upcoming link of a hidden broadcast, served from the not-found page. *)
Definition not_found : site := {|
  served_from := fun _ => "https://live.line.me/not_found";
  json_at := fun _ => PBool false;
  data_broadcast := None;
  json_of := no_json;
  og_title := inr "og:title"
|}.

(** An upcoming link served from a page that only mentions a broadcast URL. *)
Definition elsewhere : site := {|
  served_from := fun _ =>
    "https://example.org/?to=https://live.line.me/channels/21/broadcast/8656158";
  json_at := fun _ => PBool false;
  data_broadcast := None;
  json_of := no_json;
  og_title := inr "og:title"
|}.

(** A hidden live broadcast: the API has nothing, the page has the info, the
    LSS API has the manifest. *)
Definition hidden_live : site := {|
  served_from := same;
  json_at := fun url =>
    if String.eqb url "https://lssapi.line-apps.com/v1/live/playInfo?contentId=v1/21/7862238"
    then play_info else PBool false;
  data_broadcast := Some "{broadcast}";
  json_of := fun text =>
    if String.eqb text "{broadcast}" then inl (hidden_info "LIVE") else no_json text;
  og_title := inl (PStr "2shot | LINE LIVE")
|}.

(** A broadcast known neither to the API nor to the page. *)
Definition unknown : site := {|
  served_from := same;
  json_at := fun _ => PBool false;
  data_broadcast := None;
  json_of := no_json;
  og_title := inr "og:title"
|}.

(** A broadcast whose streams are nowhere to be found. *)
Definition expired : site := {|
  served_from := same;
  json_at := fun url =>
    if String.eqb url "https://live-api.line-apps.com/app/v2/channel/21/broadcast/7862238"
    then hidden_info "FINISHED" else PBool false;
  data_broadcast := None;
  json_of := no_json;
  og_title := inr "og:title"
|}.

Definition broadcast_url : string := "https://live.line.me/channels/21/broadcast/7862238".
Definition upcoming_url : string := "https://live.line.me/channels/21/upcoming/8694200".

(** What a run returned, when it returned a record. *)
Definition record_of (run : outcome py_value * state nat nat) : py_value :=
  match fst run with
  | Ok r => r
  | Fail _ => PNone
  end.

Definition archive_record : py_value :=
  Eval vm_compute in record_of (_real_extract (framework archive) broadcast_url start).
Definition archive_end : state nat nat :=
  Eval vm_compute in snd (_real_extract (framework archive) broadcast_url start).

Definition moved_record : py_value :=
  Eval vm_compute in record_of (_real_extract (framework moved) upcoming_url start).
Definition moved_end : state nat nat :=
  Eval vm_compute in snd (_real_extract (framework moved) upcoming_url start).

Definition hidden_live_record : py_value :=
  Eval vm_compute in record_of (_real_extract (framework hidden_live) broadcast_url start).
Definition hidden_live_end : state nat nat :=
  Eval vm_compute in snd (_real_extract (framework hidden_live) broadcast_url start).

(** The state of a run on [broadcast_url] once the page is read. *)
Definition page_read : state nat nat :=
  {| self := 7; world := 1;
     calls := [ Call_request_webpage broadcast_url "21_7862238";
                Call_webpage_read_content broadcast_url "21_7862238" ] |}.

(** The state of the run on [expired] once the broadcast info is there. *)
Definition info_read : state nat nat :=
  {| self := 7; world := 2;
     calls := [ Call_request_webpage broadcast_url "21_7862238";
                Call_webpage_read_content broadcast_url "21_7862238";
                Call_download_json
                  "https://live-api.line-apps.com/app/v2/channel/21/broadcast/7862238"
                  "21_7862238" ] |}.

End Demo.

(* ------------------------------------------------------------------ *)
(** ** More about the pattern, and more runs *)

(** The pattern matches the empty text. *)
Fixpoint nullable (r : regex) : bool :=
  match r with
  | Eps => true
  | Lit _ | AnyChar | Digit => false
  | Cat r1 r2 => nullable r1 && nullable r2
  | Or r1 r2 => nullable r1 || nullable r2
  | Opt _ => true
  | Plus r1 => nullable r1
  | Named _ r1 => nullable r1
  end.

(** Every repetition in the pattern consumes a character each round, as the
    two [\d+] of [_VALID_URL] do. *)
Fixpoint plus_consumes (r : regex) : bool :=
  match r with
  | Eps | Lit _ | AnyChar | Digit => true
  | Cat r1 r2 | Or r1 r2 => plus_consumes r1 && plus_consumes r2
  | Opt r1 | Named _ r1 => plus_consumes r1
  | Plus r1 => negb (nullable r1) && plus_consumes r1
  end.

Definition starts_with_digit (s : string) : bool :=
  match s with
  | String c _ => is_digit c
  | EmptyString => false
  end.

(** The match Python reports for the pattern stops where no digit follows. *)
Definition stops_at_non_digit (r : regex) : Prop :=
  forall s w g s', hd_error (hits r s) = Some (w, g, s') -> starts_with_digit s' = false.

Module Cases.

Import Demo.

(** A site whose API answers with an [item] that is [null]. *)
Definition null_item : site := {|
  served_from := same;
  json_at := fun _ => PDict [("item", PNone)];
  data_broadcast := None;
  json_of := no_json;
  og_title := inr "og:title"
|}.

Definition null_item_info_read : state nat nat :=
  Eval vm_compute in
    snd (broadcast_info_lookup (framework null_item) "21" "7862238" "21_7862238" "page"
                               page_read).

(** The framework of [archive], with a page that cannot be downloaded. *)
Definition offline : Framework nat nat :=
  let fw := framework archive in
  {| request_webpage := fun _ _ '(e, w) => (inr "Unable to download webpage", (e, S w));
     webpage_read_content := webpage_read_content fw;
     download_json := download_json fw;
     html_search_regex := html_search_regex fw;
     parse_json := parse_json fw;
     extract_m3u8_formats := extract_m3u8_formats fw;
     sort_formats := sort_formats fw;
     og_search_title := og_search_title fw;
     og_search_description := og_search_description fw;
     og_search_thumbnail := og_search_thumbnail fw;
     live_title := live_title fw;
     update_url_query := update_url_query fw;
     repr_ := repr_ fw |}.

Definition upcoming_record : py_value :=
  Eval vm_compute in record_of (_real_extract (framework upcoming) upcoming_url start).
Definition upcoming_end : state nat nat :=
  Eval vm_compute in snd (_real_extract (framework upcoming) upcoming_url start).

(** The state of a run on [upcoming_url] once the page is read. *)
Definition upcoming_page_read : state nat nat :=
  {| self := 7; world := 1;
     calls := [ Call_request_webpage upcoming_url "21_8694200";
                Call_webpage_read_content upcoming_url "21_8694200" ] |}.

(** The end of the manifest lookup on [expired]. *)
Definition expired_end : state nat nat :=
  Eval vm_compute in
    snd (hls_urls_lookup (framework expired) (hidden_info "FINISHED") (item "FINISHED")
                         false "21_7862238" info_read).

(** The last stage of the run on [hidden_live], from an empty log. *)
Definition hidden_live_formats : py_value :=
  PList [PDict [("format_id", PStr "hls-1"); ("url", PStr "https://lss.example/abr.m3u8")]].

Definition hidden_live_info_run : outcome py_value * state nat nat :=
  Eval vm_compute in
    video_info (framework hidden_live) "21" "21_7862238" "page" (hidden_info "LIVE")
               (item "LIVE") true hidden_live_formats start.

End Cases.

(* ================================================================== *)
(** * Facts *)

(* ------------------------------------------------------------------ *)
(** ** The two fixtures of [_TESTS], and a few more runs *)

Example valid_url_test0 :
  re_match _VALID_URL "https://live.line.me/channels/21/broadcast/7862238"
  = Some [("channel_id", "21"); ("link_type", "broadcast"); ("id", "7862238")].
Proof. vm_compute. reflexivity. Qed.

Example valid_url_test1 :
  re_search _VALID_URL "https://live.line.me/channels/21/upcoming/8694200"
  = Some [("channel_id", "21"); ("link_type", "upcoming"); ("id", "8694200")].
Proof. vm_compute. reflexivity. Qed.

(** The dots of the host match any character. *)
Example valid_url_any_dot :
  suitable "http://live-line-me/channels/1/upcoming/2?x=1" = true.
Proof. vm_compute. reflexivity. Qed.

Example valid_url_other_host : suitable "https://live.line.me/channel/21" = false.
Proof. vm_compute. reflexivity. Qed.

Example test0_id : py_get Demo.archive_record "id" = Ok (PStr "21_7862238").
Proof. reflexivity. Qed.

Example test1_id :
  obind (fst (_real_extract (Demo.framework Demo.upcoming) Demo.upcoming_url Demo.start))
        (fun r => py_get r "id")
  = Ok (PStr "21_8656158").
Proof. vm_compute. reflexivity. Qed.

Example not_yet_broadcast :
  fst (_real_extract (Demo.framework Demo.not_yet) Demo.upcoming_url Demo.start)
  = Fail (Raised broadcast_not_found).
Proof. vm_compute. reflexivity. Qed.

Example unknown_broadcast :
  fst (_real_extract (Demo.framework Demo.unknown) Demo.broadcast_url Demo.start)
  = Fail (Raised broadcast_not_found).
Proof. vm_compute. reflexivity. Qed.

Example hidden_live_requests :
  requests (calls Demo.hidden_live_end)
  = [ Call_request_webpage Demo.broadcast_url "21_7862238";
      Call_download_json
        "https://live-api.line-apps.com/app/v2/channel/21/broadcast/7862238" "21_7862238";
      Call_download_json
        "https://lssapi.line-apps.com/v1/live/playInfo?contentId=v1/21/7862238"
        "21_7862238";
      Call_extract_m3u8_formats (PStr "https://lss.example/abr.m3u8") "21_7862238" true ].
Proof. reflexivity. Qed.

Example int_or_none_text : int_or_none (PStr "3020") = PInt 3020.
Proof. reflexivity. Qed.

Example int_or_none_other : int_or_none (PStr "many") = PNone.
Proof. reflexivity. Qed.

(* ------------------------------------------------------------------ *)
(** ** The matcher finds only what the pattern allows *)

Lemma append_assoc (a b c : string) : (a ++ b) ++ c = a ++ (b ++ c).
Proof. induction a; simpl; congruence. Qed.

Lemma in_extend w g h l :
  In h (map (extend w g) l) ->
  exists w2 g2 s2, h = (w ++ w2, (g ++ g2)%list, s2) /\ In (w2, g2, s2) l.
Proof.
  intros H. apply in_map_iff in H. destruct H as [[[w2 g2] s2] [<- Hin]].
  exists w2, g2, s2. split; [reflexivity | assumption].
Qed.

(** More fuel than the length of the text changes nothing. *)
Lemma plus_hits_fuel step : forall n m s,
  String.length s <= n -> String.length s <= m ->
  plus_hits step n s = plus_hits step m s.
Proof.
  induction n as [| n IH]; intros m s Hn Hm.
  - destruct m as [| m]; [reflexivity |]. simpl.
    apply flat_map_ext. intros [[w1 g1] s1].
    destruct (String.length s1 <? String.length s)%nat eqn:Hlt; [| reflexivity].
    apply Nat.ltb_lt in Hlt. lia.
  - destruct m as [| m]; simpl; apply flat_map_ext; intros [[w1 g1] s1];
      destruct (String.length s1 <? String.length s)%nat eqn:Hlt; try reflexivity;
      apply Nat.ltb_lt in Hlt; [lia |].
    rewrite (IH m s1) by lia. reflexivity.
Qed.

Lemma plus_hits_sound step r :
  (forall s w g s', In (w, g, s') (step s) -> s = w ++ s' /\ matches r w g) ->
  forall fuel s w g s',
    In (w, g, s') (plus_hits step fuel s) -> s = w ++ s' /\ matches (Plus r) w g.
Proof.
  intros Hstep. induction fuel as [| n IHn]; intros s w g s' Hin; simpl in Hin;
    apply in_flat_map in Hin; destruct Hin as [[[w1 g1] s1] [H1 H2]];
    apply Hstep in H1; destruct H1 as [-> M1].
  - destruct H2 as [Heq | []]. inversion Heq; subst.
    split; [reflexivity | apply M_PlusOne; assumption].
  - apply in_app_or in H2. destruct H2 as [H2 | [Heq | []]].
    + destruct (String.length s1 <? String.length (w1 ++ s1))%nat; [| contradiction].
      apply in_extend in H2. destruct H2 as (w2 & g2 & s2 & Heq & H2).
      inversion Heq; subst. apply IHn in H2. destruct H2 as [-> M2].
      split; [symmetry; apply append_assoc | apply M_PlusMore; assumption].
    + inversion Heq; subst. split; [reflexivity | apply M_PlusOne; assumption].
Qed.

(** The matcher is sound: what it finds is a match of the pattern. *)
Lemma hits_sound r : forall s w g s',
  In (w, g, s') (hits r s) -> s = w ++ s' /\ matches r w g.
Proof.
  induction r; intros s w g s' Hin; simpl in Hin.
  - destruct Hin as [Heq | []]. inversion Heq; subst. split; [reflexivity | constructor].
  - destruct s as [| c' s0]; [contradiction |].
    destruct (Ascii.eqb c c') eqn:Hc; [| contradiction].
    apply Ascii.eqb_eq in Hc. subst c'.
    destruct Hin as [Heq | []]. inversion Heq; subst. split; [reflexivity | constructor].
  - destruct s as [| c' s0]; [contradiction |].
    destruct (is_newline c') eqn:Hc; [contradiction |].
    destruct Hin as [Heq | []]. inversion Heq; subst.
    split; [reflexivity | constructor; assumption].
  - destruct s as [| c' s0]; [contradiction |].
    destruct (is_digit c') eqn:Hc; [| contradiction].
    destruct Hin as [Heq | []]. inversion Heq; subst.
    split; [reflexivity | constructor; assumption].
  - apply in_flat_map in Hin. destruct Hin as [[[w1 g1] s1] [H1 H2]].
    apply in_extend in H2. destruct H2 as (w2 & g2 & s2 & Heq & H2).
    inversion Heq; subst.
    apply IHr1 in H1. apply IHr2 in H2. destruct H1 as [-> M1], H2 as [-> M2].
    split; [symmetry; apply append_assoc | constructor; assumption].
  - apply in_app_or in Hin. destruct Hin as [H | H].
    + apply IHr1 in H. destruct H. split; [assumption | apply M_OrL; assumption].
    + apply IHr2 in H. destruct H. split; [assumption | apply M_OrR; assumption].
  - apply in_app_or in Hin. destruct Hin as [H | [Heq | []]].
    + apply IHr in H. destruct H. split; [assumption | apply M_OptSome; assumption].
    + inversion Heq; subst. split; [reflexivity | apply M_OptNone].
  - eapply plus_hits_sound; [exact IHr | exact Hin].
  - apply in_map_iff in Hin. destruct Hin as [[[w1 g1] s1] [Heq H1]].
    inversion Heq; subst. apply IHr in H1. destruct H1.
    split; [assumption | constructor; assumption].
Qed.

Lemma matches_lits t : forall w g, matches (lits t) w g -> w = t /\ g = [].
Proof.
  induction t as [| c t IH]; intros w g H; simpl in H.
  - inversion H; subst. split; reflexivity.
  - inversion H as [| | | | r1 r2 w1 w2 g1 g2 H1 H2 | | | | | | |]; subst.
    inversion H1; subst. apply IH in H2. destruct H2 as [-> ->].
    split; reflexivity.
Qed.

Lemma matches_plus_digit w g :
  matches (Plus Digit) w g -> g = [] /\ all_digits w = true /\ w <> "".
Proof.
  remember (Plus Digit) as r eqn:Hr. intros H.
  induction H; try discriminate; inversion Hr; subst.
  - inversion H; subst. simpl.
    match goal with Hc : is_digit _ = true |- _ => rewrite Hc end.
    repeat split; congruence.
  - inversion H; subst. destruct (IHmatches2 eq_refl) as (-> & Hd & Hne).
    simpl. match goal with Hc : is_digit _ = true |- _ => rewrite Hc end.
    rewrite Hd. repeat split; congruence.
Qed.

Ltac inv_matches :=
  repeat match goal with
    | H : matches Eps _ _ |- _ => inversion H; subst; clear H
    | H : matches (Cat _ _) _ _ |- _ => inversion H; subst; clear H
    | H : matches (lits _) _ _ |- _ => apply matches_lits in H; destruct H; subst
    | H : matches (Lit _) _ _ |- _ => inversion H; subst; clear H
    | H : matches AnyChar _ _ |- _ => inversion H; subst; clear H
    | H : matches (Opt _) _ _ |- _ => inversion H; subst; clear H
    | H : matches (Or _ _) _ _ |- _ => inversion H; subst; clear H
    | H : matches (Named _ _) _ _ |- _ => inversion H; subst; clear H
    | H : matches (Plus Digit) _ _ |- _ =>
        apply matches_plus_digit in H; destruct H as (? & ? & ?); subst
    end.

Lemma valid_url_matches w g :
  matches _VALID_URL w g ->
  exists channel_id link_type broadcast_id,
    g = [("channel_id", channel_id); ("link_type", link_type); ("id", broadcast_id)]
    /\ forall rest, url_shape (w ++ rest) channel_id link_type broadcast_id
                    .
Proof.
  unfold _VALID_URL, cats. intros H. inv_matches; simpl;
    eexists _, _, _; (split; [reflexivity |]); intros rest;
    match goal with
    | |- url_shape (String "h" (String "t" (String "t" (String "p" (String "s" _))))) _ _ _ =>
        exists "https"
    | |- _ => exists "http"
    end; eexists _, _, rest; simpl; rewrite ?append_assoc; simpl;
    repeat split; auto; try discriminate.
Qed.


(* ------------------------------------------------------------------ *)
(** ** The extractor object is left as it was *)

Section Frame.
Variables E W : Type.
Variable fw : Framework E W.

Lemma kept_ret A (a : A) : object_kept (@ret E W A a).
Proof. intros s. reflexivity. Qed.

Lemma kept_lift A (o : outcome A) : object_kept (@lift E W A o).
Proof. intros s. reflexivity. Qed.

Lemma kept_raise A e : object_kept (@raise E W A e).
Proof. intros s. reflexivity. Qed.

Lemma kept_bind A B (m : M E W A) (f : A -> M E W B) :
  object_kept m -> (forall a, object_kept (f a)) -> object_kept (bind m f).
Proof.
  intros Hm Hf s. unfold bind. specialize (Hm s).
  destruct (m s) as [[a | e] s1]; simpl in *.
  - rewrite Hf. assumption.
  - assumption.
Qed.

Lemma kept_invoke A c (h : helper E W A) :
  helper_keeps_self h -> object_kept (invoke c h).
Proof.
  intros Hh s. unfold invoke. specialize (Hh (self s) (world s)).
  destruct (h (self s, world s)) as [r [e w]]. simpl in *. assumption.
Qed.

Lemma kept_invoke_total A c (h : total_helper E W A) :
  total_helper_keeps_self h -> object_kept (invoke_total c h).
Proof.
  intros Hh s. unfold invoke_total. specialize (Hh (self s) (world s)).
  destruct (h (self s, world s)) as [r [e w]]. simpl in *. assumption.
Qed.

Lemma kept_if A (b : bool) (m1 m2 : M E W A) :
  object_kept m1 -> object_kept m2 -> object_kept (if b then m1 else m2).
Proof. destruct b; auto. Qed.

(** An assignment keeps the object only when it assigns what is there. *)
Lemma kept_set_attribute (w : W) (update : E -> E) :
  object_kept (@set_attribute E W update) <-> forall e, update e = e.
Proof.
  split.
  - intros H e. exact (H {| self := e; world := w; calls := [] |}).
  - intros H s. simpl. apply H.
Qed.

Lemma blind_ret A (a : A) : log_blind (@ret E W A a).
Proof. intros s t H. split; [reflexivity | assumption]. Qed.

Lemma blind_lift A (o : outcome A) : log_blind (@lift E W A o).
Proof. intros s t H. split; [reflexivity | assumption]. Qed.

Lemma blind_raise A e : log_blind (@raise E W A e).
Proof. intros s t H. split; [reflexivity | assumption]. Qed.

Lemma blind_bind A B (m : M E W A) (f : A -> M E W B) :
  log_blind m -> (forall a, log_blind (f a)) -> log_blind (bind m f).
Proof.
  intros Hm Hf s t Hst. unfold bind. destruct (Hm s t Hst) as [Hr Hs].
  destruct (m s) as [[a | e] s1], (m t) as [[a' | e'] t1]; simpl in *;
    try discriminate.
  - inversion Hr; subst a'. apply Hf. assumption.
  - inversion Hr; subst e'. split; [reflexivity | assumption].
Qed.

Lemma blind_invoke A c (h : helper E W A) : log_blind (invoke c h).
Proof.
  intros s t [Hself Hworld]. unfold invoke. rewrite Hself, Hworld.
  destruct (h (self t, world t)) as [r [e w]]. simpl.
  split; [reflexivity | split; reflexivity].
Qed.

Lemma blind_invoke_total A c (h : total_helper E W A) : log_blind (invoke_total c h).
Proof.
  intros s t [Hself Hworld]. unfold invoke_total. rewrite Hself, Hworld.
  destruct (h (self t, world t)) as [r [e w]]. simpl.
  split; [reflexivity | split; reflexivity].
Qed.

Lemma blind_if A (b : bool) (m1 m2 : M E W A) :
  log_blind m1 -> log_blind m2 -> log_blind (if b then m1 else m2).
Proof. destruct b; auto. Qed.

Ltac blind :=
  repeat first
    [ apply blind_ret | apply blind_lift | apply blind_raise
    | apply blind_if
    | apply blind_invoke
    | apply blind_invoke_total
    | apply blind_bind; [| intros ]
    | match goal with |- log_blind (match ?x with _ => _ end) => destruct x end ].

Lemma blind_open_page url : log_blind (open_page fw url).
Proof. unfold open_page, _request_webpage, _webpage_read_content. blind. Qed.

Lemma blind_resolve_upcoming url c b v r : log_blind (@resolve_upcoming E W url c b v r).
Proof. unfold resolve_upcoming. blind. Qed.

Lemma blind_broadcast_info_lookup c b v p : log_blind (broadcast_info_lookup fw c b v p).
Proof.
  unfold broadcast_info_lookup, _download_json, _html_search_regex, _parse_json. blind.
Qed.

Lemma blind_hls_urls_lookup i t l v : log_blind (hls_urls_lookup fw i t l v).
Proof. unfold hls_urls_lookup, _download_json. blind. Qed.

Lemma blind_video_info c v p i t l f : log_blind (video_info fw c v p i t l f).
Proof.
  unfold video_info, py_or, _og_search_title, _og_search_description,
    _og_search_thumbnail, _live_title. blind.
Qed.

(** The call log is only written: a run does not depend on it. *)
Lemma blind_real_extract url : log_blind (_real_extract fw url).
Proof.
  unfold _real_extract, _extract_m3u8_formats, _sort_formats.
  repeat first
    [ apply blind_open_page | apply blind_resolve_upcoming
    | apply blind_broadcast_info_lookup | apply blind_hls_urls_lookup
    | apply blind_video_info | progress blind ].
Qed.

Hypothesis Hfw : keeps_self fw.

Ltac kept :=
  repeat first
    [ apply kept_ret | apply kept_lift | apply kept_raise
    | apply kept_if
    | apply kept_invoke; apply Hfw
    | apply kept_invoke_total; apply Hfw
    | apply kept_bind; [| intros ]
    | match goal with |- object_kept (match ?x with _ => _ end) => destruct x end ].

Lemma kept_open_page url : object_kept (open_page fw url).
Proof. unfold open_page, _request_webpage, _webpage_read_content. kept. Qed.

Lemma kept_resolve_upcoming url c b v r : object_kept (@resolve_upcoming E W url c b v r).
Proof. unfold resolve_upcoming. kept. Qed.

Lemma kept_broadcast_info_lookup c b v p : object_kept (broadcast_info_lookup fw c b v p).
Proof.
  unfold broadcast_info_lookup, _download_json, _html_search_regex, _parse_json. kept.
Qed.

Lemma kept_hls_urls_lookup i t l v : object_kept (hls_urls_lookup fw i t l v).
Proof. unfold hls_urls_lookup, _download_json. kept. Qed.

Lemma kept_video_info c v p i t l f : object_kept (video_info fw c v p i t l f).
Proof.
  unfold video_info, py_or, _og_search_title, _og_search_description,
    _og_search_thumbnail, _live_title. kept.
Qed.

Lemma kept_real_extract url : object_kept (_real_extract fw url).
Proof.
  unfold _real_extract, _extract_m3u8_formats, _sort_formats.
  repeat first
    [ apply kept_open_page | apply kept_resolve_upcoming
    | apply kept_broadcast_info_lookup | apply kept_hls_urls_lookup
    | apply kept_video_info | progress kept ].
Qed.

Hypothesis Hsa : same_answers fw.

Lemma only_object_ret A (a : A) : object_only (@ret E W A a).
Proof. intros s t H. split; [reflexivity | assumption]. Qed.

Lemma only_object_lift A (o : outcome A) : object_only (@lift E W A o).
Proof. intros s t H. split; [reflexivity | assumption]. Qed.

Lemma only_object_raise A e : object_only (@raise E W A e).
Proof. intros s t H. split; [reflexivity | assumption]. Qed.

Lemma only_object_bind A B (m : M E W A) (f : A -> M E W B) :
  object_only m -> (forall a, object_only (f a)) -> object_only (bind m f).
Proof.
  intros Hm Hf s t Hst. unfold bind. destruct (Hm s t Hst) as [Hr Hs].
  destruct (m s) as [[a | e] s1], (m t) as [[a' | e'] t1]; simpl in *;
    try discriminate.
  - inversion Hr; subst a'. apply Hf. assumption.
  - inversion Hr; subst e'. split; [reflexivity | assumption].
Qed.

Lemma only_object_invoke A c (h : helper E W A) :
  helper_keeps_self h -> helper_same_answer h -> object_only (invoke c h).
Proof.
  intros Hk Ha s t Hst. unfold invoke.
  rewrite Hst.
  pose proof (Hk (self t) (world s)) as Hks.
  pose proof (Hk (self t) (world t)) as Hkt.
  pose proof (Ha (self t) (world s) (world t)) as Hans.
  destruct (h (self t, world s)) as [r [e w]], (h (self t, world t)) as [r' [e' w']].
  simpl in *. subst. split; reflexivity.
Qed.

Lemma only_object_invoke_total A c (h : total_helper E W A) :
  total_helper_keeps_self h -> total_helper_same_answer h ->
  object_only (invoke_total c h).
Proof.
  intros Hk Ha s t Hst. unfold invoke_total.
  rewrite Hst.
  pose proof (Hk (self t) (world s)) as Hks.
  pose proof (Hk (self t) (world t)) as Hkt.
  pose proof (Ha (self t) (world s) (world t)) as Hans.
  destruct (h (self t, world s)) as [r [e w]], (h (self t, world t)) as [r' [e' w']].
  simpl in *. subst. split; reflexivity.
Qed.

Lemma only_object_if A (b : bool) (m1 m2 : M E W A) :
  object_only m1 -> object_only m2 -> object_only (if b then m1 else m2).
Proof. destruct b; auto. Qed.

Ltac only_object :=
  repeat first
    [ apply only_object_ret | apply only_object_lift | apply only_object_raise
    | apply only_object_if
    | apply only_object_invoke; [apply Hfw | apply Hsa]
    | apply only_object_invoke_total; [apply Hfw | apply Hsa]
    | apply only_object_bind; [| intros ]
    | match goal with |- object_only (match ?x with _ => _ end) => destruct x end ].

Lemma only_object_open_page url : object_only (open_page fw url).
Proof. unfold open_page, _request_webpage, _webpage_read_content. only_object. Qed.

Lemma only_object_resolve_upcoming url c b v r :
  object_only (@resolve_upcoming E W url c b v r).
Proof. unfold resolve_upcoming. only_object. Qed.

Lemma only_object_broadcast_info_lookup c b v p :
  object_only (broadcast_info_lookup fw c b v p).
Proof.
  unfold broadcast_info_lookup, _download_json, _html_search_regex, _parse_json.
  only_object.
Qed.

Lemma only_object_hls_urls_lookup i t l v : object_only (hls_urls_lookup fw i t l v).
Proof. unfold hls_urls_lookup, _download_json. only_object. Qed.

Lemma only_object_video_info c v p i t l f : object_only (video_info fw c v p i t l f).
Proof.
  unfold video_info, py_or, _og_search_title, _og_search_description,
    _og_search_thumbnail, _live_title. only_object.
Qed.

(** With a site that answers the same, a run depends on the object alone. *)
Lemma only_object_real_extract url : object_only (_real_extract fw url).
Proof.
  unfold _real_extract, _extract_m3u8_formats, _sort_formats.
  repeat first
    [ apply only_object_open_page | apply only_object_resolve_upcoming
    | apply only_object_broadcast_info_lookup | apply only_object_hls_urls_lookup
    | apply only_object_video_info | progress only_object ].
Qed.

End Frame.


(* ------------------------------------------------------------------ *)
(** ** The errors the extractor raises *)

Section Errors.
Variables E W : Type.
Variable fw : Framework E W.

Lemma only_ret A (a : A) : raises_only fw (@ret E W A a).
Proof. intros s e s' H. discriminate. Qed.

Lemma only_lift A (o : outcome A) : not_raised o -> raises_only fw (@lift E W A o).
Proof. intros Ho s e s' H. unfold lift in H. inversion H. elim (Ho e). assumption. Qed.

Lemma only_raise A e : user_facing fw e -> raises_only fw (@raise E W A e).
Proof. intros He s e' s' H. unfold raise in H. inversion H; subst. assumption. Qed.

Lemma only_bind A B (m : M E W A) (f : A -> M E W B) :
  raises_only fw m -> (forall a, raises_only fw (f a)) -> raises_only fw (bind m f).
Proof.
  intros Hm Hf s e s' H. unfold bind in H.
  destruct (m s) as [[a | x] s1] eqn:Hms.
  - eapply Hf. eassumption.
  - inversion H; subst. eapply Hm. eassumption.
Qed.

Lemma only_invoke A c (h : helper E W A) : raises_only fw (invoke c h).
Proof.
  intros s e s' H. unfold invoke in H.
  destruct (h (self s, world s)) as [[a | x] [e1 w1]]; discriminate.
Qed.

Lemma only_invoke_total A c (h : total_helper E W A) : raises_only fw (invoke_total c h).
Proof.
  intros s e s' H. unfold invoke_total in H.
  destruct (h (self s, world s)) as [a [e1 w1]]; discriminate.
Qed.

Lemma only_if A (b : bool) (m1 m2 : M E W A) :
  raises_only fw m1 -> raises_only fw m2 -> raises_only fw (if b then m1 else m2).
Proof. destruct b; auto. Qed.

Lemma not_raised_obind A B (o : outcome A) (f : A -> outcome B) :
  not_raised o -> (forall a, not_raised (f a)) -> not_raised (obind o f).
Proof.
  intros Ho Hf. destruct o as [a | x]; simpl; [apply Hf |].
  intros e He. inversion He; subst. apply (Ho e). reflexivity.
Qed.

Lemma not_raised_ok A (a : A) : not_raised (Ok a).
Proof. intros e H. discriminate. Qed.

Lemma not_raised_py_get v k : not_raised (py_get v k).
Proof. intros e. destruct v; simpl; discriminate. Qed.

Lemma not_raised_py_getitem v k : not_raised (py_getitem v k).
Proof. intros e. destruct v; simpl; try discriminate. destruct (lookup d k); discriminate. Qed.

Lemma not_raised_py_contains k v : not_raised (py_contains k v).
Proof. intros e. destruct v; simpl; discriminate. Qed.

Lemma not_raised_or_else a o : not_raised o -> not_raised (or_else a o).
Proof. intros Ho. destruct a; simpl; [apply not_raised_ok | assumption]. Qed.

Lemma not_raised_py_not_in k v : not_raised (py_not_in k v).
Proof.
  apply not_raised_obind; [apply not_raised_py_contains | intros; apply not_raised_ok].
Qed.

Lemma not_raised_no_abr v : not_raised (no_abr v).
Proof.
  apply not_raised_or_else, not_raised_obind;
    [apply not_raised_py_get | intros; apply not_raised_ok].
Qed.

Lemma not_raised_search_regex p s n g : not_raised (_search_regex p s n g).
Proof.
  intros e. unfold _search_regex.
  destruct (re_search p s) as [gs |]; [destruct (group gs g) |]; discriminate.
Qed.

Lemma not_raised_match_id url : not_raised (_match_id url).
Proof.
  intros e. unfold _match_id.
  destruct (re_match _VALID_URL url) as [gs |]; [destruct (group gs "id") |]; discriminate.
Qed.

Lemma not_raised_try_get v a b t :
  not_raised (try_get v (fun x => obind (py_getitem x a) (fun c => py_getitem c b)) t).
Proof.
  intros e. unfold try_get.
  destruct (obind (py_getitem v a) (fun c => py_getitem c b)) as [x | f] eqn:Hg;
    [discriminate |].
  destruct f; try discriminate.
  exfalso. revert Hg. apply not_raised_obind; intros; apply not_raised_py_getitem.
Qed.

Ltac classify :=
  repeat first
    [ apply only_ret
    | apply only_invoke | apply only_invoke_total
    | apply only_lift;
      first [ apply not_raised_py_get | apply not_raised_no_abr
            | apply not_raised_search_regex | apply not_raised_match_id
            | apply not_raised_try_get
            | apply not_raised_or_else; apply not_raised_py_not_in ]
    | apply only_raise; split; [reflexivity | simpl; eauto]
    | apply only_if
    | apply only_bind; [| intros ]
    | match goal with |- raises_only _ (match ?x with _ => _ end) => destruct x end ].

Lemma only_open_page url : raises_only fw (open_page fw url).
Proof. unfold open_page, _request_webpage, _webpage_read_content. classify. Qed.

Lemma only_resolve_upcoming url c b v r : raises_only fw (@resolve_upcoming E W url c b v r).
Proof. unfold resolve_upcoming. classify. Qed.

Lemma only_broadcast_info_lookup c b v p : raises_only fw (broadcast_info_lookup fw c b v p).
Proof.
  unfold broadcast_info_lookup, _download_json, _html_search_regex, _parse_json. classify.
Qed.

Lemma only_hls_urls_lookup i t l v : raises_only fw (hls_urls_lookup fw i t l v).
Proof. unfold hls_urls_lookup, _download_json. classify. Qed.

Lemma only_video_info c v p i t l f : raises_only fw (video_info fw c v p i t l f).
Proof.
  unfold video_info, py_or, _og_search_title, _og_search_description,
    _og_search_thumbnail, _live_title. classify.
Qed.

Lemma only_real_extract url : raises_only fw (_real_extract fw url).
Proof.
  unfold _real_extract, _extract_m3u8_formats, _sort_formats.
  repeat first
    [ apply only_open_page | apply only_resolve_upcoming
    | apply only_broadcast_info_lookup | apply only_hls_urls_lookup
    | apply only_video_info | progress classify ].
Qed.

End Errors.


(* ------------------------------------------------------------------ *)
(** ** The stages of a run *)


Section Runs.
Variables E W : Type.
Variable fw : Framework E W.

Lemma bind_ok A B (m : M E W A) (f : A -> M E W B) s b s' :
  bind m f s = (Ok b, s') -> exists a s1, m s = (Ok a, s1) /\ f a s1 = (Ok b, s').
Proof.
  unfold bind. destruct (m s) as [[a | e] s1]; intros H; [| discriminate].
  exists a, s1. split; [reflexivity | assumption].
Qed.

Lemma lift_ok A (o : outcome A) (s : state E W) a s' :
  lift o s = (Ok a, s') -> o = Ok a /\ s' = s.
Proof. unfold lift. intros H. inversion H. split; reflexivity. Qed.

Lemma ret_ok A (a b : A) (s s' : state E W) :
  ret a s = (Ok b, s') -> b = a /\ s' = s.
Proof. unfold ret. intros H. inversion H. split; reflexivity. Qed.

Ltac invert_run :=
  repeat match goal with
    | H : bind _ _ _ = (Ok _, _) |- _ =>
        let a := fresh "a" in let s := fresh "s" in
        let H1 := fresh "Hrun" in let H2 := fresh "Hrun" in
        apply bind_ok in H; destruct H as (a & s & H1 & H2)
    | H : lift _ _ = (Ok _, _) |- _ => apply lift_ok in H; destruct H; subst
    | H : ret _ _ = (Ok _, _) |- _ => apply ret_ok in H; destruct H; subst
    | H : (match ?x with pair _ _ => _ end) _ = (Ok _, _) |- _ => destruct x
    | H : (_, _) = (_, _) |- _ => inversion H; subst; clear H
    end.

Lemma real_extract_ok url s r s' :
  _real_extract fw url s = (Ok r, s') -> extracted fw url s r s'.
Proof.
  unfold _real_extract. intros H. invert_run.
  eapply Extracted; eassumption.
Qed.

Lemma extracted_run url s r s' :
  extracted fw url s r s' -> _real_extract fw url s = (Ok r, s').
Proof.
  intros [c b0 v0 req page s1 b v s2 info s3 item ls hls s4 m f0 s5 f s6
            H1 H2 H3 H4 H5 H6 H7 H8 H9 H10].
  unfold _real_extract.
  unfold bind at 1; rewrite H1. simpl.
  unfold bind at 1; rewrite H2. simpl.
  unfold bind at 1; rewrite H3.
  rewrite H4. unfold lift at 1. unfold bind at 1.
  rewrite H5. unfold lift at 1. unfold bind at 1.
  unfold bind at 1; rewrite H6.
  rewrite H7. unfold lift at 1. unfold bind at 1.
  unfold bind at 1; rewrite H8.
  unfold bind at 1; rewrite H9.
  assumption.
Qed.

Lemma open_page_ok url s channel_id broadcast_id video_id req webpage s' :
  open_page fw url s = (Ok (channel_id, broadcast_id, video_id, req, webpage), s') ->
  _search_regex _VALID_URL url "channel_id" "channel_id" = Ok channel_id /\
  _match_id url = Ok broadcast_id /\
  video_id = channel_id ++ "_" ++ broadcast_id /\
  exists s0, _request_webpage fw url video_id s = (Ok req, s0) /\
             _webpage_read_content fw req url video_id s0 = (Ok webpage, s').
Proof.
  unfold open_page. intros H. invert_run.
  repeat split; try assumption. eexists. split; eassumption.
Qed.

Lemma video_info_ok channel_id video_id webpage broadcast_info item is_live formats
      s r s' :
  video_info fw channel_id video_id webpage broadcast_info item is_live formats s
    = (Ok r, s') ->
  exists title0 title1 sa description0 description sb thumbnail0 thumbnail sc
         title timestamp view_count comment_count duration uploader,
    py_get item "title" = Ok title0 /\
    py_or title0 (_og_search_title fw webpage) s = (Ok title1, sa) /\
    py_get item "createdAt" = Ok timestamp /\
    py_get item "viewerCount" = Ok view_count /\
    py_get item "chatCount" = Ok comment_count /\
    py_get item "archiveDuration" = Ok duration /\
    try_get item (fun x => obind (py_getitem x "channel") (fun c => py_getitem c "name"))
            is_str = Ok uploader /\
    py_get broadcast_info "description" = Ok description0 /\
    py_or description0 (_og_search_description fw webpage) sa = (Ok description, sb) /\
    try_get item (fun x => obind (py_getitem x "thumbnailURLs")
                                 (fun t => py_getitem t "large1x1"))
            is_str = Ok thumbnail0 /\
    py_or thumbnail0 (_og_search_thumbnail fw webpage) sb = (Ok thumbnail, sc) /\
    (if is_live then _live_title fw title1 else ret title1) sc = (Ok title, s') /\
    r = PDict [ ("id", PStr video_id);
                ("title", title);
                ("description", description);
                ("thumbnail", thumbnail);
                ("timestamp", int_or_none timestamp);
                ("duration", duration);
                ("uploader", uploader);
                ("uploader_id", PStr channel_id);
                ("uploader_url", PStr ("https://live.line.me/channels/" ++ channel_id));
                ("view_count", int_or_none view_count);
                ("comment_count", int_or_none comment_count);
                ("formats", formats);
                ("is_live", PBool is_live) ].
Proof.
  unfold video_info. intros H. invert_run.
  do 15 eexists. repeat (split; [eassumption |]). reflexivity.
Qed.

End Runs.


(* ------------------------------------------------------------------ *)
(** ** The call log *)

Local Open Scope list_scope.

Section Log.
Variables E W : Type.
Variable fw : Framework E W.

Lemma requests_app l1 l2 : requests (l1 ++ l2) = requests l1 ++ requests l2.
Proof. apply filter_app. Qed.

Lemma emits_ret A (P : list call -> Prop) (a : A) : P [] -> emits P (@ret E W A a).
Proof. intros HP s. exists []. simpl. rewrite app_nil_r. auto. Qed.

Lemma emits_lift A (P : list call -> Prop) (o : outcome A) : P [] -> emits P (@lift E W A o).
Proof. intros HP s. exists []. simpl. rewrite app_nil_r. auto. Qed.

Lemma emits_raise A (P : list call -> Prop) e : P [] -> emits P (@raise E W A e).
Proof. intros HP s. exists []. simpl. rewrite app_nil_r. auto. Qed.

Lemma emits_invoke A (P : list call -> Prop) c (h : helper E W A) :
  P [c] -> emits P (invoke c h).
Proof.
  intros HP s. exists [c]. unfold invoke.
  destruct (h (self s, world s)) as [r [e w]]. simpl. auto.
Qed.

Lemma emits_invoke_total A (P : list call -> Prop) c (h : total_helper E W A) :
  P [c] -> emits P (invoke_total c h).
Proof.
  intros HP s. exists [c]. unfold invoke_total.
  destruct (h (self s, world s)) as [r [e w]]. simpl. auto.
Qed.

Lemma emits_bind A B (P : list call -> Prop) (Q : A -> list call -> Prop)
      (R : list call -> Prop) (m : M E W A) (f : A -> M E W B) :
  emits P m -> (forall a, emits (Q a) (f a)) ->
  (forall l, P l -> R l) ->
  (forall a l1 l2, P l1 -> Q a l2 -> R (l1 ++ l2)) ->
  emits R (bind m f).
Proof.
  intros Hm Hf HPR HPQR s. unfold bind.
  destruct (Hm s) as (l1 & Hl1 & HP).
  destruct (m s) as [[a | e] s1]; simpl in Hl1.
  - destruct (Hf a s1) as (l2 & Hl2 & HQ).
    exists (l1 ++ l2). rewrite Hl2, Hl1, app_assoc. split; [reflexivity |].
    eapply HPQR; eassumption.
  - exists l1. simpl. auto.
Qed.

Lemma emits_if A (P : list call -> Prop) (b : bool) (m1 m2 : M E W A) :
  emits P m1 -> emits P m2 -> emits P (if b then m1 else m2).
Proof. destruct b; auto. Qed.

Lemma emits_impl A (P Q : list call -> Prop) (m : M E W A) :
  emits P m -> (forall l, P l -> Q l) -> emits Q m.
Proof. intros Hm HPQ s. destruct (Hm s) as (l & Hl & HP). exists l. auto. Qed.

Lemma quiet_bind A B (m : M E W A) (f : A -> M E W B) :
  emits quiet m -> (forall a, emits quiet (f a)) -> emits quiet (bind m f).
Proof.
  intros Hm Hf. eapply emits_bind with (P := quiet) (Q := fun _ => quiet); auto.
  unfold quiet. intros _ l1 l2 H1 H2. rewrite requests_app, H1, H2. reflexivity.
Qed.

Ltac quiet :=
  repeat first
    [ apply emits_ret; reflexivity | apply emits_lift; reflexivity
    | apply emits_raise; reflexivity
    | apply emits_invoke; reflexivity | apply emits_invoke_total; reflexivity
    | apply emits_if
    | apply quiet_bind; [| intros ]
    | match goal with |- emits _ (match ?x with _ => _ end) => destruct x end ].

Lemma quiet_resolve_upcoming url c b v r : emits quiet (@resolve_upcoming E W url c b v r).
Proof. unfold resolve_upcoming. quiet. Qed.

Lemma quiet_video_info c v p i t l f : emits quiet (video_info fw c v p i t l f).
Proof.
  unfold video_info, py_or, _og_search_title, _og_search_description,
    _og_search_thumbnail, _live_title. quiet.
Qed.

Lemma quiet_sort_formats f : emits quiet (_sort_formats fw f).
Proof. unfold _sort_formats. quiet. Qed.

Lemma emits_one A B (c : call) (m : M E W A) (f : A -> M E W B) :
  emits (fun l => requests l = [c]) m -> (forall a, emits quiet (f a)) ->
  emits (fun l => requests l = [c]) (bind m f).
Proof.
  intros Hm Hf.
  eapply emits_bind with (P := fun l => requests l = [c]) (Q := fun _ => quiet); auto.
  unfold quiet. intros _ l1 l2 H1 H2. rewrite requests_app, H1, H2. reflexivity.
Qed.

Lemma emits_after_quiet A B (P : list call -> Prop) (m : M E W A) (f : A -> M E W B) :
  emits quiet m -> (forall a, emits (fun l => P (requests l)) (f a)) -> P [] ->
  emits (fun l => P (requests l)) (bind m f).
Proof.
  intros Hm Hf HP.
  eapply emits_bind with (P := quiet) (Q := fun _ l => P (requests l)); eauto.
  - unfold quiet. intros l H. rewrite H. assumption.
  - unfold quiet. intros _ l1 l2 H1 H2. rewrite requests_app, H1. assumption.
Qed.

Lemma requests_open_page url :
  emits (fun l => exists v0, subseq (requests l) [Call_request_webpage url v0])
        (open_page fw url).
Proof.
  unfold open_page.
  apply emits_after_quiet with
    (P := fun r => exists v0, subseq r [Call_request_webpage url v0]);
    [quiet | intros c | exists ""%string; apply subseq_nil].
  apply emits_after_quiet with
    (P := fun r => exists v0, subseq r [Call_request_webpage url v0]);
    [quiet | intros b | exists ""%string; apply subseq_nil].
  eapply emits_impl.
  - apply emits_one with (c := Call_request_webpage url (c ++ "_" ++ b)%string).
    + unfold _request_webpage. apply emits_invoke. reflexivity.
    + intros req. unfold _webpage_read_content. quiet.
  - simpl. intros l Hl. eexists. rewrite Hl. apply subseq_take, subseq_nil.
Qed.

Lemma requests_broadcast_info_lookup c b v p :
  emits (fun l => requests l = [Call_download_json (broadcast_api_url c b) v])
        (broadcast_info_lookup fw c b v p).
Proof.
  unfold broadcast_info_lookup. apply emits_one.
  - unfold _download_json. apply emits_invoke_total. reflexivity.
  - intros info. unfold _html_search_regex, _parse_json. quiet.
Qed.

Lemma requests_hls_urls_lookup info item live v :
  emits (fun l => exists lsa,
             subseq (requests l) [Call_download_json (lss_api_url fw live lsa) v])
        (hls_urls_lookup fw info item live v).
Proof.
  unfold hls_urls_lookup.
  apply emits_after_quiet with
    (P := fun r => exists lsa, subseq r [Call_download_json (lss_api_url fw live lsa) v]);
    [quiet | intros hls | exists PNone; apply subseq_nil].
  apply emits_after_quiet with
    (P := fun r => exists lsa, subseq r [Call_download_json (lss_api_url fw live lsa) v]);
    [quiet | intros missing | exists PNone; apply subseq_nil].
  apply emits_after_quiet with
    (P := fun r => exists lsa, subseq r [Call_download_json (lss_api_url fw live lsa) v]);
    [destruct missing; quiet | intros hls' | exists PNone; apply subseq_nil].
  apply emits_after_quiet with
    (P := fun r => exists lsa, subseq r [Call_download_json (lss_api_url fw live lsa) v]);
    [quiet | intros missing' | exists PNone; apply subseq_nil].
  destruct missing'.
  - eapply emits_bind with
      (P := fun l => exists lsa,
                subseq (requests l) [Call_download_json (lss_api_url fw live lsa) v])
      (Q := fun _ => quiet).
    + apply emits_after_quiet with
        (P := fun r => exists lsa, subseq r [Call_download_json (lss_api_url fw live lsa) v]);
        [quiet | intros lsa | exists PNone; apply subseq_nil].
      eapply emits_impl.
      * apply emits_one with (c := Call_download_json (lss_api_url fw live lsa) v).
        -- unfold _download_json. apply emits_invoke_total. reflexivity.
        -- intros lss_info. quiet.
      * simpl. intros l Hl. exists lsa. rewrite Hl. apply subseq_take, subseq_nil.
    + intros hls''. quiet.
    + auto.
    + unfold quiet. intros _ l1 l2 [lsa H1] H2. exists lsa.
      rewrite requests_app, H2, app_nil_r. assumption.
  - eapply emits_impl.
    + apply quiet_bind; [quiet | intros hls'']. quiet.
    + unfold quiet. intros l Hl. exists PNone. rewrite Hl. apply subseq_nil.
Qed.

End Log.

Section NoRetry.
Variables E W : Type.
Variable fw : Framework E W.

Lemma subseq_app A (a b l1 l2 : list A) :
  subseq a l1 -> subseq b l2 -> subseq (a ++ b) (l1 ++ l2).
Proof.
  intros Ha Hb. induction Ha as [l | x a l Ha IH | x a l Ha IH]; simpl.
  - induction l as [| y l IH]; simpl; [assumption | apply subseq_skip; assumption].
  - apply subseq_take. assumption.
  - apply subseq_skip. assumption.
Qed.

Lemma subseq_weaken A (a l1 l2 : list A) : subseq a l1 -> subseq a (l1 ++ l2).
Proof.
  intros Ha. rewrite <- (app_nil_r a). apply subseq_app; [assumption | apply subseq_nil].
Qed.

Lemma subseq_refl A (l : list A) : subseq l l.
Proof. induction l; constructor; assumption. Qed.

Lemma requests_manifest manifest_url video_id is_live c p info item :
  emits (fun l => subseq (requests l)
                         [Call_extract_m3u8_formats manifest_url video_id is_live])
        (formats <- _extract_m3u8_formats fw manifest_url video_id is_live ;;
         formats <- _sort_formats fw formats ;;
         video_info fw c video_id p info item is_live formats).
Proof.
  eapply emits_impl.
  - apply emits_one with
      (c := Call_extract_m3u8_formats manifest_url video_id is_live).
    + unfold _extract_m3u8_formats. apply emits_invoke. reflexivity.
    + intros formats. apply quiet_bind; [apply quiet_sort_formats |].
      intros formats'. apply quiet_video_info.
  - simpl. intros l Hl. rewrite Hl. apply subseq_refl.
Qed.

Lemma requests_real_extract url :
  emits (no_retry fw url) (_real_extract fw url).
Proof.
  unfold _real_extract.
  eapply emits_bind with
    (P := fun l => exists v0, subseq (requests l) [Call_request_webpage url v0])
    (Q := fun _ l => exists c b v live lsa m,
              subseq (requests l)
                     [ Call_download_json (broadcast_api_url c b) v;
                       Call_download_json (lss_api_url fw live lsa) v;
                       Call_extract_m3u8_formats m v live ]).
  - apply requests_open_page.
  - intros [[[[c b0] v0] req] page].
    apply emits_after_quiet with
      (P := fun r => exists c b v live lsa m,
                subseq r [ Call_download_json (broadcast_api_url c b) v;
                           Call_download_json (lss_api_url fw live lsa) v;
                           Call_extract_m3u8_formats m v live ]);
      [apply quiet_resolve_upcoming | intros [b v]
      | exists "", "", "", true, PNone, PNone; apply subseq_nil].
    eapply emits_bind with
      (P := fun l => requests l = [Call_download_json (broadcast_api_url c b) v])
      (Q := fun _ l => exists live lsa m,
                subseq (requests l)
                       [ Call_download_json (lss_api_url fw live lsa) v;
                         Call_extract_m3u8_formats m v live ]).
    + apply requests_broadcast_info_lookup.
    + intros info.
      apply emits_after_quiet with
        (P := fun r => exists live lsa m,
                  subseq r [ Call_download_json (lss_api_url fw live lsa) v;
                             Call_extract_m3u8_formats m v live ]);
        [apply emits_lift; reflexivity | intros item
        | exists true, PNone, PNone; apply subseq_nil].
      apply emits_after_quiet with
        (P := fun r => exists live lsa m,
                  subseq r [ Call_download_json (lss_api_url fw live lsa) v;
                             Call_extract_m3u8_formats m v live ]);
        [apply emits_lift; reflexivity | intros live_status
        | exists true, PNone, PNone; apply subseq_nil].
      eapply emits_bind with
        (P := fun l => exists lsa,
                  subseq (requests l)
                         [Call_download_json
                            (lss_api_url fw (py_eq_str live_status "LIVE") lsa) v])
        (Q := fun _ l => exists m,
                  subseq (requests l)
                         [Call_extract_m3u8_formats m v (py_eq_str live_status "LIVE")]).
      * apply requests_hls_urls_lookup.
      * intros hls.
        apply emits_after_quiet with
          (P := fun r => exists m,
                    subseq r [Call_extract_m3u8_formats m v
                                                        (py_eq_str live_status "LIVE")]);
          [apply emits_lift; reflexivity | intros manifest
          | exists PNone; apply subseq_nil].
        eapply emits_impl; [apply requests_manifest |].
        simpl. intros l Hl. exists manifest. assumption.
      * intros l [lsa Hl]. exists (py_eq_str live_status "LIVE"), lsa, PNone.
        apply (subseq_weaken [Call_extract_m3u8_formats PNone v _] Hl).
      * intros _ l1 l2 [lsa H1] [m H2].
        exists (py_eq_str live_status "LIVE"), lsa, m.
        rewrite requests_app. apply (subseq_app H1 H2).
    + intros l Hl. exists c, b, v, true, PNone, PNone. rewrite Hl.
      apply subseq_take, subseq_nil.
    + intros _ l1 l2 H1 (live & lsa & m & H2). exists c, b, v, live, lsa, m.
      rewrite requests_app, H1. apply subseq_take. assumption.
  - intros l [v0 Hl]. exists v0, "", "", "", true, PNone, PNone.
    apply (subseq_weaken _ Hl).
  - intros _ l1 l2 [v0 H1] (c & b & v & live & lsa & m & H2).
    exists v0, c, b, v, live, lsa, m. rewrite requests_app.
    apply (subseq_app H1 H2).
Qed.

End NoRetry.


Local Open Scope string_scope.

(* ------------------------------------------------------------------ *)
(** ** The ids of a URL *)

Lemma re_match_sound r s g :
  re_match r s = Some g -> exists w s', s = w ++ s' /\ matches r w g.
Proof.
  unfold re_match. destruct (hits r s) as [| [[w g'] s'] l] eqn:Hh; [discriminate |].
  intros H. inversion H; subst. exists w, s'.
  apply hits_sound. rewrite Hh. left. reflexivity.
Qed.

Lemma re_search_at_start r s g : re_match r s = Some g -> re_search r s = Some g.
Proof. intros H. destruct s; simpl; rewrite H; reflexivity. Qed.

Lemma valid_url_groups url g :
  re_match _VALID_URL url = Some g ->
  exists channel_id link_type broadcast_id,
    g = [("channel_id", channel_id); ("link_type", link_type); ("id", broadcast_id)] /\
    url_shape url channel_id link_type broadcast_id.
Proof.
  intros H. apply re_match_sound in H. destruct H as (w & s' & -> & Hm).
  apply valid_url_matches in Hm. destruct Hm as (c & lt & b & -> & Hs).
  exists c, lt, b. split; [reflexivity | apply Hs].
Qed.

Lemma search_groups s g :
  re_search _VALID_URL s = Some g ->
  exists channel_id link_type broadcast_id,
    g = [("channel_id", channel_id); ("link_type", link_type); ("id", broadcast_id)] /\
    (link_type = "broadcast" \/ link_type = "upcoming").
Proof.
  induction s as [| c s IH].
  - vm_compute. discriminate.
  - simpl. destruct (re_match _VALID_URL (String c s)) as [g' |] eqn:Hm; [| exact IH].
    intros H. inversion H; subst. apply valid_url_groups in Hm.
    destruct Hm as (ch & lt & b & -> & Hs). exists ch, lt, b.
    split; [reflexivity |]. destruct Hs as (? & ? & ? & ? & Hs). tauto.
Qed.

Lemma search_link_type s lt :
  _search_regex _VALID_URL s "link_type" "link_type" = Ok lt ->
  lt = "broadcast" \/ lt = "upcoming".
Proof.
  unfold _search_regex. destruct (re_search _VALID_URL s) as [g |] eqn:Hs; [| discriminate].
  apply search_groups in Hs. destruct Hs as (c & lt' & b & -> & Hlt).
  simpl. intros H. inversion H; subst. assumption.
Qed.

Lemma match_id_shape url broadcast_id :
  _match_id url = Ok broadcast_id ->
  exists channel_id link_type,
    url_shape url channel_id link_type broadcast_id /\
    _search_regex _VALID_URL url "channel_id" "channel_id" = Ok channel_id /\
    _search_regex _VALID_URL url "link_type" "link_type" = Ok link_type.
Proof.
  unfold _match_id, _search_regex.
  destruct (re_match _VALID_URL url) as [g |] eqn:Hm; [| discriminate].
  rewrite (re_search_at_start _ _ Hm).
  apply valid_url_groups in Hm. destruct Hm as (c & lt & b & -> & Hs).
  simpl. intros H. inversion H; subst. exists c, lt. auto.
Qed.

Lemma match_id_digits url broadcast_id :
  _match_id url = Ok broadcast_id ->
  all_digits broadcast_id = true /\ broadcast_id <> "".
Proof.
  intros H. apply match_id_shape in H. destruct H as (c & lt & Hs & _).
  destruct Hs as (? & ? & ? & ? & Hs). tauto.
Qed.

Lemma suitable_match_id url :
  suitable url = true -> exists broadcast_id, _match_id url = Ok broadcast_id.
Proof.
  unfold suitable, _match_id.
  destruct (re_match _VALID_URL url) as [g |] eqn:Hm; [| discriminate].
  apply valid_url_groups in Hm. destruct Hm as (c & lt & b & -> & Hs).
  intros _. exists b. reflexivity.
Qed.

Section Resolve.
Variables E W : Type.
Variable fw : Framework E W.

Lemma resolve_not_upcoming url c b0 v0 req (s : state E W) lt :
  _search_regex _VALID_URL url "link_type" "link_type" = Ok lt ->
  lt <> "upcoming" ->
  resolve_upcoming url c b0 v0 req s = (Ok (b0, v0), s).
Proof.
  intros Hlt Hne. unfold resolve_upcoming, bind, lift. rewrite Hlt.
  destruct (String.eqb lt "upcoming") eqn:Heq; [| reflexivity].
  apply String.eqb_eq in Heq. contradiction.
Qed.

Lemma resolve_upcoming_search url c b0 v0 req (s : state E W) :
  _search_regex _VALID_URL url "link_type" "link_type" = Ok "upcoming" ->
  resolve_upcoming url c b0 v0 req s =
  match _search_regex _VALID_URL (resp_url req) "link_type" "link_type" with
  | Ok lt' =>
      if String.eqb lt' "broadcast" then
        match _match_id (resp_url req) with
        | Ok b => (Ok (b, c ++ "_" ++ b), s)
        | Fail f => (Fail f, s)
        end
      else (Fail (Raised broadcast_not_found), s)
  | Fail f => (Fail f, s)
  end.
Proof.
  intros Hlt. unfold resolve_upcoming, bind, lift. rewrite Hlt. simpl.
  destruct (_search_regex _VALID_URL (resp_url req) "link_type" "link_type") as [lt' | f];
    [| reflexivity].
  destruct (String.eqb lt' "broadcast"); simpl; [| reflexivity].
  destruct (_match_id (resp_url req)); reflexivity.
Qed.

Lemma resolve_upcoming_ok url c b0 v0 req (s : state E W) b v s' :
  resolve_upcoming url c b0 v0 req s = (Ok (b, v), s') ->
  s' = s /\
  exists lt,
    _search_regex _VALID_URL url "link_type" "link_type" = Ok lt /\
    ((lt <> "upcoming" /\ b = b0 /\ v = v0) \/
     (lt = "upcoming" /\
      _search_regex _VALID_URL (resp_url req) "link_type" "link_type" = Ok "broadcast" /\
      _match_id (resp_url req) = Ok b /\ v = c ++ "_" ++ b)).
Proof.
  destruct (_search_regex _VALID_URL url "link_type" "link_type") as [lt | f] eqn:Hlt.
  - destruct (String.eqb lt "upcoming") eqn:Heq.
    + apply String.eqb_eq in Heq. subst lt.
      rewrite (@resolve_upcoming_search url c b0 v0 req s Hlt).
      destruct (_search_regex _VALID_URL (resp_url req) "link_type" "link_type")
        as [lt' | f]; [| discriminate].
      destruct (String.eqb lt' "broadcast") eqn:Hb; [| discriminate].
      apply String.eqb_eq in Hb. subst lt'.
      destruct (_match_id (resp_url req)) as [b' | f]; [| discriminate].
      intros H. inversion H; subst. split; [reflexivity |].
      exists "upcoming". split; [reflexivity |]. right. auto.
    + apply String.eqb_neq in Heq.
      rewrite (@resolve_not_upcoming url c b0 v0 req s lt Hlt Heq).
      intros H. inversion H; subst. split; [reflexivity |].
      exists lt. split; [reflexivity |]. left. auto.
  - unfold resolve_upcoming, bind, lift. rewrite Hlt. discriminate.
Qed.

End Resolve.

Section Failures.
Variables E W : Type.
Variable fw : Framework E W.

Lemma fails_in_resolve url s c b0 v0 req page s1 f s2 :
  open_page fw url s = (Ok (c, b0, v0, req, page), s1) ->
  resolve_upcoming url c b0 v0 req s1 = (Fail f, s2) ->
  _real_extract fw url s = (Fail f, s2).
Proof.
  intros H1 H2. unfold _real_extract.
  unfold bind at 1. rewrite H1.
  unfold bind at 1. rewrite H2. reflexivity.
Qed.

Lemma fails_in_lookup url s c b v page s2 f s3 :
  reaches_lookup fw url s c b v page s2 ->
  broadcast_info_lookup fw c b v page s2 = (Fail f, s3) ->
  _real_extract fw url s = (Fail f, s3).
Proof.
  intros (b0 & v0 & req & s1 & H1 & H2) H3. unfold _real_extract.
  unfold bind at 1. rewrite H1.
  unfold bind at 1. rewrite H2.
  unfold bind at 1. rewrite H3. reflexivity.
Qed.

Lemma fails_in_streams url s v info item live s3 f s4 :
  reaches_streams fw url s v info item live s3 ->
  hls_urls_lookup fw info item live v s3 = (Fail f, s4) ->
  _real_extract fw url s = (Fail f, s4).
Proof.
  intros (c & b & page & s2 & ls & (b0 & v0 & req & s1 & H1 & H2) & H3 & H4 & H5 & ->) H6.
  unfold _real_extract.
  unfold bind at 1. rewrite H1.
  unfold bind at 1. rewrite H2.
  unfold bind at 1. rewrite H3.
  rewrite H4. unfold lift at 1. unfold bind at 1.
  rewrite H5. unfold lift at 1. unfold bind at 1.
  unfold bind at 1. rewrite H6. reflexivity.
Qed.

(** The identity fields of a record, from the stages of the run. *)
Lemma extracted_identity url s r s' :
  _real_extract fw url s = (Ok r, s') ->
  exists c b0 v0 req page s1 b v s2,
    open_page fw url s = (Ok (c, b0, v0, req, page), s1) /\
    resolve_upcoming url c b0 v0 req s1 = (Ok (b, v), s2) /\
    py_get r "id" = Ok (PStr v) /\
    py_get r "uploader_id" = Ok (PStr c) /\
    py_get r "uploader_url" = Ok (PStr ("https://live.line.me/channels/" ++ c)).
Proof.
  intros H. apply real_extract_ok in H.
  destruct H as [c b0 v0 req page s1 b v s2 info s3 item ls hls s4 m f0 s5 f s6
                   H1 H2 H3 H4 H5 H6 H7 H8 H9 H10].
  apply video_info_ok in H10.
  destruct H10 as (? & ? & ? & ? & ? & ? & ? & ? & ? & ? & ? & ? & ? & ? & ? & H10).
  decompose [and] H10. subst r.
  exists c, b0, v0, req, page, s1, b, v, s2. repeat split; assumption || reflexivity.
Qed.

End Failures.

(** C1, as the code has it. Every URL the extractor accepts has the shape of
    the pattern
    [https?://live.line.me/channels/<digits>/(broadcast|upcoming)/<digits>];
    the parser returns its channel id, its link type (one of [broadcast] and
    [upcoming]) and its broadcast id. The [id] of an extracted record is the
    channel id, an underscore and a broadcast id: that of the URL itself for
    a broadcast link, and for an upcoming link that of the URL the page of
    this run was served from. *)
Theorem valid_url_ids url :
  suitable url = true ->
  exists channel_id link_type broadcast_id,
    url_shape url channel_id link_type broadcast_id /\
    _search_regex _VALID_URL url "channel_id" "channel_id" = Ok channel_id /\
    _search_regex _VALID_URL url "link_type" "link_type" = Ok link_type /\
    (link_type = "broadcast" \/ link_type = "upcoming") /\
    _match_id url = Ok broadcast_id /\
    forall E W (fw : Framework E W) s r s',
      _real_extract fw url s = (Ok r, s') ->
      (link_type = "broadcast" ->
       py_get r "id" = Ok (PStr (channel_id ++ "_" ++ broadcast_id))) /\
      (link_type = "upcoming" ->
       exists req s0 served_id,
         _request_webpage fw url (channel_id ++ "_" ++ broadcast_id) s = (Ok req, s0) /\
         _match_id (resp_url req) = Ok served_id /\
         all_digits served_id = true /\ served_id <> "" /\
         py_get r "id" = Ok (PStr (channel_id ++ "_" ++ served_id))).
Proof.
  intros Hs. apply suitable_match_id in Hs. destruct Hs as [b0 Hb0].
  destruct (match_id_shape _ Hb0) as (c & lt & Hshape & Hc & Hlt).
  exists c, lt, b0. repeat split; try assumption.
  - eapply search_link_type. eassumption.
  - intros Hbroadcast.
    apply extracted_identity in H.
    destruct H as (c' & b0' & v0 & req & page & s1 & b & v & s2 & H1 & H2 & Hid & _).
    apply open_page_ok in H1. destruct H1 as (Hc' & Hb0' & -> & _).
    rewrite Hc in Hc'. rewrite Hb0 in Hb0'. inversion Hc'; inversion Hb0'; subst c' b0'.
    apply resolve_upcoming_ok in H2. destruct H2 as (-> & lt' & Hlt' & Hcase).
    rewrite Hlt in Hlt'. inversion Hlt'; subst lt'.
    destruct Hcase as [(Hne & -> & ->) | (-> & _)]; [assumption | discriminate].
  - intros Hupcoming.
    apply extracted_identity in H.
    destruct H as (c' & b0' & v0 & req & page & s1 & b & v & s2 & H1 & H2 & Hid & _).
    apply open_page_ok in H1. destruct H1 as (Hc' & Hb0' & -> & s0 & Hreq & _).
    rewrite Hc in Hc'. rewrite Hb0 in Hb0'. inversion Hc'; inversion Hb0'; subst c' b0'.
    apply resolve_upcoming_ok in H2. destruct H2 as (-> & lt' & Hlt' & Hcase).
    rewrite Hlt in Hlt'. inversion Hlt'; subst lt'.
    destruct Hcase as [(Hne & _) | (_ & Hsr & Hm & ->)]; [contradiction |].
    exists req, s0, b. destruct (match_id_digits _ Hm). repeat split; assumption.
Qed.

Lemma valid_url_ids_witness :
  suitable Demo.upcoming_url = true /\
  _real_extract (Demo.framework Demo.upcoming) Demo.upcoming_url Demo.start
  = (Ok Cases.upcoming_record, Cases.upcoming_end) /\
  exists served_id,
    _match_id (Demo.served_from Demo.upcoming Demo.upcoming_url) = Ok served_id /\
    py_get Cases.upcoming_record "id" = Ok (PStr ("21" ++ "_" ++ served_id)).
Proof.
  assert (Hs : suitable Demo.upcoming_url = true) by (vm_compute; reflexivity).
  assert (Hrun : _real_extract (Demo.framework Demo.upcoming) Demo.upcoming_url Demo.start
                 = (Ok Cases.upcoming_record, Cases.upcoming_end))
    by (vm_compute; reflexivity).
  split; [exact Hs |]. split; [exact Hrun |].
  destruct (valid_url_ids Demo.upcoming_url Hs)
    as (c & lt & b & _ & Hc & Hlt & _ & Hb & Hid).
  assert (Hc' : c = "21") by (vm_compute in Hc; congruence).
  assert (Hlt' : lt = "upcoming") by (vm_compute in Hlt; congruence).
  assert (Hb' : b = "8694200") by (vm_compute in Hb; congruence).
  subst c lt b.
  destruct (proj2 (Hid nat nat (Demo.framework Demo.upcoming) Demo.start
                       Cases.upcoming_record Cases.upcoming_end Hrun) eq_refl)
    as (req & s0 & served & Hreq & Hm & _ & _ & Hrec).
  assert (Hreq' : resp_url req = Demo.served_from Demo.upcoming Demo.upcoming_url).
  { unfold _request_webpage, invoke in Hreq. simpl in Hreq.
    inversion Hreq. reflexivity. }
  rewrite Hreq' in Hm.
  exists served. split; assumption.
Defined.

(** The claim as the spec words it takes the broadcast id of the input URL
    for the identity. Fixture 1 of [_TESTS]: the upcoming link [8694200] is
    accepted, the parser reads channel [21] and broadcast [8694200] from it,
    and the record has the id [21_8656158]. *)
Lemma valid_url_ids_counterexample :
  suitable Demo.upcoming_url = true /\
  _search_regex _VALID_URL Demo.upcoming_url "channel_id" "channel_id" = Ok "21" /\
  _match_id Demo.upcoming_url = Ok "8694200" /\
  _real_extract (Demo.framework Demo.upcoming) Demo.upcoming_url Demo.start
  = (Ok Cases.upcoming_record, Cases.upcoming_end) /\
  py_get Cases.upcoming_record "id" = Ok (PStr "21_8656158") /\
  py_get Cases.upcoming_record "id" <> Ok (PStr ("21" ++ "_" ++ "8694200")).
Proof.
  repeat split; try (vm_compute; reflexivity). vm_compute. discriminate.
Qed.

(** C2, as the code has it. The URL the page was served from is looked at
    exactly when the link type of the input URL is [upcoming]. Then, if that
    URL holds the pattern with a link type other than [broadcast], the
    extraction fails with the expected error [Broadcast not found]; if it
    holds the pattern with the link type [broadcast] and matches it from its
    start, the broadcast id, and with it the [id] of the record, is taken
    from it. *)
Theorem upcoming_link_resolution E W (fw : Framework E W) url s c b0 v0 req page s1 :
  open_page fw url s = (Ok (c, b0, v0, req, page), s1) ->
  exists link_type,
    _search_regex _VALID_URL url "link_type" "link_type" = Ok link_type /\
    (link_type <> "upcoming" ->
     resolve_upcoming url c b0 v0 req s1 = (Ok (b0, v0), s1) /\
     v0 = c ++ "_" ++ b0 /\
     forall r s', _real_extract fw url s = (Ok r, s') ->
                  py_get r "id" = Ok (PStr v0)) /\
    (link_type = "upcoming" ->
     (forall lt',
         _search_regex _VALID_URL (resp_url req) "link_type" "link_type" = Ok lt' ->
         lt' <> "broadcast" ->
         _real_extract fw url s = (Fail (Raised broadcast_not_found), s1)) /\
     (forall b,
         _search_regex _VALID_URL (resp_url req) "link_type" "link_type" = Ok "broadcast" ->
         _match_id (resp_url req) = Ok b ->
         resolve_upcoming url c b0 v0 req s1 = (Ok (b, c ++ "_" ++ b), s1) /\
         forall r s', _real_extract fw url s = (Ok r, s') ->
                      py_get r "id" = Ok (PStr (c ++ "_" ++ b)))).
Proof.
  intros Hopen. destruct (open_page_ok _ _ _ Hopen) as (Hc & Hb0 & Hv0 & _).
  destruct (match_id_shape _ Hb0) as (c' & lt & _ & _ & Hlt).
  exists lt. split; [assumption |]. split.
  - intros Hne. pose proof (@resolve_not_upcoming E W url c b0 v0 req s1 lt Hlt Hne) as Hres.
    split; [assumption |]. split; [assumption |]. intros r s' Hrun.
    apply extracted_identity in Hrun.
    destruct Hrun as (? & ? & ? & ? & ? & ? & b & v & s2 & H1 & H2 & Hid & _).
    rewrite Hopen in H1. inversion H1; subst.
    rewrite Hres in H2. inversion H2; subst. assumption.
  - intros ->. split.
    + intros lt' Hlt' Hne. eapply fails_in_resolve; [eassumption |].
      rewrite (@resolve_upcoming_search E W url c b0 v0 req s1 Hlt), Hlt'.
      destruct (String.eqb lt' "broadcast") eqn:Heq; [| reflexivity].
      apply String.eqb_eq in Heq. contradiction.
    + intros b Hlt' Hm.
      assert (Hres : resolve_upcoming url c b0 v0 req s1
                     = (Ok (b, c ++ "_" ++ b), s1)).
      { rewrite (@resolve_upcoming_search E W url c b0 v0 req s1 Hlt), Hlt', Hm.
        reflexivity. }
      split; [assumption |]. intros r s' Hrun.
      apply extracted_identity in Hrun.
      destruct Hrun as (? & ? & ? & ? & ? & ? & b' & v & s2 & H1 & H2 & Hid & _).
      rewrite Hopen in H1. inversion H1; subst.
      rewrite Hres in H2. inversion H2; subst. assumption.
Qed.

Section Helpers.
Variables E W : Type.
Variable fw : Framework E W.

Lemma invoke_total_run A c (h : total_helper E W A) (s : state E W) :
  exists a s1, invoke_total c h s = (Ok a, s1) /\ calls s1 = (calls s ++ [c])%list.
Proof.
  unfold invoke_total. destruct (h (self s, world s)) as [a [e w]].
  eexists _, _. split; reflexivity.
Qed.

Lemma invoke_run A c (h : helper E W A) (s : state E W) :
  exists r s1, invoke c h s = (r, s1) /\ calls s1 = (calls s ++ [c])%list.
Proof.
  unfold invoke. destruct (h (self s, world s)) as [a [e w]].
  eexists _, _. split; reflexivity.
Qed.

Lemma download_json_run url video_id (s : state E W) :
  exists info s1,
    _download_json fw url video_id s = (Ok info, s1) /\
    calls s1 = (calls s ++ [Call_download_json url video_id])%list.
Proof. apply invoke_total_run. Qed.

Lemma html_search_regex_run pattern webpage name default (s : state E W) :
  exists text s1,
    _html_search_regex fw pattern webpage name default s = (Ok text, s1) /\
    calls s1 = (calls s ++ [Call_html_search_regex pattern name])%list.
Proof.
  unfold _html_search_regex, bind.
  destruct (invoke_total_run (Call_html_search_regex pattern name)
              (html_search_regex fw pattern webpage name) s) as (a & s1 & Hrun & Hcalls).
  rewrite Hrun. eexists _, _. split; [reflexivity | assumption].
Qed.

Lemma parse_json_run text video_id (s : state E W) :
  exists r s1,
    _parse_json fw text video_id s = (r, s1) /\
    calls s1 = (calls s ++ [Call_parse_json text video_id])%list.
Proof. apply invoke_run. Qed.

Lemma lookup_from_api c b v page (s : state E W) info s1 :
  _download_json fw (broadcast_api_url c b) v s = (Ok info, s1) ->
  py_truthy info = true -> py_contains "item" info = Ok true ->
  broadcast_info_lookup fw c b v page s = (Ok info, s1).
Proof.
  intros Hrun Ht Hc. unfold broadcast_info_lookup.
  unfold bind at 1. rewrite Hrun.
  assert (H1 : or_else (negb (py_truthy info)) (py_not_in "item" info) = Ok false).
  { unfold py_not_in. rewrite Ht, Hc. reflexivity. }
  assert (H2 : or_else (is_none info) (py_not_in "item" info) = Ok false).
  { unfold py_not_in. rewrite Hc. destruct info; try discriminate; reflexivity. }
  rewrite H1. unfold lift at 1. unfold bind at 1.
  unfold bind at 1. unfold ret at 1.
  rewrite H2. reflexivity.
Qed.

Lemma lookup_from_page c b v page (s : state E W) info s1 text s2 :
  _download_json fw (broadcast_api_url c b) v s = (Ok info, s1) ->
  py_truthy info = false \/ py_contains "item" info = Ok false ->
  _html_search_regex fw data_broadcast_re page "data-broadcast" "null" s1
    = (Ok text, s2) ->
  broadcast_info_lookup fw c b v page s =
  match _parse_json fw text v s2 with
  | (Ok info', s3) =>
      match or_else (is_none info') (py_not_in "item" info') with
      | Ok true => (Fail (Raised broadcast_not_found), s3)
      | Ok false => (Ok info', s3)
      | Fail f => (Fail f, s3)
      end
  | (Fail f, s3) => (Fail f, s3)
  end.
Proof.
  intros Hrun Hcase Hsearch. unfold broadcast_info_lookup.
  unfold bind at 1. rewrite Hrun.
  assert (Habsent : or_else (negb (py_truthy info)) (py_not_in "item" info) = Ok true).
  { destruct Hcase as [Ht | Hc].
    - rewrite Ht. reflexivity.
    - unfold py_not_in. rewrite Hc. destruct (py_truthy info); reflexivity. }
  rewrite Habsent. unfold lift at 1. unfold bind at 1.
  unfold bind at 1. unfold bind at 1. rewrite Hsearch.
  destruct (_parse_json fw text v s2) as [[info' | f] s3]; [| reflexivity].
  unfold bind, lift.
  destruct (or_else (is_none info') (py_not_in "item" info')) as [[|] | f]; reflexivity.
Qed.

End Helpers.

(** C3. The broadcast info is looked up in this order. The JSON API is called
    first. When its answer is a true value that holds ['item'], it is the
    broadcast info and nothing else is called. When the call failed (a false
    value) or its answer lacks ['item'], the [data-broadcast] attribute of
    the page is searched and parsed as JSON; if what it parses to is [None]
    or lacks ['item'], the extraction fails with the expected error
    [Broadcast not found], and otherwise it is the broadcast info. *)
Theorem broadcast_info_order E W (fw : Framework E W) url s0 c b v page s :
  reaches_lookup fw url s0 c b v page s ->
  exists info s1,
    _download_json fw (broadcast_api_url c b) v s = (Ok info, s1) /\
    calls s1 = (calls s ++ [Call_download_json (broadcast_api_url c b) v])%list /\
    (py_truthy info = true -> py_contains "item" info = Ok true ->
     broadcast_info_lookup fw c b v page s = (Ok info, s1)) /\
    (py_truthy info = false \/ py_contains "item" info = Ok false ->
     exists text s2 r s3,
       _html_search_regex fw data_broadcast_re page "data-broadcast" "null" s1
         = (Ok text, s2) /\
       _parse_json fw text v s2 = (r, s3) /\
       calls s3 = (calls s ++ [ Call_download_json (broadcast_api_url c b) v;
                                Call_html_search_regex data_broadcast_re "data-broadcast";
                                Call_parse_json text v ])%list /\
       (forall info', r = Ok info' ->
                      info' = PNone \/ py_contains "item" info' = Ok false ->
                      broadcast_info_lookup fw c b v page s
                        = (Fail (Raised broadcast_not_found), s3) /\
                      _real_extract fw url s0 = (Fail (Raised broadcast_not_found), s3)) /\
       (forall info', r = Ok info' -> py_contains "item" info' = Ok true ->
                      broadcast_info_lookup fw c b v page s = (Ok info', s3))).
Proof.
  intros Hreach.
  destruct (download_json_run fw (broadcast_api_url c b) v s) as (info & s1 & Hrun & Hc1).
  exists info, s1. repeat split; try assumption.
  - intros Ht Hc. eapply lookup_from_api; eassumption.
  - intros Hcase.
    destruct (html_search_regex_run fw data_broadcast_re page "data-broadcast" "null" s1)
      as (text & s2 & Hsearch & Hc2).
    destruct (parse_json_run fw text v s2) as (r & s3 & Hparse & Hc3).
    exists text, s2, r, s3.
    pose proof (@lookup_from_page E W fw c b v page s info s1 text s2 Hrun Hcase Hsearch)
      as Hpage.
    rewrite Hparse in Hpage.
    split; [assumption |]. split; [assumption |]. split; [| split].
    + rewrite Hc3, Hc2, Hc1, <- !app_assoc. reflexivity.
    + intros info' -> Hnone.
      assert (Hfail : broadcast_info_lookup fw c b v page s
                      = (Fail (Raised broadcast_not_found), s3)).
      { rewrite Hpage. destruct Hnone as [-> | Hc]; [reflexivity |].
        unfold py_not_in. rewrite Hc. destruct (is_none info'); reflexivity. }
      split; [assumption |]. eapply fails_in_lookup; eassumption.
    + intros info' -> Hc. rewrite Hpage.
      unfold py_not_in. rewrite Hc.
      destruct info'; simpl in *; try discriminate; reflexivity.
Qed.

Lemma py_get_total v k x k' : py_get v k = Ok x -> exists x', py_get v k' = Ok x'.
Proof. destruct v; simpl; try discriminate. intros _. eexists. reflexivity. Qed.

Section Streams.
Variables E W : Type.
Variable fw : Framework E W.

Lemma hls_from_live info item live v (s : state E W) live_urls :
  py_get info "liveHLSURLs" = Ok live_urls ->
  no_abr live_urls = Ok false ->
  hls_urls_lookup fw info item live v s = (Ok live_urls, s).
Proof.
  intros Hl Hn. unfold hls_urls_lookup, bind, lift, ret.
  rewrite Hl, Hn, Hn, Hn. reflexivity.
Qed.

Lemma hls_from_archive info item live v (s : state E W) live_urls archived_urls :
  py_get info "liveHLSURLs" = Ok live_urls ->
  py_get info "archivedHLSURLs" = Ok archived_urls ->
  no_abr live_urls = Ok true ->
  no_abr archived_urls = Ok false ->
  hls_urls_lookup fw info item live v s = (Ok archived_urls, s).
Proof.
  intros Hl Ha Hn1 Hn2. unfold hls_urls_lookup, bind, lift, ret.
  rewrite Hl, Hn1, Ha, Hn2, Hn2. reflexivity.
Qed.

Lemma hls_from_lss info item live v (s : state E W) live_urls archived_urls lsa
      lss_info s1 :
  py_get info "liveHLSURLs" = Ok live_urls ->
  py_get info "archivedHLSURLs" = Ok archived_urls ->
  py_get info "lsaPath" = Ok lsa ->
  no_abr live_urls = Ok true ->
  no_abr archived_urls = Ok true ->
  _download_json fw (lss_api_url fw live lsa) v s = (Ok lss_info, s1) ->
  hls_urls_lookup fw info item live v s =
  match (if py_truthy lss_info then py_get lss_info "playUrls" else Ok PNone) with
  | Ok play_urls =>
      match no_abr play_urls with
      | Ok true =>
          match py_get item "archiveStatus" with
          | Ok status =>
              (Fail (Raised {| msg := "Broadcast has an archive status of "
                                        ++ py_str (repr_ fw) status;
                               expected := true |}), s1)
          | Fail f => (Fail f, s1)
          end
      | Ok false => (Ok play_urls, s1)
      | Fail f => (Fail f, s1)
      end
  | Fail f => (Fail f, s1)
  end.
Proof.
  intros Hl Ha Hp Hn1 Hn2 Hrun. unfold hls_urls_lookup.
  rewrite Hl. unfold lift at 1. unfold bind at 1.
  rewrite Hn1. unfold lift at 1. unfold bind at 1.
  rewrite Ha. unfold lift at 1. unfold bind at 1.
  rewrite Hn2. unfold lift at 1. unfold bind at 1.
  rewrite Hp. unfold lift at 1. unfold bind at 1. unfold bind at 1. unfold bind at 1.
  rewrite Hrun.
  destruct (py_truthy lss_info).
  - unfold lift at 1. destruct (py_get lss_info "playUrls") as [play | f]; [| reflexivity].
    unfold bind, lift, raise.
    destruct (no_abr play) as [[|] | f]; try reflexivity;
      destruct (py_get item "archiveStatus"); reflexivity.
  - unfold ret at 1. unfold bind, lift, raise. simpl.
    destruct (py_get item "archiveStatus"); reflexivity.
Qed.

End Streams.

(** C4. The manifest is looked for in three places, in this order: the
    [liveHLSURLs] of the broadcast info, its [archivedHLSURLs], and the LSS
    API, asked for the content id [lsaPath] at the endpoint [live] when the
    broadcast is live and [vod] when it is not. A later place is looked at
    only when the one before is [None] or has no [abr]; when none of the
    three has one, the extraction fails with the expected error that names
    the archive status of the item. *)
Theorem manifest_sources E W (fw : Framework E W) url s0 v info item live s :
  reaches_streams fw url s0 v info item live s ->
  exists live_urls archived_urls lsa status,
    py_get info "liveHLSURLs" = Ok live_urls /\
    py_get info "archivedHLSURLs" = Ok archived_urls /\
    py_get info "lsaPath" = Ok lsa /\
    py_get item "archiveStatus" = Ok status /\
    lss_api_url fw live lsa
    = update_url_query fw
        (if live then "https://lssapi.line-apps.com/v1/live/playInfo"
         else "https://lssapi.line-apps.com/v1/vod/playInfo")
        [("contentId", lsa)] /\
    (no_abr live_urls = Ok false ->
     hls_urls_lookup fw info item live v s = (Ok live_urls, s)) /\
    (no_abr live_urls = Ok true -> no_abr archived_urls = Ok false ->
     hls_urls_lookup fw info item live v s = (Ok archived_urls, s)) /\
    (no_abr live_urls = Ok true -> no_abr archived_urls = Ok true ->
     exists lss_info s1,
       _download_json fw (lss_api_url fw live lsa) v s = (Ok lss_info, s1) /\
       calls s1 = (calls s ++ [Call_download_json (lss_api_url fw live lsa) v])%list /\
       forall play_urls,
         (if py_truthy lss_info then py_get lss_info "playUrls" else Ok PNone)
         = Ok play_urls ->
         (no_abr play_urls = Ok false ->
          hls_urls_lookup fw info item live v s = (Ok play_urls, s1)) /\
         (no_abr play_urls = Ok true ->
          _real_extract fw url s0
          = (Fail (Raised {| msg := "Broadcast has an archive status of "
                                      ++ py_str (repr_ fw) status;
                             expected := true |}), s1))).
Proof.
  intros Hreach.
  pose proof Hreach as (c & b & page & s2 & ls & _ & _ & Hitem & Hls & _).
  destruct (@py_get_total _ _ _ "liveHLSURLs" Hitem) as [live_urls Hl].
  destruct (@py_get_total _ _ _ "archivedHLSURLs" Hitem) as [archived_urls Ha].
  destruct (@py_get_total _ _ _ "lsaPath" Hitem) as [lsa Hp].
  destruct (@py_get_total _ _ _ "archiveStatus" Hls) as [status Hst].
  exists live_urls, archived_urls, lsa, status.
  do 4 (split; [assumption |]).
  split; [destruct live; reflexivity |].
  split; [| split].
  - intros Hn. apply hls_from_live; assumption.
  - intros Hn1 Hn2. eapply hls_from_archive; eassumption.
  - intros Hn1 Hn2.
    destruct (download_json_run fw (lss_api_url fw live lsa) v s)
      as (lss_info & s1 & Hrun & Hcalls).
    exists lss_info, s1. do 2 (split; [assumption |]).
    intros play Hplay.
    pose proof (@hls_from_lss E W fw info item live v s live_urls archived_urls lsa
                  lss_info s1 Hl Ha Hp Hn1 Hn2 Hrun) as Hlss.
    rewrite Hplay, Hst in Hlss. split.
    + intros Hn3. rewrite Hn3 in Hlss. assumption.
    + intros Hn3. rewrite Hn3 in Hlss. eapply fails_in_streams; eassumption.
Qed.

Lemma int_or_none_type v : is_int_or_none (int_or_none v) = true.
Proof.
  destruct v; simpl; try reflexivity.
  destruct (int_of_text s); reflexivity.
Qed.

Lemma py_eq_str_iff v t : py_eq_str v t = true <-> v = PStr t.
Proof.
  destruct v; simpl; split; try discriminate.
  - intros H. apply String.eqb_eq in H. congruence.
  - intros H. inversion H. apply String.eqb_refl.
Qed.

Section Calls.
Variables E W : Type.
Variable fw : Framework E W.

Lemma hls_ok_calls info item live v (s : state E W) hls s' lsa :
  hls_urls_lookup fw info item live v s = (Ok hls, s') ->
  py_get info "lsaPath" = Ok lsa ->
  calls s' = calls s \/
  calls s' = (calls s ++ [Call_download_json (lss_api_url fw live lsa) v])%list.
Proof.
  intros H Hp.
  destruct (py_get info "liveHLSURLs") as [live_urls | f] eqn:Hl.
  2:{ unfold hls_urls_lookup, bind, lift in H. rewrite Hl in H. discriminate. }
  destruct (@py_get_total _ _ _ "archivedHLSURLs" Hl) as [archived_urls Ha].
  destruct (no_abr live_urls) as [[|] | f] eqn:Hn1.
  - destruct (no_abr archived_urls) as [[|] | f] eqn:Hn2.
    + destruct (download_json_run fw (lss_api_url fw live lsa) v s)
        as (lss_info & s1 & Hrun & Hcalls).
      rewrite (@hls_from_lss E W fw info item live v s live_urls archived_urls lsa
                 lss_info s1 Hl Ha Hp Hn1 Hn2 Hrun) in H.
      right. rewrite <- Hcalls.
      repeat match type of H with
             | context [match ?x with _ => _ end] => destruct x
             end; inversion H; reflexivity.
    + rewrite (@hls_from_archive E W fw info item live v s live_urls archived_urls
                 Hl Ha Hn1 Hn2) in H.
      inversion H. left. reflexivity.
    + unfold hls_urls_lookup, bind, lift in H. rewrite Hl, Hn1, Ha, Hn2 in H.
      discriminate.
  - rewrite (@hls_from_live E W fw info item live v s live_urls Hl Hn1) in H.
    inversion H. left. reflexivity.
  - unfold hls_urls_lookup, bind, lift in H. rewrite Hl, Hn1 in H. discriminate.
Qed.

End Calls.

(** C5. An error raised by a [raise] statement of the extractor is expected
    and carries one of two messages, [Broadcast not found] or
    [Broadcast has an archive status of <status>]; and no source is asked
    twice: the requests of a run are the page, the broadcast API, the LSS API
    and the manifest, each at most once, in this order. *)
Theorem only_expected_errors E W (fw : Framework E W) url s :
  (forall e s', _real_extract fw url s = (Fail (Raised e), s') -> user_facing fw e) /\
  exists l, calls (snd (_real_extract fw url s)) = (calls s ++ l)%list /\ no_retry fw url l.
Proof.
  split.
  - intros e s' H. eapply only_real_extract. eassumption.
  - apply requests_real_extract.
Qed.

(** C6. The record of a successful extraction has exactly the fields [id],
    [title], [description], [thumbnail], [timestamp], [duration], [uploader],
    [uploader_id], [uploader_url], [view_count], [comment_count], [formats]
    and [is_live], and [formats] is what the manifest parser returned, sorted
    by the framework. *)
Theorem record_fields E W (fw : Framework E W) url s r s' :
  _real_extract fw url s = (Ok r, s') ->
  exists d,
    r = PDict d /\
    map fst d = [ "id"; "title"; "description"; "thumbnail"; "timestamp"; "duration";
                  "uploader"; "uploader_id"; "uploader_url"; "view_count";
                  "comment_count"; "formats"; "is_live" ] /\
    exists manifest_url video_id is_live parsed sa sb formats sc,
      _extract_m3u8_formats fw manifest_url video_id is_live sa = (Ok parsed, sb) /\
      _sort_formats fw parsed sb = (Ok formats, sc) /\
      lookup d "formats" = Some formats.
Proof.
  intros H. apply real_extract_ok in H.
  destruct H as [c b0 v0 req page s1 b v s2 info s3 item ls hls s4 m f0 s5 f s6
                   H1 H2 H3 H4 H5 H6 H7 H8 H9 H10].
  apply video_info_ok in H10.
  destruct H10 as (? & ? & ? & ? & ? & ? & ? & ? & ? & ? & ? & ? & ? & ? & ? & H10).
  decompose [and] H10. subst r.
  eexists. split; [reflexivity |]. split; [reflexivity |].
  exists m, v, (py_eq_str ls "LIVE"), f0, s4, s5, f, s6.
  repeat split; assumption || reflexivity.
Qed.

(** C7. When the helpers of the framework leave the extractor object as it
    is, so does an extraction, which has no assignment of its own: after the
    call every attribute has the value it had before. So a second extraction
    on the object the first one left runs as one on the object before the
    first, whatever the world and the call log are by then; and when the site
    answers the same, the second extraction, run in the state the first one
    left, returns what the first one returned. *)
Theorem extraction_keeps_object E W (fw : Framework E W) url s r s1 :
  keeps_self fw ->
  _real_extract fw url s = (r, s1) ->
  self s1 = self s /\
  (forall w log,
      _real_extract fw url {| self := self s1; world := w; calls := log |}
      = _real_extract fw url {| self := self s; world := w; calls := log |}) /\
  (same_answers fw ->
   fst (_real_extract fw url s1) = r /\
   self (snd (_real_extract fw url s1)) = self s).
Proof.
  intros Hfw Hrun. pose proof (@kept_real_extract E W fw Hfw url s) as Hkept.
  rewrite Hrun in Hkept. simpl in Hkept.
  split; [assumption |]. split.
  - intros w log. rewrite Hkept. reflexivity.
  - intros Hsa.
    destruct (@only_object_real_extract E W fw Hfw Hsa url s1 s Hkept) as [Hr Hs].
    rewrite Hrun in Hr, Hs. simpl in Hr, Hs.
    split; [exact Hr |]. rewrite Hs. assumption.
Qed.

(** C8. The channel id in the [id] of the record, its [uploader_id] and its
    [uploader_url] are those of the input URL. For an upcoming link only the
    broadcast id comes from the URL the page was served from, whatever
    channel that URL names. *)
Theorem channel_id_of_input_url E W (fw : Framework E W) url s r s' :
  _real_extract fw url s = (Ok r, s') ->
  exists channel_id broadcast_id link_type,
    _search_regex _VALID_URL url "channel_id" "channel_id" = Ok channel_id /\
    _search_regex _VALID_URL url "link_type" "link_type" = Ok link_type /\
    py_get r "id" = Ok (PStr (channel_id ++ "_" ++ broadcast_id)) /\
    py_get r "uploader_id" = Ok (PStr channel_id) /\
    py_get r "uploader_url" = Ok (PStr ("https://live.line.me/channels/" ++ channel_id)) /\
    (link_type <> "upcoming" -> _match_id url = Ok broadcast_id) /\
    (link_type = "upcoming" ->
     exists video_id0 req s0,
       _request_webpage fw url video_id0 s = (Ok req, s0) /\
       _match_id (resp_url req) = Ok broadcast_id).
Proof.
  intros Hrun. apply extracted_identity in Hrun.
  destruct Hrun as (c & b0 & v0 & req & page & s1 & b & v & s2 & H1 & H2 & Hid & Hu & Hurl).
  apply open_page_ok in H1. destruct H1 as (Hc & Hb0 & Hv0 & s0 & Hreq & _).
  apply resolve_upcoming_ok in H2. destruct H2 as (-> & lt & Hlt & Hcase).
  exists c, b, lt. do 2 (split; [assumption |]).
  destruct Hcase as [(Hne & -> & ->) | (-> & Hsr & Hm & ->)].
  - subst v0. do 3 (split; [assumption |]). split.
    + intros _. assumption.
    + intros Heq. contradiction.
  - do 3 (split; [assumption |]). split.
    + intros Hne. elim Hne. reflexivity.
    + intros _. exists v0, req, s0. split; assumption.
Qed.

(** C9. The [timestamp], [view_count] and [comment_count] of the record are
    what [int_or_none] makes of the [createdAt], [viewerCount] and
    [chatCount] of the item of the broadcast info this run looked up, so each
    is an integer or [None]. *)
Theorem counts_are_int_or_none E W (fw : Framework E W) url s r s' :
  _real_extract fw url s = (Ok r, s') ->
  exists video_id broadcast_info item is_live s3 timestamp view_count comment_count,
    reaches_streams fw url s video_id broadcast_info item is_live s3 /\
    py_get item "createdAt" = Ok timestamp /\
    py_get item "viewerCount" = Ok view_count /\
    py_get item "chatCount" = Ok comment_count /\
    py_get r "timestamp" = Ok (int_or_none timestamp) /\
    py_get r "view_count" = Ok (int_or_none view_count) /\
    py_get r "comment_count" = Ok (int_or_none comment_count) /\
    is_int_or_none (int_or_none timestamp) = true /\
    is_int_or_none (int_or_none view_count) = true /\
    is_int_or_none (int_or_none comment_count) = true.
Proof.
  intros H. apply real_extract_ok in H.
  destruct H as [c b0 v0 req page s1 b v s2 info s3 item ls hls s4 m f0 s5 f s6
                   H1 H2 H3 H4 H5 H6 H7 H8 H9 H10].
  apply video_info_ok in H10.
  destruct H10 as (t0 & t1 & sa & d0 & d & sb & th0 & th & sc & t & ts & vc & cc
                   & du & up & H10).
  decompose [and] H10. subst r.
  exists v, info, item, (py_eq_str ls "LIVE"), s3, ts, vc, cc.
  split.
  { exists c, b, page, s2, ls. split.
    - exists b0, v0, req, s1. split; assumption.
    - repeat split; assumption. }
  repeat split; try assumption; try reflexivity; apply int_or_none_type.
Qed.

(** C10. The [is_live] of the record is true exactly when the [liveStatus]
    of the item this run looked up is the string [LIVE]. The LSS API, if the
    manifest lookup of the run asked it, was asked at its [live] endpoint
    when the flag is true and at [vod] otherwise. When the flag is true, the
    [title] of the record is what [_live_title], called last, made of the
    extracted title: the [title] of the item, or the title of the page. *)
Theorem live_flag E W (fw : Framework E W) url s r s' :
  _real_extract fw url s = (Ok r, s') ->
  exists channel_id broadcast_id video_id webpage s2 broadcast_info s3 item live_status
         is_live hls_urls s4 manifest_url formats0 s5 formats s6,
    reaches_lookup fw url s channel_id broadcast_id video_id webpage s2 /\
    broadcast_info_lookup fw channel_id broadcast_id video_id webpage s2
    = (Ok broadcast_info, s3) /\
    py_get broadcast_info "item" = Ok item /\
    py_get item "liveStatus" = Ok live_status /\
    py_get r "is_live" = Ok (PBool is_live) /\
    (is_live = true <-> live_status = PStr "LIVE") /\
    hls_urls_lookup fw broadcast_info item is_live video_id s3 = (Ok hls_urls, s4) /\
    (exists lsa,
        py_get broadcast_info "lsaPath" = Ok lsa /\
        (calls s4 = calls s3 \/
         calls s4
         = (calls s3
              ++ [Call_download_json
                    (update_url_query fw
                       ("https://lssapi.line-apps.com/v1/"
                          ++ (if is_live then "live" else "vod") ++ "/playInfo")
                       [("contentId", lsa)]) video_id])%list)) /\
    py_get hls_urls "abr" = Ok manifest_url /\
    _extract_m3u8_formats fw manifest_url video_id is_live s4 = (Ok formats0, s5) /\
    _sort_formats fw formats0 s5 = (Ok formats, s6) /\
    exists title0 title1 sa description0 description sb thumbnail0 thumbnail sc title,
      py_get item "title" = Ok title0 /\
      py_or title0 (_og_search_title fw webpage) s6 = (Ok title1, sa) /\
      py_get broadcast_info "description" = Ok description0 /\
      py_or description0 (_og_search_description fw webpage) sa = (Ok description, sb) /\
      try_get item (fun x => obind (py_getitem x "thumbnailURLs")
                                   (fun t => py_getitem t "large1x1"))
              is_str = Ok thumbnail0 /\
      py_or thumbnail0 (_og_search_thumbnail fw webpage) sb = (Ok thumbnail, sc) /\
      py_get r "title" = Ok title /\
      (is_live = true -> _live_title fw title1 sc = (Ok title, s')) /\
      (is_live = false -> title = title1 /\ s' = sc).
Proof.
  intros H. apply real_extract_ok in H.
  destruct H as [c b0 v0 req page s1 b v s2 info s3 item ls hls s4 m f0 s5 f s6
                   H1 H2 H3 H4 H5 H6 H7 H8 H9 H10].
  apply video_info_ok in H10.
  destruct H10 as (t0 & t1 & sa & d0 & d & sb & th0 & th & sc & t & ts & vc & cc
                   & du & up & H10).
  decompose [and] H10. subst r.
  exists c, b, v, page, s2, info, s3, item, ls, (py_eq_str ls "LIVE"),
    hls, s4, m, f0, s5, f, s6.
  split; [exists b0, v0, req, s1; split; assumption |].
  do 3 (split; [assumption |]).
  split; [reflexivity |].
  split; [apply py_eq_str_iff |].
  split; [assumption |].
  split.
  { destruct (@py_get_total _ _ _ "lsaPath" H4) as [lsa Hp].
    exists lsa. split; [assumption |].
    exact (@hls_ok_calls E W fw info item (py_eq_str ls "LIVE") v s3 hls s4 lsa H6 Hp). }
  do 3 (split; [assumption |]).
  exists t0, t1, sa, d0, d, sb, th0, th, sc, t.
  do 6 (split; [assumption |]).
  split; [reflexivity |].
  split.
  - intros Hlive. rewrite Hlive in *. assumption.
  - intros Hlive. rewrite Hlive in *.
    match goal with Hr : ret _ _ = (Ok _, _) |- _ => apply ret_ok in Hr; destruct Hr end.
    split; assumption.
Qed.

Lemma upcoming_link_resolution_witness :
  open_page (Demo.framework Demo.upcoming) Demo.upcoming_url Demo.start
  = (Ok ("21", "8694200", "21_8694200",
         {| resp_url := "https://live.line.me/channels/21/broadcast/8656158";
            resp_body := "page" |}, "page"),
     {| self := 7; world := 1;
        calls := [ Call_request_webpage Demo.upcoming_url "21_8694200";
                   Call_webpage_read_content Demo.upcoming_url "21_8694200" ] |}) /\
  (forall r s',
      _real_extract (Demo.framework Demo.upcoming) Demo.upcoming_url Demo.start
      = (Ok r, s') ->
      py_get r "id" = Ok (PStr "21_8656158")).
Proof.
  split; [vm_compute; reflexivity |].
  destruct (@upcoming_link_resolution nat nat (Demo.framework Demo.upcoming)
              Demo.upcoming_url Demo.start "21" "8694200" "21_8694200"
              {| resp_url := "https://live.line.me/channels/21/broadcast/8656158";
                 resp_body := "page" |} "page"
              {| self := 7; world := 1;
                 calls := [ Call_request_webpage Demo.upcoming_url "21_8694200";
                            Call_webpage_read_content Demo.upcoming_url "21_8694200" ] |}
              eq_refl)
    as (lt & Hlt & _ & Hup).
  assert (Heq : lt = "upcoming") by (vm_compute in Hlt; congruence).
  destruct (Hup Heq) as [_ Hre].
  destruct (Hre "8656158" eq_refl eq_refl) as [_ Hid].
  exact Hid.
Defined.

Lemma upcoming_link_counterexample :
  (_search_regex _VALID_URL Demo.upcoming_url "link_type" "link_type" = Ok "upcoming" /\
   _search_regex _VALID_URL (Demo.served_from Demo.not_found Demo.upcoming_url)
                 "link_type" "link_type" <> Ok "broadcast" /\
   fst (_real_extract (Demo.framework Demo.not_found) Demo.upcoming_url Demo.start)
   = Fail (RegexNotFoundError "link_type") /\
   fst (_real_extract (Demo.framework Demo.not_found) Demo.upcoming_url Demo.start)
   <> Fail (Raised broadcast_not_found)) /\
  (_search_regex _VALID_URL (Demo.served_from Demo.elsewhere Demo.upcoming_url)
                 "link_type" "link_type" = Ok "broadcast" /\
   fst (_real_extract (Demo.framework Demo.elsewhere) Demo.upcoming_url Demo.start)
   = Fail AssertionError).
Proof.
  repeat split; try (vm_compute; reflexivity); vm_compute; discriminate.
Qed.

Lemma broadcast_info_order_witness :
  reaches_lookup (Demo.framework Demo.unknown) Demo.broadcast_url Demo.start
                 "21" "7862238" "21_7862238" "page" Demo.page_read /\
  exists info s1,
    _download_json (Demo.framework Demo.unknown)
                   (broadcast_api_url "21" "7862238") "21_7862238" Demo.page_read
    = (Ok info, s1) /\
    calls s1 = (calls Demo.page_read
                  ++ [Call_download_json (broadcast_api_url "21" "7862238") "21_7862238"])%list.
Proof.
  assert (Hreach : reaches_lookup (Demo.framework Demo.unknown) Demo.broadcast_url
                                  Demo.start "21" "7862238" "21_7862238" "page"
                                  Demo.page_read).
  { exists "7862238", "21_7862238",
      {| resp_url := Demo.broadcast_url; resp_body := "page" |}, Demo.page_read.
    split; vm_compute; reflexivity. }
  split; [exact Hreach |].
  destruct (broadcast_info_order Hreach) as (info & s1 & Hrun & Hcalls & _).
  exists info, s1. split; assumption.
Defined.

Lemma manifest_sources_witness :
  reaches_streams (Demo.framework Demo.expired) Demo.broadcast_url Demo.start
                  "21_7862238" (Demo.hidden_info "FINISHED") (Demo.item "FINISHED")
                  false Demo.info_read /\
  exists lsa,
    py_get (Demo.hidden_info "FINISHED") "lsaPath" = Ok lsa /\
    lss_api_url (Demo.framework Demo.expired) false lsa
    = update_url_query (Demo.framework Demo.expired)
                       "https://lssapi.line-apps.com/v1/vod/playInfo"
                       [("contentId", lsa)].
Proof.
  assert (Hreach : reaches_streams (Demo.framework Demo.expired) Demo.broadcast_url
                                   Demo.start "21_7862238" (Demo.hidden_info "FINISHED")
                                   (Demo.item "FINISHED") false Demo.info_read).
  { exists "21", "7862238", "page", Demo.page_read, (PStr "FINISHED").
    split.
    - exists "7862238", "21_7862238",
        {| resp_url := Demo.broadcast_url; resp_body := "page" |}, Demo.page_read.
      split; vm_compute; reflexivity.
    - repeat split; vm_compute; reflexivity. }
  split; [exact Hreach |].
  destruct (manifest_sources Hreach)
    as (live_urls & archived_urls & lsa & status & _ & _ & Hp & _ & Hurl & _).
  exists lsa. split; assumption.
Defined.

Lemma only_expected_errors_witness :
  fst (_real_extract (Demo.framework Demo.expired) Demo.broadcast_url Demo.start)
  = Fail (Raised {| msg := "Broadcast has an archive status of ARCHIVED";
                    expected := true |}) /\
  user_facing (Demo.framework Demo.expired)
              {| msg := "Broadcast has an archive status of ARCHIVED"; expected := true |}.
Proof.
  split; [vm_compute; reflexivity |].
  apply (proj1 (only_expected_errors (Demo.framework Demo.expired)
                                     Demo.broadcast_url Demo.start))
    with (s' := snd (_real_extract (Demo.framework Demo.expired)
                                   Demo.broadcast_url Demo.start)).
  vm_compute. reflexivity.
Defined.

Lemma record_fields_witness :
  _real_extract (Demo.framework Demo.archive) Demo.broadcast_url Demo.start
  = (Ok Demo.archive_record, Demo.archive_end) /\
  exists d,
    Demo.archive_record = PDict d /\
    map fst d = [ "id"; "title"; "description"; "thumbnail"; "timestamp"; "duration";
                  "uploader"; "uploader_id"; "uploader_url"; "view_count";
                  "comment_count"; "formats"; "is_live" ].
Proof.
  assert (Hrun : _real_extract (Demo.framework Demo.archive) Demo.broadcast_url Demo.start
                 = (Ok Demo.archive_record, Demo.archive_end))
    by (vm_compute; reflexivity).
  split; [exact Hrun |].
  destruct (record_fields _ _ _ Hrun) as (d & Hd & Hkeys & _).
  exists d. split; assumption.
Defined.

Lemma demo_keeps_self x : keeps_self (Demo.framework x).
Proof.
  constructor; intros; intros e w; simpl;
    repeat match goal with
           | |- context [match ?y with _ => _ end] => destruct y
           end; reflexivity.
Defined.

Lemma demo_same_answers x : same_answers (Demo.framework x).
Proof.
  constructor; intros; intros e w w'; simpl;
    repeat match goal with
           | |- context [match ?y with _ => _ end] => destruct y
           end; reflexivity.
Defined.

Lemma extraction_keeps_object_witness :
  keeps_self (Demo.framework Demo.archive) /\
  same_answers (Demo.framework Demo.archive) /\
  _real_extract (Demo.framework Demo.archive) Demo.broadcast_url Demo.start
  = (Ok Demo.archive_record, Demo.archive_end) /\
  self Demo.archive_end = 7 /\
  world Demo.archive_end = 3 /\
  fst (_real_extract (Demo.framework Demo.archive) Demo.broadcast_url Demo.archive_end)
  = Ok Demo.archive_record.
Proof.
  split; [apply demo_keeps_self |].
  split; [apply demo_same_answers |].
  assert (Hrun : _real_extract (Demo.framework Demo.archive) Demo.broadcast_url Demo.start
                 = (Ok Demo.archive_record, Demo.archive_end))
    by (vm_compute; reflexivity).
  split; [exact Hrun |].
  destruct (@extraction_keeps_object nat nat (Demo.framework Demo.archive)
              Demo.broadcast_url Demo.start (Ok Demo.archive_record) Demo.archive_end
              (demo_keeps_self Demo.archive) Hrun) as (Hself & _ & Hagain).
  split; [exact Hself |].
  split; [reflexivity |].
  exact (proj1 (Hagain (demo_same_answers Demo.archive))).
Defined.

Lemma channel_id_of_input_url_witness :
  _real_extract (Demo.framework Demo.moved) Demo.upcoming_url Demo.start
  = (Ok Demo.moved_record, Demo.moved_end) /\
  Demo.served_from Demo.moved Demo.upcoming_url
  = "https://live.line.me/channels/99/broadcast/8656158" /\
  py_get Demo.moved_record "uploader_id" = Ok (PStr "21") /\
  py_get Demo.moved_record "uploader_url" = Ok (PStr "https://live.line.me/channels/21").
Proof.
  assert (Hrun : _real_extract (Demo.framework Demo.moved) Demo.upcoming_url Demo.start
                 = (Ok Demo.moved_record, Demo.moved_end))
    by (vm_compute; reflexivity).
  split; [exact Hrun |]. split; [reflexivity |].
  destruct (channel_id_of_input_url _ _ _ Hrun)
    as (c & b & lt & Hc & _ & _ & Hu & Hurl & _).
  assert (Heq : c = "21") by (vm_compute in Hc; congruence).
  rewrite Heq in Hu, Hurl. split; assumption.
Defined.

Lemma counts_are_int_or_none_witness :
  _real_extract (Demo.framework Demo.archive) Demo.broadcast_url Demo.start
  = (Ok Demo.archive_record, Demo.archive_end) /\
  exists item,
    (exists video_id broadcast_info is_live s3,
        reaches_streams (Demo.framework Demo.archive) Demo.broadcast_url Demo.start
                        video_id broadcast_info item is_live s3) /\
    py_get item "createdAt" = Ok (PInt 1522506855) /\
    py_get item "viewerCount" = Ok (PStr "3020") /\
    py_get item "chatCount" = Ok (PStr "many") /\
    py_get Demo.archive_record "timestamp" = Ok (PInt 1522506855) /\
    py_get Demo.archive_record "view_count" = Ok (PInt 3020) /\
    py_get Demo.archive_record "comment_count" = Ok PNone.
Proof.
  assert (Hrun : _real_extract (Demo.framework Demo.archive) Demo.broadcast_url Demo.start
                 = (Ok Demo.archive_record, Demo.archive_end))
    by (vm_compute; reflexivity).
  split; [exact Hrun |].
  destruct (counts_are_int_or_none _ _ _ Hrun)
    as (v & info & item & live & s3 & ts & vc & cc
        & Hreach & Hts & Hvc & Hcc & H1 & H2 & H3 & _).
  exists item.
  split; [exists v, info, live, s3; exact Hreach |].
  destruct Hreach as (c & b & page & s2 & ls & (b0 & v0 & req & s1 & Ha & Hb)
                      & Hinfo & Hitem & _).
  vm_compute in Ha. inversion Ha; subst c b0 v0 req page s1. clear Ha.
  vm_compute in Hb. inversion Hb; subst b v s2. clear Hb.
  vm_compute in Hinfo. inversion Hinfo; subst info s3. clear Hinfo.
  vm_compute in Hitem. inversion Hitem; subst item. clear Hitem.
  vm_compute in Hts. inversion Hts; subst ts.
  vm_compute in Hvc. inversion Hvc; subst vc.
  vm_compute in Hcc. inversion Hcc; subst cc.
  repeat split; try (vm_compute; reflexivity); assumption.
Defined.

Lemma live_flag_witness :
  _real_extract (Demo.framework Demo.hidden_live) Demo.broadcast_url Demo.start
  = (Ok Demo.hidden_live_record, Demo.hidden_live_end) /\
  exists channel_id broadcast_id video_id webpage s2 broadcast_info s3 item live_status
         is_live,
    reaches_lookup (Demo.framework Demo.hidden_live) Demo.broadcast_url Demo.start
                   channel_id broadcast_id video_id webpage s2 /\
    broadcast_info_lookup (Demo.framework Demo.hidden_live)
                          channel_id broadcast_id video_id webpage s2
    = (Ok broadcast_info, s3) /\
    py_get broadcast_info "item" = Ok item /\
    py_get item "liveStatus" = Ok live_status /\
    py_get Demo.hidden_live_record "is_live" = Ok (PBool is_live) /\
    (is_live = true <-> live_status = PStr "LIVE").
Proof.
  assert (Hrun : _real_extract (Demo.framework Demo.hidden_live) Demo.broadcast_url
                               Demo.start
                 = (Ok Demo.hidden_live_record, Demo.hidden_live_end))
    by (vm_compute; reflexivity).
  split; [exact Hrun |].
  destruct (live_flag _ _ _ Hrun)
    as (c & b & v & page & s2 & info & s3 & item & ls & live & hls & s4 & m & f0 & s5
        & f & s6 & Hreach & Hinfo & Hitem & Hls & Hl & Hiff & _).
  exists c, b, v, page, s2, info, s3, item, ls, live.
  repeat split; try assumption; apply Hiff.
Defined.

(* ================================================================== *)
(** * More facts: the pattern, the requests of a run, the edges *)

(* ------------------------------------------------------------------ *)
(** ** The matcher finds all the pattern allows *)

Lemma string_length_app (a b : string) :
  String.length (a ++ b) = String.length a + String.length b.
Proof. induction a; simpl; congruence. Qed.

Lemma not_nullable_nonempty r w g :
  matches r w g -> nullable r = false -> w <> "".
Proof.
  induction 1; simpl; intros Hn; try discriminate.
  - apply andb_false_iff in Hn. destruct w1; simpl; [| discriminate].
    destruct Hn as [Hn | Hn]; [elim (IHmatches1 Hn); reflexivity | auto].
  - apply orb_false_iff in Hn. tauto.
  - apply orb_false_iff in Hn. tauto.
  - auto.
  - destruct w1; simpl; [elim (IHmatches1 Hn); reflexivity | discriminate].
  - auto.
Qed.

Lemma in_extend_intro w g w2 g2 s2 l :
  In (w2, g2, s2) l -> In (w ++ w2, (g ++ g2)%list, s2) (map (extend w g) l).
Proof. intros H. apply in_map_iff. exists (w2, g2, s2). split; [reflexivity | assumption]. Qed.

Lemma plus_hits_eq step fuel s :
  plus_hits step fuel s =
  flat_map (fun h1 : hit =>
              let '(w1, g1, s1) := h1 in
              (match fuel with
               | O => []
               | S fuel' =>
                   if (String.length s1 <? String.length s)%nat
                   then map (extend w1 g1) (plus_hits step fuel' s1)
                   else []
               end ++ [h1])%list)
           (step s).
Proof. destruct fuel; reflexivity. Qed.

(** The matcher is complete: it finds every match of a pattern whose
    repetitions consume a character each round. *)
Lemma hits_complete r w g :
  matches r w g -> plus_consumes r = true ->
  forall s', In (w, g, s') (hits r (w ++ s')).
Proof.
  induction 1; simpl; intros Hp s'.
  - left. reflexivity.
  - rewrite Ascii.eqb_refl. left. reflexivity.
  - rewrite H. left. reflexivity.
  - rewrite H. left. reflexivity.
  - apply andb_true_iff in Hp. destruct Hp as [Hp1 Hp2].
    apply in_flat_map. exists (w1, g1, w2 ++ s'). split.
    + rewrite append_assoc. apply IHmatches1. assumption.
    + apply in_extend_intro. apply IHmatches2. assumption.
  - apply andb_true_iff in Hp. apply in_or_app. left. apply IHmatches. tauto.
  - apply andb_true_iff in Hp. apply in_or_app. right. apply IHmatches. tauto.
  - apply in_or_app. left. apply IHmatches. assumption.
  - apply in_or_app. right. left. reflexivity.
  - apply andb_true_iff in Hp. destruct Hp as [_ Hp].
    rewrite plus_hits_eq. apply in_flat_map.
    exists (w, g, s'). split; [apply IHmatches; assumption |].
    apply in_or_app. right. left. reflexivity.
  - pose proof Hp as Hp'. apply andb_true_iff in Hp. destruct Hp as [Hn Hp].
    apply negb_true_iff in Hn.
    pose proof (not_nullable_nonempty H Hn) as Hne.
    specialize (IHmatches2 Hp' s'). simpl in IHmatches2.
    rewrite append_assoc.
    destruct (String.length (w1 ++ w2 ++ s')) as [| n] eqn:Hlen.
    { destruct w1; [elim Hne; reflexivity | discriminate]. }
    rewrite plus_hits_eq. apply in_flat_map. exists (w1, g1, w2 ++ s'). split.
    + apply IHmatches1. assumption.
    + apply in_or_app. left.
      assert (Hlt : (String.length (w2 ++ s') <? String.length (w1 ++ w2 ++ s'))%nat = true).
      { apply Nat.ltb_lt. rewrite (string_length_app w1).
        destruct w1; [elim Hne; reflexivity | simpl; lia]. }
      rewrite Hlt. apply in_extend_intro.
      rewrite (@plus_hits_fuel (hits r) n (String.length (w2 ++ s')) (w2 ++ s')).
      * exact IHmatches2.
      * rewrite string_length_app in Hlen. rewrite string_length_app.
        rewrite string_length_app in Hlen.
        destruct w1; [elim Hne; reflexivity | simpl in Hlen; lia].
      * lia.
  - apply in_map_iff. exists (w, g, s'). split; [reflexivity |].
    apply IHmatches. assumption.
Qed.

Lemma matches_lits_intro t : matches (lits t) t [].
Proof.
  induction t as [| c t IH]; simpl; [constructor |].
  exact (M_Cat (M_Lit c) IH).
Qed.

Lemma matches_plus_digit_intro d :
  all_digits d = true -> d <> "" -> matches (Plus Digit) d [].
Proof.
  induction d as [| c d IH]; intros Hd Hne; [elim Hne; reflexivity |].
  simpl in Hd. apply andb_true_iff in Hd. destruct Hd as [Hc Hd].
  destruct d as [| c' d'].
  - apply M_PlusOne. constructor. assumption.
  - exact (M_PlusMore (M_Digit c Hc) (IH Hd ltac:(discriminate))).
Qed.

Lemma matches_cat_intro r1 r2 w1 w2 g1 g2 w g :
  matches r1 w1 g1 -> matches r2 w2 g2 -> w = w1 ++ w2 -> g = (g1 ++ g2)%list ->
  matches (Cat r1 r2) w g.
Proof. intros H1 H2 -> ->. constructor; assumption. Qed.

Ltac piece tac := eapply matches_cat_intro; [tac | | reflexivity | reflexivity].

Lemma shape_matches url channel_id link_type broadcast_id :
  url_shape url channel_id link_type broadcast_id ->
  exists w rest g, url = w ++ rest /\ matches _VALID_URL w g.
Proof.
  intros (scheme & a & b & rest & -> & Hs & Ha & Hb & Hc & Hcn & Hlt & Hd & Hdn).
  exists (scheme ++ "://live" ++ String a ("line" ++ String b
            ("me/channels/" ++ channel_id ++ "/" ++ link_type ++ "/" ++ broadcast_id))),
    rest,
    [("channel_id", channel_id); ("link_type", link_type); ("id", broadcast_id)].
  split.
  - destruct Hs as [-> | ->]; simpl; rewrite !append_assoc; simpl;
      rewrite !append_assoc; reflexivity.
  - unfold _VALID_URL, cats.
    destruct Hs as [-> | ->]; destruct Hlt as [-> | ->];
      (piece ltac:(apply matches_lits_intro));
      first [ piece ltac:(apply M_OptSome; apply M_Lit) | piece ltac:(apply M_OptNone) ];
      (piece ltac:(apply matches_lits_intro));
      (piece ltac:(apply M_Any; exact Ha));
      (piece ltac:(apply matches_lits_intro));
      (piece ltac:(apply M_Any; exact Hb));
      (piece ltac:(apply matches_lits_intro));
      (piece ltac:(apply M_Named; apply (matches_plus_digit_intro Hc Hcn)));
      (piece ltac:(apply M_Lit));
      first [ piece ltac:(apply M_Named; apply M_OrL; apply matches_lits_intro)
            | piece ltac:(apply M_Named; apply M_OrR; apply matches_lits_intro) ];
      (piece ltac:(apply M_Lit));
      apply M_Named; apply matches_plus_digit_intro; assumption.
Qed.

Lemma hd_error_flat_map A B (f : A -> list B) l y :
  hd_error (flat_map f l) = Some y -> exists x, In x l /\ hd_error (f x) = Some y.
Proof.
  induction l as [| a l IH]; simpl; [discriminate |].
  destruct (f a) as [| b bs] eqn:Hfa; simpl.
  - intros H. destruct (IH H) as (x & Hin & Hx). exists x. auto.
  - intros H. exists a. rewrite Hfa. auto.
Qed.

Lemma stops_cat r1 r2 : stops_at_non_digit r2 -> stops_at_non_digit (Cat r1 r2).
Proof.
  intros H2 s w g s' Hhd. simpl in Hhd.
  apply hd_error_flat_map in Hhd. destruct Hhd as ([[w1 g1] s1] & _ & Hhd).
  destruct (hits r2 s1) as [| [[w2 g2] s2] l] eqn:Hh; [discriminate |].
  simpl in Hhd. inversion Hhd; subst. eapply (H2 s1). rewrite Hh. reflexivity.
Qed.

Lemma stops_named name r : stops_at_non_digit r -> stops_at_non_digit (Named name r).
Proof.
  intros H s w g s' Hhd. simpl in Hhd.
  destruct (hits r s) as [| [[w1 g1] s1] l] eqn:Hh; [discriminate |].
  simpl in Hhd. inversion Hhd; subst. eapply (H s). rewrite Hh. reflexivity.
Qed.

Section DigitRun.

Variable step : string -> list hit.
Hypothesis step_digit :
  forall s, step s = match s with
                     | String c s' => if is_digit c then [(String c "", [], s')] else []
                     | EmptyString => []
                     end.

Lemma plus_digit_none fuel s :
  plus_hits step fuel s = [] -> starts_with_digit s = false.
Proof.
  rewrite plus_hits_eq, step_digit. destruct s as [| c s1]; simpl; [reflexivity |].
  destruct (is_digit c); [| reflexivity].
  simpl. rewrite app_nil_r. intros H. apply app_eq_nil in H. destruct H; discriminate.
Qed.

Lemma plus_digit_head : forall fuel s w g s',
  String.length s <= fuel ->
  hd_error (plus_hits step fuel s) = Some (w, g, s') ->
  starts_with_digit s' = false.
Proof.
  induction fuel as [| n IH]; intros s w g s' Hlen Hhd;
    rewrite plus_hits_eq, step_digit in Hhd;
    destruct s as [| c s1]; simpl in Hhd; try discriminate;
    destruct (is_digit c); try discriminate; simpl in Hlen.
  - lia.
  - simpl in Hhd. rewrite app_nil_r in Hhd.
    assert (Hlt : (String.length s1 <? S (String.length s1))%nat = true)
      by (apply Nat.ltb_lt; lia).
    rewrite Hlt in Hhd.
    destruct (plus_hits step n s1) as [| [[w2 g2] s2] l] eqn:Hin.
    + simpl in Hhd. inversion Hhd; subst. eapply plus_digit_none. eassumption.
    + simpl in Hhd. inversion Hhd; subst.
      eapply (IH s1); [lia | rewrite Hin; reflexivity].
Qed.

End DigitRun.

Lemma stops_plus_digit : stops_at_non_digit (Plus Digit).
Proof.
  intros s w g s' Hhd. simpl in Hhd.
  eapply (@plus_digit_head (hits Digit)); [reflexivity | | eassumption]. lia.
Qed.

Lemma stops_valid_url : stops_at_non_digit _VALID_URL.
Proof.
  unfold _VALID_URL, cats.
  repeat apply stops_cat. apply stops_named, stops_plus_digit.
Qed.

Ltac strip_tail w b :=
  lazymatch w with
  | String "/"%char b => constr:(EmptyString)
  | String ?c ?t => let r := strip_tail t b in constr:(String c r)
  | append ?x ?t => let r := strip_tail t b in constr:(append x r)
  end.

Lemma valid_url_id_at_end w g :
  matches _VALID_URL w g ->
  exists pre channel_id link_type broadcast_id,
    g = [("channel_id", channel_id); ("link_type", link_type); ("id", broadcast_id)] /\
    w = pre ++ "/" ++ broadcast_id /\
    all_digits broadcast_id = true /\ broadcast_id <> "".
Proof.
  unfold _VALID_URL, cats. intros H. inv_matches; simpl;
    match goal with
    | |- exists pre c lt b, [(_, ?c0); (_, ?lt0); (_, ?b0)] = _ /\ ?w0 = _ /\ _ =>
        let p := strip_tail w0 b0 in exists p, c0, lt0, b0
    end;
    (split; [reflexivity |]); (split; [| split; assumption]);
    simpl; rewrite ?append_assoc; reflexivity.
Qed.

(** X1. The pattern accepts exactly the URLs of its shape: a URL is matched
    from its start if and only if it is [http] or [https], [://live], any
    character, [line], any character, [me/channels/], digits, a slash,
    [broadcast] or [upcoming], a slash and digits, followed by anything. *)
Theorem valid_url_accepts_exactly url :
  re_match _VALID_URL url <> None <->
  exists channel_id link_type broadcast_id,
    url_shape url channel_id link_type broadcast_id.
Proof.
  split.
  - destruct (re_match _VALID_URL url) as [g |] eqn:Hm; [| intros H; elim H; reflexivity].
    intros _. apply valid_url_groups in Hm.
    destruct Hm as (c & lt & b & _ & Hs). exists c, lt, b. assumption.
  - intros (c & lt & b & Hs). apply shape_matches in Hs.
    destruct Hs as (w & rest & g & -> & Hm).
    pose proof (hits_complete Hm eq_refl rest) as Hin.
    unfold re_match. destruct (hits _VALID_URL (w ++ rest)) as [| [[w1 g1] s1] l].
    + contradiction.
    + discriminate.
Qed.

(** X2. The broadcast id the pattern captures is a whole run of digits: it
    follows a slash, is not empty, and what follows it in the URL does not
    start with a digit. *)
Theorem broadcast_id_is_whole_run url g :
  re_match _VALID_URL url = Some g ->
  exists pre broadcast_id rest,
    group g "id" = Some broadcast_id /\
    url = pre ++ "/" ++ broadcast_id ++ rest /\
    all_digits broadcast_id = true /\ broadcast_id <> "" /\
    starts_with_digit rest = false.
Proof.
  unfold re_match. destruct (hits _VALID_URL url) as [| [[w g'] s'] l] eqn:Hh; [discriminate |].
  intros H. inversion H; subst g'.
  assert (Hin : In (w, g, s') (hits _VALID_URL url)) by (rewrite Hh; left; reflexivity).
  apply hits_sound in Hin. destruct Hin as [-> Hm].
  apply valid_url_id_at_end in Hm.
  destruct Hm as (pre & c & lt & b & -> & -> & Hd & Hne).
  exists pre, b, s'. split; [reflexivity |]. split.
  - rewrite !append_assoc. reflexivity.
  - repeat split; try assumption.
    pose proof (f_equal (@hd_error _) Hh) as Hhd. simpl in Hhd.
    eapply stops_valid_url. exact Hhd.
Qed.


(* ------------------------------------------------------------------ *)
(** ** URLs the extractor does not accept, and the ids of a record *)

Lemma search_has_channel_id s g :
  re_search _VALID_URL s = Some g -> exists c, group g "channel_id" = Some c.
Proof.
  intros H. apply search_groups in H. destruct H as (c & lt & b & -> & _).
  exists c. reflexivity.
Qed.

(** X3. On a URL the pattern does not match from its start, the extraction
    fails before any helper is called: the state, call log included, is
    unchanged, and the failure is the one of [_search_regex] (the pattern is
    nowhere in the URL) or the assertion of [_match_id] (it is there, but not
    at the start). *)
Theorem unaccepted_url_fails_before_any_request E W (fw : Framework E W) url s :
  suitable url = false ->
  exists f,
    _real_extract fw url s = (Fail f, s) /\
    (f = RegexNotFoundError "channel_id" \/ f = AssertionError).
Proof.
  unfold suitable. destruct (re_match _VALID_URL url) as [g |] eqn:Hm; [discriminate |].
  intros _. unfold _real_extract, open_page.
  unfold bind at 1. unfold bind at 1. unfold lift at 1.
  unfold _search_regex. destruct (re_search _VALID_URL url) as [g |] eqn:Hs.
  - destruct (search_has_channel_id _ Hs) as [c Hc]. rewrite Hc.
    unfold bind at 1. unfold lift at 1. unfold _match_id. rewrite Hm.
    exists AssertionError. split; [reflexivity | right; reflexivity].
  - exists (RegexNotFoundError "channel_id"). split; [reflexivity | left; reflexivity].
Qed.

Lemma video_id_injective c : forall b c' b',
  all_digits c = true -> all_digits c' = true ->
  c ++ "_" ++ b = c' ++ "_" ++ b' -> c = c' /\ b = b'.
Proof.
  induction c as [| x c IH]; intros b c' b' Hc Hc' Heq; destruct c' as [| x' c'];
    simpl in *.
  - inversion Heq. auto.
  - inversion Heq; subst x'. discriminate.
  - inversion Heq; subst x. discriminate.
  - apply andb_true_iff in Hc, Hc'. destruct Hc as [_ Hc], Hc' as [_ Hc'].
    inversion Heq; subst x'. destruct (IH b c' b' Hc Hc' H1) as [-> ->]. auto.
Qed.

Section Ids.
Variables E W : Type.
Variable fw : Framework E W.

(** The two ids of a record, both strings of digits. *)
Lemma extracted_ids url s r s' :
  _real_extract fw url s = (Ok r, s') ->
  exists c b,
    all_digits c = true /\ all_digits b = true /\
    py_get r "id" = Ok (PStr (c ++ "_" ++ b)) /\
    py_get r "uploader_id" = Ok (PStr c) /\
    py_get r "uploader_url" = Ok (PStr ("https://live.line.me/channels/" ++ c)).
Proof.
  intros Hrun. apply extracted_identity in Hrun.
  destruct Hrun as (c & b0 & v0 & req & page & s1 & b & v & s2 & H1 & H2 & Hid & Hu & Hurl).
  apply open_page_ok in H1. destruct H1 as (Hc & Hb0 & Hv0 & _).
  destruct (match_id_shape _ Hb0) as (c' & lt & Hshape & Hc' & _).
  rewrite Hc in Hc'. inversion Hc'; subst c'.
  destruct Hshape as (? & ? & ? & ? & _ & _ & _ & _ & Hcd & _ & _ & Hbd & _).
  apply resolve_upcoming_ok in H2. destruct H2 as (_ & lt' & _ & Hcase).
  destruct Hcase as [(_ & -> & ->) | (_ & _ & Hm & ->)].
  - exists c, b0. subst v0. auto.
  - exists c, b. destruct (match_id_digits _ Hm). auto.
Qed.

End Ids.

(** X4. The id identifies the channel: two extracted records with the same
    [id] have the same [uploader_id] and the same [uploader_url], whatever
    URLs and sites they came from. *)
Theorem same_id_same_channel E W (fw : Framework E W) E' W' (fw' : Framework E' W')
        url s r s1 url' s' r' s1' :
  _real_extract fw url s = (Ok r, s1) ->
  _real_extract fw' url' s' = (Ok r', s1') ->
  py_get r "id" = py_get r' "id" ->
  py_get r "uploader_id" = py_get r' "uploader_id" /\
  py_get r "uploader_url" = py_get r' "uploader_url".
Proof.
  intros H1 H2 Heq.
  apply extracted_ids in H1. destruct H1 as (c & b & Hc & _ & Hid & Hu & Hurl).
  apply extracted_ids in H2. destruct H2 as (c' & b' & Hc' & _ & Hid' & Hu' & Hurl').
  rewrite Hid, Hid' in Heq. inversion Heq as [Hv].
  destruct (@video_id_injective c b c' b' Hc Hc' Hv) as [-> _].
  rewrite Hu, Hu', Hurl, Hurl'. split; reflexivity.
Qed.

(** X9. An upcoming link whose page is served from the link itself (no
    redirect took place) fails with the expected [Broadcast not found]. *)
Theorem upcoming_link_served_from_itself E W (fw : Framework E W)
        url s c b0 v0 req page s1 :
  open_page fw url s = (Ok (c, b0, v0, req, page), s1) ->
  _search_regex _VALID_URL url "link_type" "link_type" = Ok "upcoming" ->
  resp_url req = url ->
  _real_extract fw url s = (Fail (Raised broadcast_not_found), s1).
Proof.
  intros Hopen Hlt Hsame. eapply fails_in_resolve; [eassumption |].
  rewrite (@resolve_upcoming_search E W url c b0 v0 req s1 Hlt), Hsame, Hlt.
  reflexivity.
Qed.


(* ------------------------------------------------------------------ *)
(** ** The requests and the lookups of a run *)

Ltac invert_ok :=
  repeat match goal with
    | H : bind _ _ _ = (Ok _, _) |- _ =>
        let a := fresh "a" in let s := fresh "s" in
        let H1 := fresh "Hrun" in let H2 := fresh "Hrun" in
        apply bind_ok in H; destruct H as (a & s & H1 & H2)
    | H : lift _ _ = (Ok _, _) |- _ => apply lift_ok in H; destruct H; subst
    | H : ret _ _ = (Ok _, _) |- _ => apply ret_ok in H; destruct H; subst
    end.

Section Requests.
Variables E W : Type.
Variable fw : Framework E W.

Lemma invoke_calls A c (h : helper E W A) (s : state E W) r s' :
  invoke c h s = (r, s') -> calls s' = (calls s ++ [c])%list.
Proof.
  intros H. destruct (invoke_run c h s) as (r0 & s0 & Hrun & Hcalls).
  rewrite H in Hrun. inversion Hrun; subst. assumption.
Qed.

Lemma emits_run A (P : list call -> Prop) (m : M E W A) s r s' :
  emits P m -> m s = (r, s') -> exists l, calls s' = (calls s ++ l)%list /\ P l.
Proof. intros Hm Hrun. specialize (Hm s). rewrite Hrun in Hm. exact Hm. Qed.

Lemma hls_ok_has_abr info item live v (s : state E W) hls s' :
  hls_urls_lookup fw info item live v s = (Ok hls, s') -> no_abr hls = Ok false.
Proof.
  unfold hls_urls_lookup. intros H. invert_ok.
  match goal with
  | H : (if ?b then _ else _) _ = (Ok hls, s') |- _ => destruct b eqn:Hb
  end.
  - invert_ok. discriminate.
  - invert_ok. assumption.
Qed.

Lemma no_abr_false hls :
  no_abr hls = Ok false -> exists m, py_get hls "abr" = Ok m /\ m <> PNone.
Proof.
  unfold no_abr. destruct hls; simpl; try discriminate.
  intros H. eexists. split; [reflexivity |].
  intros Hn. rewrite Hn in H. discriminate.
Qed.

End Requests.

(** X5. A successful extraction sends exactly these requests, in this
    order: the page, the broadcast API for the channel and broadcast of the
    returned [id], the LSS API or nothing, and the manifest; all but the
    first under the returned [id], and the manifest URL is never [None]. *)
Theorem successful_run_requests E W (fw : Framework E W) url s r s' :
  _real_extract fw url s = (Ok r, s') ->
  exists l video_id0 channel_id broadcast_id is_live manifest_url,
    calls s' = (calls s ++ l)%list /\
    py_get r "id" = Ok (PStr (channel_id ++ "_" ++ broadcast_id)) /\
    py_get r "is_live" = Ok (PBool is_live) /\
    manifest_url <> PNone /\
    (requests l
     = [ Call_request_webpage url video_id0;
         Call_download_json (broadcast_api_url channel_id broadcast_id)
                            (channel_id ++ "_" ++ broadcast_id);
         Call_extract_m3u8_formats manifest_url (channel_id ++ "_" ++ broadcast_id)
                                   is_live ]
     \/ exists lsa,
        requests l
        = [ Call_request_webpage url video_id0;
            Call_download_json (broadcast_api_url channel_id broadcast_id)
                               (channel_id ++ "_" ++ broadcast_id);
            Call_download_json (lss_api_url fw is_live lsa)
                               (channel_id ++ "_" ++ broadcast_id);
            Call_extract_m3u8_formats manifest_url (channel_id ++ "_" ++ broadcast_id)
                                      is_live ]).
Proof.
  intros H. apply real_extract_ok in H.
  destruct H as [c b0 v0 req page s1 b v s2 info s3 item ls hls s4 m f0 s5 f s6
                   H1 H2 H3 H4 H5 H6 H7 H8 H9 H10].
  apply open_page_ok in H1. destruct H1 as (_ & _ & Hv0 & s0 & Hreq & Hread).
  apply invoke_calls in Hreq. apply invoke_calls in Hread.
  assert (Hv : s2 = s1 /\ v = c ++ "_" ++ b).
  { apply resolve_upcoming_ok in H2. destruct H2 as (-> & lt & _ & Hcase).
    split; [reflexivity |].
    destruct Hcase as [(_ & -> & ->) | (_ & _ & _ & ->)]; [assumption | reflexivity]. }
  destruct Hv as [-> Hv].
  destruct (@emits_run _ _ _ _ _ _ _ _ (requests_broadcast_info_lookup fw c b v page) H3)
    as (l3 & Hc3 & Hr3).
  destruct (@py_get_total _ _ _ "lsaPath" H4) as [lsa Hp].
  pose proof (@hls_ok_calls E W fw info item (py_eq_str ls "LIVE") v s3 hls s4 lsa H6 Hp)
    as Hc4.
  pose proof (@hls_ok_has_abr _ _ _ _ _ _ _ _ _ _ H6) as Hn.
  destruct (@no_abr_false hls Hn) as (m' & Hm' & Hne). rewrite H7 in Hm'. inversion Hm'; subst m'.
  apply invoke_calls in H8. apply invoke_calls in H9.
  destruct (@emits_run _ _ _ _ _ _ _ _
              (quiet_video_info fw c v page info item (py_eq_str ls "LIVE") f) H10)
    as (l7 & Hc7 & Hr7).
  apply video_info_ok in H10.
  destruct H10 as (? & ? & ? & ? & ? & ? & ? & ? & ? & ? & ? & ? & ? & ? & ? & H10).
  decompose [and] H10. subst r. subst v.
  unfold quiet in Hr7.
  destruct Hc4 as [Hc4 | Hc4].
  - exists ([Call_request_webpage url v0; Call_webpage_read_content url v0] ++ l3
            ++ [Call_extract_m3u8_formats m (c ++ "_" ++ b) (py_eq_str ls "LIVE")]
            ++ [Call_sort_formats f0] ++ l7)%list,
      v0, c, b, (py_eq_str ls "LIVE"), m.
    split; [| split; [reflexivity | split; [reflexivity | split; [assumption |]]]].
    + rewrite Hc7, H9, H8, Hc4, Hc3, Hread, Hreq. rewrite <- !app_assoc. reflexivity.
    + left. rewrite !requests_app, Hr3, Hr7. reflexivity.
  - exists ([Call_request_webpage url v0; Call_webpage_read_content url v0] ++ l3
            ++ [Call_download_json (lss_api_url fw (py_eq_str ls "LIVE") lsa)
                                   (c ++ "_" ++ b)]
            ++ [Call_extract_m3u8_formats m (c ++ "_" ++ b) (py_eq_str ls "LIVE")]
            ++ [Call_sort_formats f0] ++ l7)%list,
      v0, c, b, (py_eq_str ls "LIVE"), m.
    split; [| split; [reflexivity | split; [reflexivity | split; [assumption |]]]].
    + rewrite Hc7, H9, H8, Hc4, Hc3, Hread, Hreq. rewrite <- !app_assoc. reflexivity.
    + right. exists lsa. rewrite !requests_app, Hr3, Hr7. reflexivity.
Qed.

Section Page.
Variables E W : Type.
Variable fw : Framework E W.

Lemma py_or_run x c (h : helper E W py_value) (s : state E W) v s' :
  py_or x (invoke c h) s = (Ok v, s') ->
  calls s' = (calls s ++ (if py_truthy x then [] else [c]))%list /\
  (py_truthy x = true -> v = x).
Proof.
  unfold py_or. destruct (py_truthy x).
  - intros H. apply ret_ok in H. destruct H as [-> ->].
    rewrite app_nil_r. auto.
  - intros H. apply invoke_calls in H. split; [assumption | discriminate].
Qed.

End Page.

(** X6. The page is searched only for what the API did not give: the last
    stage calls [_og_search_title], [_og_search_description] and
    [_og_search_thumbnail] exactly for the fields whose value from the API is
    false, and [_live_title] exactly for a live broadcast; a true value from
    the API is returned as it is. *)
Theorem page_is_searched_for_missing_fields E W (fw : Framework E W)
        channel_id video_id webpage broadcast_info item is_live formats s r s' :
  video_info fw channel_id video_id webpage broadcast_info item is_live formats s
  = (Ok r, s') ->
  exists title0 description0 thumbnail0 title1,
    py_get item "title" = Ok title0 /\
    py_get broadcast_info "description" = Ok description0 /\
    try_get item (fun x => obind (py_getitem x "thumbnailURLs")
                                 (fun t => py_getitem t "large1x1")) is_str
    = Ok thumbnail0 /\
    calls s'
    = (calls s
         ++ (if py_truthy title0 then [] else [Call_og_search_title])
         ++ (if py_truthy description0 then [] else [Call_og_search_description])
         ++ (if py_truthy thumbnail0 then [] else [Call_og_search_thumbnail])
         ++ (if is_live then [Call_live_title title1] else []))%list /\
    (py_truthy title0 = true -> title1 = title0) /\
    (is_live = false -> py_get r "title" = Ok title1) /\
    (py_truthy description0 = true -> py_get r "description" = Ok description0) /\
    (py_truthy thumbnail0 = true -> py_get r "thumbnail" = Ok thumbnail0).
Proof.
  intros H. apply video_info_ok in H.
  destruct H as (t0 & t1 & sa & d0 & d & sb & th0 & th & sc & t & ts & vc & cc
                 & du & up & H).
  destruct H as (Ht0 & Ht1 & _ & _ & _ & _ & _ & Hd0 & Hd & Hth0 & Hth & Hlive & ->).
  unfold _og_search_title in Ht1. unfold _og_search_description in Hd.
  unfold _og_search_thumbnail in Hth.
  apply py_or_run in Ht1, Hd, Hth.
  destruct Ht1 as [Hc1 Hv1], Hd as [Hc2 Hv2], Hth as [Hc3 Hv3].
  exists t0, d0, th0, t1. do 3 (split; [assumption |]).
  assert (Hc4 : calls s' = (calls sc ++ (if is_live then [Call_live_title t1] else []))%list
                /\ (is_live = false -> t = t1)).
  { destruct is_live.
    - unfold _live_title in Hlive. apply invoke_calls in Hlive.
      split; [assumption | discriminate].
    - apply ret_ok in Hlive. destruct Hlive as [-> ->].
      rewrite app_nil_r. auto. }
  destruct Hc4 as [Hc4 Hv4].
  split; [rewrite Hc4, Hc3, Hc2, Hc1, <- !app_assoc; reflexivity |].
  split; [assumption |].
  split; [intros Hl; rewrite (Hv4 Hl); reflexivity |].
  split; [intros Ht; rewrite (Hv2 Ht); reflexivity |].
  intros Ht. rewrite (Hv3 Ht). reflexivity.
Qed.

(** X7. A broadcast info whose [item] is not an object (or that is not an
    object itself) makes the extraction fail with an [AttributeError] right
    after the lookup: no manifest is looked for. *)
Theorem item_must_be_an_object E W (fw : Framework E W) url s0 c b v page s2 info s3 :
  reaches_lookup fw url s0 c b v page s2 ->
  broadcast_info_lookup fw c b v page s2 = (Ok info, s3) ->
  (forall item d, py_get info "item" = Ok item -> item <> PDict d) ->
  _real_extract fw url s0 = (Fail (PyError AttributeError), s3).
Proof.
  intros (b0 & v0 & req & s1 & H1 & H2) H3 Hitem. unfold _real_extract.
  unfold bind at 1. rewrite H1.
  unfold bind at 1. rewrite H2.
  unfold bind at 1. rewrite H3.
  unfold bind at 1. unfold lift at 1.
  destruct (py_get info "item") as [item | f] eqn:Hget.
  - unfold bind at 1. unfold lift at 1.
    destruct item; try reflexivity. elim (Hitem (PDict d) d eq_refl). reflexivity.
  - destruct info; simpl in Hget; inversion Hget; reflexivity.
Qed.

(** X8. The error about the archive status is raised only after the LSS API
    was asked, and its message ends with the [archiveStatus] of the item as
    [%s] prints it: [None] when the item has no such key. *)
Theorem archive_status_error E W (fw : Framework E W) info item live v s e s' :
  hls_urls_lookup fw info item live v s = (Fail (Raised e), s') ->
  exists lsa status,
    py_get info "lsaPath" = Ok lsa /\
    py_get item "archiveStatus" = Ok status /\
    calls s' = (calls s ++ [Call_download_json (lss_api_url fw live lsa) v])%list /\
    e = {| msg := "Broadcast has an archive status of " ++ py_str (repr_ fw) status;
           expected := true |} /\
    (forall d, item = PDict d -> lookup d "archiveStatus" = None ->
               msg e = "Broadcast has an archive status of None").
Proof.
  intros H.
  destruct (py_get info "liveHLSURLs") as [live_urls | f] eqn:Hl.
  2:{ unfold hls_urls_lookup, bind, lift in H. rewrite Hl in H.
      inversion H. elim (@not_raised_py_get info "liveHLSURLs" e). congruence. }
  destruct (@py_get_total _ _ _ "archivedHLSURLs" Hl) as [archived_urls Ha].
  destruct (@py_get_total _ _ _ "lsaPath" Hl) as [lsa Hp].
  destruct (no_abr live_urls) as [[|] | f] eqn:Hn1.
  - destruct (no_abr archived_urls) as [[|] | f] eqn:Hn2.
    + destruct (download_json_run fw (lss_api_url fw live lsa) v s)
        as (lss_info & s1 & Hrun & Hcalls).
      rewrite (@hls_from_lss E W fw info item live v s live_urls archived_urls lsa
                 lss_info s1 Hl Ha Hp Hn1 Hn2 Hrun) in H.
      destruct (if py_truthy lss_info then py_get lss_info "playUrls" else Ok PNone)
        as [play | f] eqn:Hplay.
      * destruct (no_abr play) as [[|] | f] eqn:Hn3.
        -- destruct (py_get item "archiveStatus") as [status | f] eqn:Hst.
           ++ inversion H; subst. exists lsa, status.
              repeat split; try assumption.
              intros d -> Hnone. simpl in Hst. rewrite Hnone in Hst.
              inversion Hst. reflexivity.
           ++ inversion H. elim (@not_raised_py_get item "archiveStatus" e). congruence.
        -- discriminate.
        -- inversion H. elim (@not_raised_no_abr play e). congruence.
      * inversion H. destruct (py_truthy lss_info); [| discriminate].
        elim (@not_raised_py_get lss_info "playUrls" e). congruence.
    + rewrite (@hls_from_archive E W fw info item live v s live_urls archived_urls
                 Hl Ha Hn1 Hn2) in H. discriminate.
    + unfold hls_urls_lookup, bind, lift in H. rewrite Hl, Hn1, Ha, Hn2 in H.
      inversion H. elim (@not_raised_no_abr archived_urls e). congruence.
  - rewrite (@hls_from_live E W fw info item live v s live_urls Hl Hn1) in H.
    discriminate.
  - unfold hls_urls_lookup, bind, lift in H. rewrite Hl, Hn1 in H.
    inversion H. elim (@not_raised_no_abr live_urls e). congruence.
Qed.

(** X10. The page is mandatory: when its download fails, the extraction
    fails with that failure and asks nothing else, the API included. *)
Theorem page_request_is_mandatory E W (fw : Framework E W) url s c b0 f s0 :
  _search_regex _VALID_URL url "channel_id" "channel_id" = Ok c ->
  _match_id url = Ok b0 ->
  _request_webpage fw url (c ++ "_" ++ b0) s = (Fail f, s0) ->
  _real_extract fw url s = (Fail f, s0) /\
  calls s0 = (calls s ++ [Call_request_webpage url (c ++ "_" ++ b0)])%list.
Proof.
  intros Hc Hb Hreq. split.
  - unfold _real_extract, open_page.
    unfold bind at 1. unfold bind at 1. unfold lift at 1. rewrite Hc.
    unfold bind at 1. unfold lift at 1. rewrite Hb.
    unfold bind at 1. rewrite Hreq. reflexivity.
  - apply invoke_calls in Hreq. assumption.
Qed.


(* ------------------------------------------------------------------ *)
(** ** From the ids back to the URL *)

Lemma valid_url_text w g :
  matches _VALID_URL w g ->
  exists scheme a b channel_id link_type broadcast_id,
    g = [("channel_id", channel_id); ("link_type", link_type); ("id", broadcast_id)] /\
    w = scheme ++ "://live" ++ String a ("line" ++ String b
          ("me/channels/" ++ channel_id ++ "/" ++ link_type ++ "/" ++ broadcast_id)) /\
    (scheme = "http" \/ scheme = "https") /\
    all_digits channel_id = true /\
    (link_type = "broadcast" \/ link_type = "upcoming").
Proof.
  unfold _VALID_URL, cats. intros H. inv_matches; simpl;
    match goal with
    | |- exists sch a b c lt bid, [(_, ?c0); (_, ?lt0); (_, ?b0)] = _ /\
           String "h" (String "t" (String "t" (String "p" (String "s" _)))) = _ /\ _ =>
        exists "https"
    | |- _ => exists "http"
    end;
    eexists _, _, _, _, _; (split; [reflexivity |]); (split; [reflexivity |]);
    repeat split; auto.
Qed.

Lemma digits_until c : forall x c' y (sep : ascii),
  is_digit sep = false ->
  all_digits c = true -> all_digits c' = true ->
  c ++ String sep x = c' ++ String sep y -> c = c' /\ x = y.
Proof.
  induction c as [| d c IH]; intros x c' y sep Hsep Hc Hc' Heq;
    destruct c' as [| d' c']; simpl in *.
  - inversion Heq. auto.
  - inversion Heq; subst d'. rewrite Hsep in Hc'. discriminate.
  - inversion Heq; subst d. rewrite Hsep in Hc. discriminate.
  - apply andb_true_iff in Hc, Hc'. destruct Hc as [_ Hc], Hc' as [_ Hc'].
    inversion Heq; subst d'. destruct (IH x c' y sep Hsep Hc Hc' H1) as [-> ->]. auto.
Qed.

Lemma digits_then_other b' : forall s' b,
  all_digits b = true -> starts_with_digit s' = false -> b' ++ s' = b ->
  s' = "" /\ b' = b.
Proof.
  induction b' as [| d b' IH]; intros s' b Hb Hs Heq; simpl in Heq.
  - subst s'. destruct b as [| x t]; [auto |].
    simpl in *. rewrite Hs in Hb. discriminate.
  - destruct b as [| x t]; [discriminate |]. inversion Heq; subst x.
    simpl in Hb. apply andb_true_iff in Hb. destruct Hb as [_ Hb].
    destruct (IH s' t Hb Hs H1) as [-> ->]. auto.
Qed.

Lemma append_empty_r (w : string) : w ++ "" = w.
Proof. induction w; simpl; congruence. Qed.

(** X11. Round trip: the URL written from a channel id, a link type and a
    broadcast id is matched by the pattern, and the groups of the match are
    these three. *)
Theorem canonical_url_round_trip channel_id link_type broadcast_id :
  all_digits channel_id = true -> channel_id <> "" ->
  all_digits broadcast_id = true -> broadcast_id <> "" ->
  link_type = "broadcast" \/ link_type = "upcoming" ->
  re_match _VALID_URL ("https://live.line.me/channels/" ++ channel_id ++ "/"
                         ++ link_type ++ "/" ++ broadcast_id)
  = Some [("channel_id", channel_id); ("link_type", link_type); ("id", broadcast_id)].
Proof.
  intros Hc Hcn Hb Hbn Hlt.
  set (url := "https://live.line.me/channels/" ++ channel_id ++ "/"
                ++ link_type ++ "/" ++ broadcast_id).
  assert (Hshape : url_shape url channel_id link_type broadcast_id).
  { exists "https", "."%char, "."%char, "". repeat split; auto.
    unfold url. simpl. rewrite append_empty_r. reflexivity. }
  apply shape_matches in Hshape. destruct Hshape as (w0 & rest0 & g0 & Hurl0 & Hm0).
  pose proof (hits_complete Hm0 eq_refl rest0) as Hin0. rewrite <- Hurl0 in Hin0.
  unfold re_match.
  destruct (hits _VALID_URL url) as [| [[w g] s'] l] eqn:Hh; [contradiction |].
  clear Hin0 Hm0 Hurl0 w0 rest0 g0.
  assert (Hin : In (w, g, s') (hits _VALID_URL url)) by (rewrite Hh; left; reflexivity).
  apply hits_sound in Hin. destruct Hin as [Hurl Hm].
  assert (Hhd : hd_error (hits _VALID_URL url) = Some (w, g, s'))
    by (rewrite Hh; reflexivity).
  apply stops_valid_url in Hhd.
  apply valid_url_text in Hm.
  destruct Hm as (scheme & a & b & c' & lt' & b' & -> & -> & Hs & Hc' & Hlt').
  unfold url in Hurl.
  destruct Hs as [-> | ->]; simpl in Hurl; [discriminate |].
  inversion Hurl as [[Ha Hb0 Hrest]]. clear Hurl.
  rewrite append_assoc in Hrest. simpl in Hrest.
  destruct (@digits_until channel_id _ c' _ "/"%char eq_refl Hc Hc' Hrest) as [<- Hrest'].
  assert (Hlast : lt' = link_type /\ b' ++ s' = broadcast_id).
  { destruct Hlt as [-> | ->], Hlt' as [-> | ->]; simpl in Hrest';
      inversion Hrest'; auto. }
  destruct Hlast as [-> Hlast].
  destruct (@digits_then_other b' s' broadcast_id Hb Hhd Hlast) as [_ ->].
  reflexivity.
Qed.

Lemma broadcast_id_is_whole_run_witness :
  re_match _VALID_URL "https://live.line.me/channels/21/broadcast/7862238?x=9"
  = Some [("channel_id", "21"); ("link_type", "broadcast"); ("id", "7862238")] /\
  exists pre broadcast_id rest,
    group [("channel_id", "21"); ("link_type", "broadcast"); ("id", "7862238")] "id"
    = Some broadcast_id /\
    "https://live.line.me/channels/21/broadcast/7862238?x=9"
    = pre ++ "/" ++ broadcast_id ++ rest /\
    all_digits broadcast_id = true /\ broadcast_id <> "" /\
    starts_with_digit rest = false.
Proof.
  split; [vm_compute; reflexivity |].
  apply (@broadcast_id_is_whole_run
           "https://live.line.me/channels/21/broadcast/7862238?x=9").
  vm_compute. reflexivity.
Defined.

Lemma unaccepted_url_fails_before_any_request_witness :
  suitable "https://example.org/?to=https://live.line.me/channels/21/broadcast/7" = false /\
  exists f,
    _real_extract (Demo.framework Demo.archive)
                  "https://example.org/?to=https://live.line.me/channels/21/broadcast/7"
                  Demo.start
    = (Fail f, Demo.start) /\
    (f = RegexNotFoundError "channel_id" \/ f = AssertionError).
Proof.
  split; [vm_compute; reflexivity |].
  apply unaccepted_url_fails_before_any_request. vm_compute. reflexivity.
Defined.

Lemma same_id_same_channel_witness :
  _real_extract (Demo.framework Demo.upcoming) Demo.upcoming_url Demo.start
  = (Ok Cases.upcoming_record, Cases.upcoming_end) /\
  _real_extract (Demo.framework Demo.moved) Demo.upcoming_url Demo.start
  = (Ok Demo.moved_record, Demo.moved_end) /\
  py_get Cases.upcoming_record "id" = py_get Demo.moved_record "id" /\
  py_get Cases.upcoming_record "uploader_id" = py_get Demo.moved_record "uploader_id" /\
  py_get Cases.upcoming_record "uploader_url" = py_get Demo.moved_record "uploader_url".
Proof.
  assert (H1 : _real_extract (Demo.framework Demo.upcoming) Demo.upcoming_url Demo.start
               = (Ok Cases.upcoming_record, Cases.upcoming_end))
    by (vm_compute; reflexivity).
  assert (H2 : _real_extract (Demo.framework Demo.moved) Demo.upcoming_url Demo.start
               = (Ok Demo.moved_record, Demo.moved_end))
    by (vm_compute; reflexivity).
  assert (H3 : py_get Cases.upcoming_record "id" = py_get Demo.moved_record "id")
    by reflexivity.
  split; [exact H1 |]. split; [exact H2 |]. split; [exact H3 |].
  eapply same_id_same_channel; [exact H1 | exact H2 | exact H3].
Defined.

Lemma successful_run_requests_witness :
  _real_extract (Demo.framework Demo.hidden_live) Demo.broadcast_url Demo.start
  = (Ok Demo.hidden_live_record, Demo.hidden_live_end) /\
  exists l manifest_url,
    calls Demo.hidden_live_end = (calls Demo.start ++ l)%list /\
    manifest_url <> PNone /\
    exists video_id0 api video_id is_live lss,
      requests l
      = [ Call_request_webpage Demo.broadcast_url video_id0;
          Call_download_json api video_id;
          Call_download_json lss video_id;
          Call_extract_m3u8_formats manifest_url video_id is_live ].
Proof.
  assert (Hrun : _real_extract (Demo.framework Demo.hidden_live) Demo.broadcast_url
                               Demo.start
                 = (Ok Demo.hidden_live_record, Demo.hidden_live_end))
    by (vm_compute; reflexivity).
  split; [exact Hrun |].
  pose proof Hrun as Hx. apply successful_run_requests in Hx.
  destruct Hx
    as (l & v0 & c & b & live & m & Hcalls & _ & _ & Hm & [Hreq | [lsa Hreq]]).
  - exfalso. simpl in Hcalls. rewrite <- Hcalls in Hreq. vm_compute in Hreq.
    discriminate.
  - exists l, m. split; [assumption |]. split; [assumption |].
    eexists _, _, _, _, _. exact Hreq.
Defined.

Lemma page_is_searched_for_missing_fields_witness :
  video_info (Demo.framework Demo.hidden_live) "21" "21_7862238" "page"
             (Demo.hidden_info "LIVE") (Demo.item "LIVE") true
             Cases.hidden_live_formats Demo.start
  = (Ok (Demo.record_of Cases.hidden_live_info_run), snd Cases.hidden_live_info_run) /\
  calls (snd Cases.hidden_live_info_run)
  = [Call_og_search_description; Call_live_title (PStr "2shot")].
Proof.
  assert (Hrun : video_info (Demo.framework Demo.hidden_live) "21" "21_7862238" "page"
                            (Demo.hidden_info "LIVE") (Demo.item "LIVE") true
                            Cases.hidden_live_formats Demo.start
                 = (Ok (Demo.record_of Cases.hidden_live_info_run),
                    snd Cases.hidden_live_info_run))
    by (vm_compute; reflexivity).
  split; [exact Hrun |].
  pose proof Hrun as Hx. apply page_is_searched_for_missing_fields in Hx.
  destruct Hx
    as (t0 & d0 & th0 & t1 & Ht0 & Hd0 & Hth0 & Hcalls & Ht1 & _).
  vm_compute in Ht0, Hd0, Hth0.
  inversion Ht0; subst t0. inversion Hd0; subst d0. inversion Hth0; subst th0.
  rewrite (Ht1 eq_refl) in Hcalls. exact Hcalls.
Defined.

Lemma item_must_be_an_object_witness :
  reaches_lookup (Demo.framework Cases.null_item) Demo.broadcast_url Demo.start
                 "21" "7862238" "21_7862238" "page" Demo.page_read /\
  _real_extract (Demo.framework Cases.null_item) Demo.broadcast_url Demo.start
  = (Fail (PyError AttributeError), Cases.null_item_info_read).
Proof.
  assert (Hreach : reaches_lookup (Demo.framework Cases.null_item) Demo.broadcast_url
                                  Demo.start "21" "7862238" "21_7862238" "page"
                                  Demo.page_read).
  { exists "7862238", "21_7862238",
      {| resp_url := Demo.broadcast_url; resp_body := "page" |}, Demo.page_read.
    split; vm_compute; reflexivity. }
  split; [exact Hreach |].
  apply (@item_must_be_an_object nat nat (Demo.framework Cases.null_item)
           Demo.broadcast_url Demo.start "21" "7862238" "21_7862238" "page"
           Demo.page_read (PDict [("item", PNone)]) Cases.null_item_info_read Hreach).
  - vm_compute. reflexivity.
  - intros item d Hget. vm_compute in Hget. inversion Hget. discriminate.
Defined.

Lemma archive_status_error_witness :
  hls_urls_lookup (Demo.framework Demo.expired) (Demo.hidden_info "FINISHED")
                  (Demo.item "FINISHED") false "21_7862238" Demo.info_read
  = (Fail (Raised {| msg := "Broadcast has an archive status of ARCHIVED";
                     expected := true |}), Cases.expired_end) /\
  exists lsa,
    py_get (Demo.hidden_info "FINISHED") "lsaPath" = Ok lsa /\
    calls Cases.expired_end
    = (calls Demo.info_read
         ++ [Call_download_json (lss_api_url (Demo.framework Demo.expired) false lsa)
                                "21_7862238"])%list.
Proof.
  assert (Hrun : hls_urls_lookup (Demo.framework Demo.expired) (Demo.hidden_info "FINISHED")
                                 (Demo.item "FINISHED") false "21_7862238" Demo.info_read
                 = (Fail (Raised {| msg := "Broadcast has an archive status of ARCHIVED";
                                    expected := true |}), Cases.expired_end))
    by (vm_compute; reflexivity).
  split; [exact Hrun |].
  pose proof Hrun as Hx. apply archive_status_error in Hx.
  destruct Hx as (lsa & status & Hp & _ & Hcalls & _).
  exists lsa. split; assumption.
Defined.

Lemma upcoming_link_served_from_itself_witness :
  open_page (Demo.framework Demo.not_yet) Demo.upcoming_url Demo.start
  = (Ok ("21", "8694200", "21_8694200",
         {| resp_url := Demo.upcoming_url; resp_body := "page" |}, "page"),
     Cases.upcoming_page_read) /\
  _real_extract (Demo.framework Demo.not_yet) Demo.upcoming_url Demo.start
  = (Fail (Raised broadcast_not_found), Cases.upcoming_page_read).
Proof.
  assert (Hopen : open_page (Demo.framework Demo.not_yet) Demo.upcoming_url Demo.start
                  = (Ok ("21", "8694200", "21_8694200",
                         {| resp_url := Demo.upcoming_url; resp_body := "page" |}, "page"),
                     Cases.upcoming_page_read))
    by (vm_compute; reflexivity).
  split; [exact Hopen |].
  eapply upcoming_link_served_from_itself; [exact Hopen | |]; vm_compute; reflexivity.
Defined.

Lemma page_request_is_mandatory_witness :
  _request_webpage Cases.offline Demo.broadcast_url "21_7862238" Demo.start
  = (Fail (HelperError "Unable to download webpage"),
     {| self := 7; world := 1;
        calls := [Call_request_webpage Demo.broadcast_url "21_7862238"] |}) /\
  _real_extract Cases.offline Demo.broadcast_url Demo.start
  = (Fail (HelperError "Unable to download webpage"),
     {| self := 7; world := 1;
        calls := [Call_request_webpage Demo.broadcast_url "21_7862238"] |}).
Proof.
  split; [vm_compute; reflexivity |].
  apply (@page_request_is_mandatory nat nat Cases.offline Demo.broadcast_url Demo.start
           "21" "7862238"); vm_compute; reflexivity.
Defined.

Lemma canonical_url_round_trip_witness :
  all_digits "21" = true /\ all_digits "8656158" = true /\
  re_match _VALID_URL "https://live.line.me/channels/21/broadcast/8656158"
  = Some [("channel_id", "21"); ("link_type", "broadcast"); ("id", "8656158")].
Proof.
  split; [reflexivity |]. split; [reflexivity |].
  apply (@canonical_url_round_trip "21" "broadcast" "8656158");
    try reflexivity; try discriminate. left. reflexivity.
Defined.
